(** * Asset management frontend: error formatting, resource API, data hooks
      and toast registry

    A shallow embedding of the TypeScript sources
    - [frontend/src/utils/errorHandler.ts]  (formatError, getUserFriendlyErrorMessage)
    - [frontend/src/utils/apiClient.ts]     (the apiClient response interceptor)
    - [frontend/src/services/api.ts]        (the api response interceptor)
    - [frontend/src/services/assetApi.ts]   (AssetApi)
    - [frontend/src/types]                  (ApiException, AssetFilters, requests)
    - [frontend/src/hooks/useAssets.ts]     (the seven data hooks)
    - [frontend/src/contexts/ToastContext.tsx] (the toast registry)
    - [frontend/src/hooks/useFormSubmit.ts], [frontend/src/utils/globalErrorHandler.ts]
    - [frontend/src/components/AssetList.tsx], [frontend/src/components/SearchFilter.tsx]
    - [frontend/src/pages]                  (the detail, create and edit pages)

    Strings are byte strings read as UTF-8.  Numbers that are read back as
    text (HTTP statuses, page numbers, identifiers) are integers; the purchase
    price, which is only compared with zero, is an IEEE-754 double. *)

From Stdlib Require Import String Ascii List ZArith Bool Lia DecimalString Floats.
From Stdlib Require Import DecimalPos DecimalZ.
Import ListNotations.
Open Scope string_scope.

(* ===================================================================== *)
(** ** JavaScript data values *)
(* ===================================================================== *)

Module Js.

(** The class an object was built with: [instanceof Error] holds of
    [ErrorObject]; everything else that is an object is a [PlainObject]. *)
Inductive objclass : Type :=
| PlainObject
| ErrorObject.

(** Data values.  Objects carry their own enumerable data properties in
    insertion order; accessor properties, symbols, functions and objects
    that shadow [toString]/[valueOf] are outside the model. *)
#[warnings="-register-all"]
Inductive value : Type :=
| VUndefined
| VNull
| VBool (b : bool)
| VNum (n : Z)
| VStr (s : string)
| VArr (elems : list value)
| VObj (cls : objclass) (props : list (string * value)).

(** Completion of a synchronous computation: a value, or a thrown one. *)
Inductive completion (A : Type) : Type :=
| Normal (a : A)
| Throw (exn : value).
Arguments Normal {A} a.
Arguments Throw {A} exn.

Definition ret {A} (a : A) : completion A := Normal a.

Definition bind {A B} (c : completion A) (k : A -> completion B) : completion B :=
  match c with
  | Normal a => k a
  | Throw e => Throw e
  end.

Declare Scope js_scope.
Delimit Scope js_scope with js.
Notation "x <- c ;; k" := (bind c (fun x => k))
  (at level 61, c at next level, right associativity) : js_scope.

(** [typeof v] *)
Definition typeof (v : value) : string :=
  match v with
  | VUndefined => "undefined"
  | VNull => "object"
  | VBool _ => "boolean"
  | VNum _ => "number"
  | VStr _ => "string"
  | VArr _ => "object"
  | VObj _ _ => "object"
  end.

(** ToBoolean *)
Definition truthy (v : value) : bool :=
  match v with
  | VUndefined | VNull => false
  | VBool b => b
  | VNum n => negb (Z.eqb n 0)
  | VStr s => negb (String.eqb s "")
  | VArr _ | VObj _ _ => true
  end.

Definition nullish (v : value) : bool :=
  match v with
  | VUndefined | VNull => true
  | _ => false
  end.

(** [a || b] *)
Definition or_else (a b : value) : value := if truthy a then a else b.

(** [v instanceof Error] *)
Definition instanceof_Error (v : value) : bool :=
  match v with
  | VObj ErrorObject _ => true
  | _ => false
  end.

Fixpoint lookup (k : string) (props : list (string * value)) : option value :=
  match props with
  | [] => None
  | (k', x) :: rest => if String.eqb k k' then Some x else lookup k rest
  end.

(** What [Error.prototype] supplies when an instance has no own property. *)
Definition inherited (cls : objclass) (k : string) : value :=
  match cls with
  | ErrorObject =>
      if String.eqb k "message" then VStr ""
      else if String.eqb k "name" then VStr "Error"
      else VUndefined
  | PlainObject => VUndefined
  end.

(** [v?.k]: the property read that yields [undefined] on [null] and
    [undefined].  On primitives and arrays the names this program reads
    ([isAxiosError], [response], [request], [status], [data], [error],
    [detail], [message], [code], [details], [msg]) are not defined by any
    built-in prototype, so the read is [undefined]. *)
Definition prop (v : value) (k : string) : value :=
  match v with
  | VObj cls props =>
      match lookup k props with
      | Some x => x
      | None => inherited cls k
      end
  | _ => VUndefined
  end.

Definition TypeError (msg : string) : value :=
  VObj ErrorObject [("name", VStr "TypeError"); ("message", VStr msg)].

(** [v.k]: reading a property of [null] or [undefined] throws. *)
Definition get (v : value) (k : string) : completion value :=
  if nullish v
  then Throw (TypeError "Cannot read properties of null or undefined")
  else Normal (prop v k).

(** [k in v]: throws unless [v] is an object; own properties first, then
    what [inherited] knows of the prototype. *)
Definition has_property (k : string) (v : value) : completion bool :=
  match v with
  | VObj cls props =>
      Normal (match lookup k props with
              | Some _ => true
              | None =>
                  match cls with
                  | ErrorObject => String.eqb k "message" || String.eqb k "name"
                  | PlainObject => false
                  end
              end)
  | VArr _ => Normal false
  | _ => Throw (TypeError "Cannot use 'in' operator to search in a primitive")
  end.

(** [a === b] against a primitive literal [b]. *)
Definition strict_eq (a b : value) : bool :=
  match a, b with
  | VUndefined, VUndefined => true
  | VNull, VNull => true
  | VBool x, VBool y => Bool.eqb x y
  | VNum x, VNum y => Z.eqb x y
  | VStr x, VStr y => String.eqb x y
  | _, _ => false
  end.

(** Number::toString for an integer of magnitude below 10^21 (from there on
    JavaScript switches to exponent notation): its decimal digits. *)
Definition number_to_string (n : Z) : string :=
  NilZero.string_of_int (Z.to_int n).

(** ToString, as applied by template literals, [join] and the [Error]
    constructor. *)
Fixpoint to_string (v : value) : string :=
  match v with
  | VUndefined => "undefined"
  | VNull => "null"
  | VBool true => "true"
  | VBool false => "false"
  | VNum n => number_to_string n
  | VStr s => s
  | VArr elems =>
      (fix join (l : list value) : string :=
         match l with
         | [] => ""
         | x :: rest =>
             (match x with
              | VUndefined | VNull => ""
              | _ => to_string x
              end) ++
             (match rest with
              | [] => ""
              | _ :: _ => "," ++ join rest
              end)
         end) elems
  | VObj PlainObject _ => "[object Object]"
  | VObj ErrorObject props =>
      let field :=
        fix field (k dflt : string) (l : list (string * value)) : string :=
          match l with
          | [] => dflt
          | (k', x) :: rest =>
              if String.eqb k k'
              then match x with
                   | VUndefined => dflt
                   | _ => to_string x
                   end
              else field k dflt rest
          end in
      let name := field "name" "Error" props in
      let msg := field "message" "" props in
      if String.eqb name "" then msg
      else if String.eqb msg "" then name
      else name ++ ": " ++ msg
  end.

(** [Array.prototype.join]: [null] and [undefined] elements print as the
    empty string. *)
Fixpoint join (sep : string) (l : list value) : string :=
  match l with
  | [] => ""
  | x :: rest =>
      (if nullish x then "" else to_string x) ++
      (match rest with
       | [] => ""
       | _ :: _ => sep ++ join sep rest
       end)
  end.

End Js.

Import Js.
Open Scope js_scope.

(* ===================================================================== *)
(** ** utils/errorHandler.ts *)
(* ===================================================================== *)

Module ErrorHandler.

(** [interface ApiError { message; code?; status?; details? }].  An optional
    key the object literal does not write is [None]; a key written with the
    value [undefined] is [Some VUndefined]. *)
Record ApiError : Type := mkApiError {
  message : value;
  code : option value;
  status : option value;
  details : option value
}.

(** Reading an optional key: [undefined] when absent. *)
Definition read (o : option value) : value :=
  match o with
  | Some v => v
  | None => VUndefined
  end.

(** [function isAxiosError(error: any) { return error && error.isAxiosError === true; }] *)
Definition isAxiosError (error : value) : completion value :=
  if truthy error
  then flag <- get error "isAxiosError" ;;
       ret (VBool (strict_eq flag (VBool true)))
  else ret error.

(** The guard of the structured branch:
    [responseData && typeof responseData === "object" && "error" in responseData
     && responseData.error && typeof responseData.error === "object"]. *)
Definition isStructured (responseData : value) : completion bool :=
  if truthy responseData && String.eqb (typeof responseData) "object"
  then present <- has_property "error" responseData ;;
       if (present : bool)
       then inner <- get responseData "error" ;;
            ret (truthy inner && String.eqb (typeof inner) "object")
       else ret false
  else ret false.

Definition formatError (error : value) : completion ApiError :=
  axios <- isAxiosError error ;;
  if truthy axios then
    response <- get error "response" ;;
    let status := prop response "status" in
    let responseData := prop response "data" in
    structured <- isStructured responseData ;;
    if (structured : bool) then
      errorObj <- get responseData "error" ;;
      m <- get errorObj "message" ;;
      c <- get errorObj "code" ;;
      d <- get errorObj "details" ;;
      ret {| message := or_else m (VStr "An error occurred");
             code := Some (or_else c (VStr ("HTTP_" ++ to_string status)));
             status := Some status;
             details := Some d |}
    else if truthy responseData && String.eqb (typeof responseData) "string" then
      ret {| message := responseData;
             code := Some (VStr ("HTTP_" ++ to_string status));
             status := Some status;
             details := None |}
    else
      m <- get error "message" ;;
      if strict_eq m (VStr "Network Error") then
        ret {| message := VStr "Unable to connect to the server. Please check your internet connection.";
               code := Some (VStr "NETWORK_ERROR");
               status := None;
               details := None |}
      else
        ret {| message := or_else m (VStr "An unexpected error occurred");
               code := Some (VStr ("HTTP_" ++ to_string (or_else status (VStr "ERROR"))));
               status := Some status;
               details := None |}
  else if instanceof_Error error then
    m <- get error "message" ;;
    ret {| message := or_else m (VStr "An unexpected error occurred");
           code := Some (VStr "APP_ERROR");
           status := None;
           details := None |}
  else if String.eqb (typeof error) "string" then
    ret {| message := error;
           code := Some (VStr "APP_ERROR");
           status := None;
           details := None |}
  else
    ret {| message := VStr "An unexpected error occurred";
           code := Some (VStr "UNKNOWN_ERROR");
           status := None;
           details := None |}.

(** The [switch (error.status)] of getUserFriendlyErrorMessage. *)
Definition statusSentence (st : value) : option string :=
  if strict_eq st (VNum 400) then
    Some "The request contains invalid data. Please check your input and try again."
  else if strict_eq st (VNum 401) then
    Some "You need to be logged in to perform this action."
  else if strict_eq st (VNum 403) then
    Some "You don't have permission to perform this action."
  else if strict_eq st (VNum 404) then
    Some "The requested resource was not found."
  else if strict_eq st (VNum 409) then
    Some "This operation couldn't be completed due to a conflict with existing data."
  else if strict_eq st (VNum 422) then
    Some "The submitted data is invalid. Please check your input and try again."
  else if strict_eq st (VNum 429) then
    Some "Too many requests. Please try again later."
  else if strict_eq st (VNum 500) then
    Some "An internal server error occurred. Please try again later."
  else if strict_eq st (VNum 503) then
    Some "The service is temporarily unavailable. Please try again later."
  else None.

(** The [switch (error.code)] of getUserFriendlyErrorMessage. *)
Definition codeSentence (c : value) : option string :=
  if strict_eq c (VStr "NETWORK_ERROR") then
    Some "Unable to connect to the server. Please check your internet connection."
  else if strict_eq c (VStr "TIMEOUT_ERROR") then
    Some "The request timed out. Please try again later."
  else if strict_eq c (VStr "DUPLICATE_SERIAL") then
    Some "An asset with this serial number already exists."
  else None.

Definition getUserFriendlyErrorMessage (error : ApiError) : value :=
  match (if truthy (read (status error)) then statusSentence (read (status error)) else None) with
  | Some sentence => VStr sentence
  | None =>
      match (if truthy (read (code error)) then codeSentence (read (code error)) else None) with
      | Some sentence => VStr sentence
      | None => message error
      end
  end.

End ErrorHandler.

(* ===================================================================== *)
(** ** Asynchronous programs *)
(* ===================================================================== *)

(** An [async] function is a tree of the effects it performs; the
    continuation after an [await] takes what the awaited promise settled
    with. *)
Inductive prog (E : Type -> Type) (R : Type) : Type :=
| Ret (r : R)
| Vis (X : Type) (e : E X) (k : X -> prog E R).
Arguments Ret {E R} r.
Arguments Vis {E R X} e k.

Fixpoint pbind {E R S} (p : prog E R) (f : R -> prog E S) : prog E S :=
  match p with
  | Ret r => f r
  | Vis e k => Vis e (fun x => pbind (k x) f)
  end.

Definition trigger {E X} (e : E X) : prog E X := Vis e Ret.

Declare Scope prog_scope.
Delimit Scope prog_scope with prog.
Notation "x <~ p ;; q" := (pbind p (fun x => q))
  (at level 61, p at next level, right associativity) : prog_scope.
Notation "p ;;; q" := (pbind p (fun _ => q))
  (at level 61, right associativity) : prog_scope.
Open Scope prog_scope.

(** Running a program against a handler that threads a state. *)
Fixpoint run {E : Type -> Type} {R W : Type}
    (h : forall X, E X -> W -> X * W) (p : prog E R) (w : W) : R * W :=
  match p with
  | Ret r => (r, w)
  | Vis e k => let (x, w') := h _ e w in run h (k x) w'
  end.

(* ===================================================================== *)
(** ** types: requests, filters, ApiException *)
(* ===================================================================== *)

Module Types.

(** [CreateAssetRequest] and [UpdateAssetRequest] have the same fields.  The
    string fields are optional here because [validateAssetData] guards them
    with [?.] and [!]: [None] is a missing ([undefined]) field. *)
Record AssetRequest : Type := mkAssetRequest {
  name : option string;
  description : string;
  category : option string;
  serialNumber : option string;
  purchaseDate : option string;
  purchasePrice : float;
  status : option string
}.

(** The [number] of a filter field.  The model keeps the integers, which
    are what the pagination controls produce, and NaN, which is falsy like 0;
    fractions and magnitudes from 10^21 on, whose text is not a digit string,
    are not represented. *)
Inductive number : Type :=
| Int (n : Z)
| NaN.

Record AssetFilters : Type := mkAssetFilters {
  search : option string;
  filterCategory : option string;
  filterStatus : option string;
  page : option number;
  pageSize : option number
}.

(** [class ApiException extends Error]; [message] is what [super(message)]
    stored. *)
Record ApiException : Type := mkApiException {
  ex_status : value;
  ex_code : value;
  ex_message : string;
  ex_details : value
}.

(** [new ApiException(status, code, message, details)]: the [Error]
    constructor stores [ToString(message)], and nothing (so that the
    inherited empty message shows) when [message] is [undefined]. *)
Definition new_ApiException (status code message details : value) : ApiException :=
  {| ex_status := status;
     ex_code := code;
     ex_message := match message with
                   | VUndefined => ""
                   | _ => to_string message
                   end;
     ex_details := details |}.

(** What a rejected promise of the service layer carries. *)
Inductive thrown : Type :=
| ThrownApiException (ex : ApiException)
| ThrownValue (v : value).

Inductive settled (A : Type) : Type :=
| Fulfilled (a : A)
| Rejected (t : thrown).
Arguments Fulfilled {A} a.
Arguments Rejected {A} t.

End Types.

Import Types.

(* ===================================================================== *)
(** ** The two HTTP client wrappers *)
(* ===================================================================== *)

Module Http.

Inductive request : Type :=
| GET (url : string)
| POST (url : string) (body : AssetRequest)
| PUT (url : string) (body : AssetRequest)
| DELETE (url : string).

(** How the transport settles a request: with a response object, or with
    the error it rejects with. *)
Inductive http_result : Type :=
| Resolved (response : value)
| Failed (error : value).

(** One [console.error(...)] call: its arguments. *)
Definition logline : Type := list value.

(** services/api.ts, [api.interceptors.response.use(_, onRejected)]. *)
Definition api_onRejected (error : value) : list logline * value :=
  let log := [[VStr "Response error:"; error]] in
  match get error "response" with
  | Throw t => (log, t)
  | Normal response =>
      if truthy response then
        let status := prop response "status" in
        let data := prop response "data" in
        let line :=
          if strict_eq status (VNum 400) then [VStr "Bad Request:"; data]
          else if strict_eq status (VNum 401) then [VStr "Unauthorized access"]
          else if strict_eq status (VNum 403) then [VStr "Forbidden access"]
          else if strict_eq status (VNum 404) then [VStr "Resource not found"]
          else if strict_eq status (VNum 500) then [VStr "Internal server error"]
          else [VStr ("HTTP Error " ++ to_string status ++ ":"); data] in
        ((log ++ [line])%list, error)
      else if truthy (prop error "request") then
        ((log ++ [[VStr "Network error - no response received"]])%list, error)
      else
        ((log ++ [[VStr "Request setup error:"; prop error "message"]])%list, error)
  end.

(** The [api] instance as its callers see it: the transport, then the
    response interceptor on failure. *)
Definition api (transport : request -> http_result) (req : request) : http_result :=
  match transport req with
  | Resolved response => Resolved response
  | Failed error => Failed (snd (api_onRejected error))
  end.

(** The object literal an [ApiError] was written as. *)
Definition ApiError_to_value (e : ErrorHandler.ApiError) : value :=
  let opt (k : string) (o : option value) : list (string * value) :=
    match o with
    | Some v => [(k, v)]
    | None => []
    end in
  VObj PlainObject
    (("message", ErrorHandler.message e)
       :: opt "code" (ErrorHandler.code e)
       ++ opt "status" (ErrorHandler.status e)
       ++ opt "details" (ErrorHandler.details e))%list.

(** utils/apiClient.ts, [axiosInstance.interceptors.response.use(_, onRejected)];
    [production] is [process.env.NODE_ENV === "production"]. *)
Definition apiClient_onRejected (production : bool) (error : value) : list logline * value :=
  match ErrorHandler.formatError error with
  | Throw t => ([], t)
  | Normal formattedError =>
      ((if production then [] else [[VStr "API Error:"; ApiError_to_value formattedError]]),
       ApiError_to_value formattedError)
  end.

(** The [axiosInstance] of utils/apiClient.ts as [apiClient.get] and its
    siblings see it. *)
Definition axiosInstance (production : bool) (transport : request -> http_result)
    (req : request) : http_result :=
  match transport req with
  | Resolved response => Resolved response
  | Failed error => Failed (snd (apiClient_onRejected production error))
  end.

End Http.

Import Http.

(* ===================================================================== *)
(** ** String built-ins used by the service layer *)
(* ===================================================================== *)

Module Str.

Definition byte (c : ascii) : nat := nat_of_ascii c.

(** White space and line terminators that [String.prototype.trim] strips,
    by the length of their UTF-8 encoding. *)
Definition ws1 (c : ascii) : bool :=
  (* U+0009..U+000D, U+0020 *)
  (9 <=? byte c)%nat && (byte c <=? 13)%nat || (byte c =? 32)%nat.

Definition ws2 (c1 c2 : ascii) : bool :=
  (* U+00A0 *)
  (byte c1 =? 194)%nat && (byte c2 =? 160)%nat.

Definition ws3 (c1 c2 c3 : ascii) : bool :=
  (* U+1680 *)
  (byte c1 =? 225)%nat && (byte c2 =? 154)%nat && (byte c3 =? 128)%nat
  (* U+2000..U+200A, U+2028, U+2029, U+202F *)
  || (byte c1 =? 226)%nat && (byte c2 =? 128)%nat
     && ((128 <=? byte c3)%nat && (byte c3 <=? 138)%nat
         || (byte c3 =? 168)%nat || (byte c3 =? 169)%nat || (byte c3 =? 175)%nat)
  (* U+205F *)
  || (byte c1 =? 226)%nat && (byte c2 =? 129)%nat && (byte c3 =? 159)%nat
  (* U+3000 *)
  || (byte c1 =? 227)%nat && (byte c2 =? 128)%nat && (byte c3 =? 128)%nat
  (* U+FEFF *)
  || (byte c1 =? 239)%nat && (byte c2 =? 187)%nat && (byte c3 =? 191)%nat.

Fixpoint trimStart_bytes (l : list ascii) : list ascii :=
  match l with
  | [] => []
  | c1 :: r1 =>
      if ws1 c1 then trimStart_bytes r1
      else match r1 with
           | [] => l
           | c2 :: r2 =>
               if ws2 c1 c2 then trimStart_bytes r2
               else match r2 with
                    | [] => l
                    | c3 :: r3 => if ws3 c1 c2 c3 then trimStart_bytes r3 else l
                    end
           end
  end.

(** The same scan from the end, on the reversed bytes. *)
Fixpoint trimEnd_rev (l : list ascii) : list ascii :=
  match l with
  | [] => []
  | c1 :: r1 =>
      if ws1 c1 then trimEnd_rev r1
      else match r1 with
           | [] => l
           | c2 :: r2 =>
               if ws2 c2 c1 then trimEnd_rev r2
               else match r2 with
                    | [] => l
                    | c3 :: r3 => if ws3 c3 c2 c1 then trimEnd_rev r3 else l
                    end
           end
  end.

(** [s.trim()] *)
Definition trim (s : string) : string :=
  string_of_list_ascii
    (rev (trimEnd_rev (rev (trimStart_bytes (list_ascii_of_string s))))).

Definition hexDigit (n : nat) : ascii :=
  match String.get n "0123456789ABCDEF" with
  | Some c => c
  | None => "0"%char
  end.

(** The application/x-www-form-urlencoded byte serializer: alphanumerics
    and [*-._] stay, a space becomes [+], any other byte is
    percent-encoded. *)
Definition urlencodeByte (c : ascii) : string :=
  let n := byte c in
  if (n =? 32)%nat then "+"
  else if ((48 <=? n) && (n <=? 57) || (65 <=? n) && (n <=? 90)
           || (97 <=? n) && (n <=? 122)
           || (n =? 42) || (n =? 45) || (n =? 46) || (n =? 95))%nat
  then String c ""
  else String "%" (String (hexDigit (n / 16)) (String (hexDigit (n mod 16)) "")).

Fixpoint urlencode (s : string) : string :=
  match s with
  | EmptyString => ""
  | String c rest => urlencodeByte c ++ urlencode rest
  end.

(** [URLSearchParams.prototype.toString] of the pairs appended so far. *)
Fixpoint URLSearchParams_toString (params : list (string * string)) : string :=
  match params with
  | [] => ""
  | (k, v) :: rest =>
      urlencode k ++ "=" ++ urlencode v ++
      (match rest with
       | [] => ""
       | _ :: _ => "&" ++ URLSearchParams_toString rest
       end)
  end.

End Str.

(* ===================================================================== *)
(** ** services/assetApi.ts *)
(* ===================================================================== *)

Module AssetApi.

Definition BASE_PATH : string := "/api/assets".

(** The effect of the service layer: a call of [api.get], [api.post],
    [api.put] or [api.delete], awaited. *)
Inductive apiE : Type -> Type :=
| Call (req : request) : apiE http_result.

(** [private static handleApiError(error: any): ApiException] *)
Definition handleApiError (error : value) : completion ApiException :=
  (response <- get error "response" ;;
   if truthy response then
     let status := prop response "status" in
     let data := prop response "data" in
     let errorMessage :=
       or_else (or_else (prop (prop data "error") "message") (prop data "detail"))
               (VStr "An error occurred") in
     let errorCode :=
       or_else (prop (prop data "error") "code") (VStr ("HTTP_" ++ to_string status)) in
     let errorDetails := or_else (prop (prop data "error") "details") data in
     ret (new_ApiException status errorCode errorMessage errorDetails)
   else
     request <- get error "request" ;;
     if truthy request then
       ret (new_ApiException (VNum 0) (VStr "NETWORK_ERROR")
              (VStr "Network error - unable to reach server") VUndefined)
     else
       m <- get error "message" ;;
       ret (new_ApiException (VNum 0) (VStr "REQUEST_ERROR")
              (or_else m (VStr "Request setup error")) VUndefined))%js.

(** [catch (error) { throw this.handleApiError(error); }] *)
Definition rethrow {A} (error : value) : settled A :=
  match handleApiError error with
  | Normal ex => Rejected (ThrownApiException ex)
  | Throw t => Rejected (ThrownValue t)
  end.

(** [return response.data] inside the [try], and the [catch] around both
    the awaited call and that read. *)
Definition returnData (r : http_result) : settled value :=
  match r with
  | Resolved response =>
      match get response "data" with
      | Normal data => Fulfilled data
      | Throw t => rethrow t
      end
  | Failed error => rethrow error
  end.

(** [if (filters?.field) { params.append(k, filters.field); }] for a string
    field: appended when the field is there and truthy. *)
Definition appendText (k : string) (field : option string)
    (params : list (string * string)) : list (string * string) :=
  match field with
  | Some s => if String.eqb s "" then params else (params ++ [(k, s)])%list
  | None => params
  end.

(** [if (filters?.field) { params.append(k, filters.field.toString()); }] for
    a number field: 0 and NaN are falsy. *)
Definition appendNumber (k : string) (field : option number)
    (params : list (string * string)) : list (string * string) :=
  match field with
  | Some (Int n) => if Z.eqb n 0 then params else (params ++ [(k, number_to_string n)])%list
  | Some NaN => params
  | None => params
  end.

(** The pairs [getAssets] has appended to its [URLSearchParams] when it
    serializes them; [filters?.] reads [undefined] from missing filters. *)
Definition queryParams (filters : option AssetFilters) : list (string * string) :=
  let field {A} (read : AssetFilters -> option A) : option A :=
    match filters with
    | Some f => read f
    | None => None
    end in
  let params := [] in
  let params := appendText "search" (field search) params in
  let params := appendText "category" (field filterCategory) params in
  let params := appendText "status" (field filterStatus) params in
  let params := appendNumber "page" (field page) params in
  let params := appendNumber "page_size" (field pageSize) params in
  params.

Definition assetsUrl (filters : option AssetFilters) : string :=
  let queryString := Str.URLSearchParams_toString (queryParams filters) in
  if String.eqb queryString "" then BASE_PATH else BASE_PATH ++ "?" ++ queryString.

Definition getAssets (filters : option AssetFilters) : prog apiE (settled value) :=
  r <~ trigger (Call (GET (assetsUrl filters))) ;;
  Ret (returnData r).

Definition getAsset (id : Z) : prog apiE (settled value) :=
  r <~ trigger (Call (GET (BASE_PATH ++ "/" ++ number_to_string id))) ;;
  Ret (returnData r).

Definition createAsset (asset : AssetRequest) : prog apiE (settled value) :=
  r <~ trigger (Call (POST BASE_PATH asset)) ;;
  Ret (returnData r).

Definition updateAsset (id : Z) (asset : AssetRequest) : prog apiE (settled value) :=
  r <~ trigger (Call (PUT (BASE_PATH ++ "/" ++ number_to_string id) asset)) ;;
  Ret (returnData r).

Definition deleteAsset (id : Z) : prog apiE (settled value) :=
  r <~ trigger (Call (DELETE (BASE_PATH ++ "/" ++ number_to_string id))) ;;
  Ret (match r with
       | Resolved _ => Fulfilled VUndefined
       | Failed error => rethrow error
       end).

Definition getCategories : prog apiE (settled value) :=
  r <~ trigger (Call (GET (BASE_PATH ++ "/categories"))) ;;
  Ret (returnData r).

Definition getStatuses : prog apiE (settled value) :=
  r <~ trigger (Call (GET (BASE_PATH ++ "/statuses"))) ;;
  Ret (returnData r).

(** [!asset.name?.trim()] and its siblings: the field is missing, or
    nothing is left after trimming. *)
Definition blank (field : option string) : bool :=
  match field with
  | Some s => String.eqb (Str.trim s) ""
  | None => true
  end.

(** [!asset.purchaseDate], [!asset.status] *)
Definition falsy (field : option string) : bool :=
  match field with
  | Some s => String.eqb s ""
  | None => true
  end.

Definition validateAssetData (asset : AssetRequest) : list string :=
  let errors : list string := [] in
  let errors := if blank (name asset)
                then (errors ++ ["Asset name is required"])%list else errors in
  let errors := if blank (category asset)
                then (errors ++ ["Category is required"])%list else errors in
  let errors := if blank (serialNumber asset)
                then (errors ++ ["Serial number is required"])%list else errors in
  let errors := if falsy (purchaseDate asset)
                then (errors ++ ["Purchase date is required"])%list else errors in
  let errors := if PrimFloat.leb (purchasePrice asset) 0%float
                then (errors ++ ["Purchase price must be greater than 0"])%list else errors in
  let errors := if falsy (status asset)
                then (errors ++ ["Status is required"])%list else errors in
  errors.

(** What a service call settles with when [api] runs on this transport. *)
Definition outcome {R} (transport : request -> http_result) (op : prog apiE R) : R :=
  fst (run (fun X (e : apiE X) (u : unit) =>
              match e in apiE X return X * unit with
              | Call req => (Http.api transport req, tt)
              end) op tt).

(** The requests a service call dispatches when [api] runs on this
    transport, in order. *)
Fixpoint dispatched {R} (transport : request -> http_result) (op : prog apiE R)
  : list request :=
  match op with
  | Ret _ => []
  | Vis e k =>
      match e in apiE X return (X -> prog apiE R) -> list request with
      | Call req => fun k' => req :: dispatched transport (k' (Http.api transport req))
      end k
  end.

(** The request a service call dispatches first. *)
Definition requestOf {R} (op : prog apiE R) : option request :=
  match op with
  | Vis e _ =>
      match e with
      | Call req => Some req
      end
  | Ret _ => None
  end.

End AssetApi.

(* ===================================================================== *)
(** ** hooks/useAssets.ts *)
(* ===================================================================== *)

Module Hooks.

(** The effects of a hook's callback: the three state setters, and the
    calls of the service layer below it. *)
Inductive hookE : Type -> Type :=
| SetLoading (b : bool) : hookE unit
| SetError (e : option string) : hookE unit
| SetData (d : value) : hookE unit
| Api (X : Type) (e : AssetApi.apiE X) : hookE X.
Arguments Api {X} e.

(** [await AssetApi.op(...)] from inside a hook. *)
Fixpoint await {R} (p : prog AssetApi.apiE R) : prog hookE R :=
  match p with
  | Ret r => Ret r
  | Vis e k => Vis (Api e) (fun x => await (k x))
  end.

(** The body shared by [fetchAssets], [fetchAsset], [fetchCategories] and
    [fetchStatuses], which differ in the call and in the fallback text. *)
Definition fetching (op : prog AssetApi.apiE (settled value)) (fallback : string)
  : prog hookE (settled value) :=
  trigger (SetLoading true) ;;;
  trigger (SetError None) ;;;
  r <~ await op ;;
  match r with
  | Fulfilled response =>
      trigger (SetData response) ;;;
      trigger (SetLoading false) ;;;
      Ret (Fulfilled VUndefined)
  | Rejected (ThrownApiException err) =>
      trigger (SetError (Some (ex_message err))) ;;;
      trigger (SetLoading false) ;;;
      Ret (Fulfilled VUndefined)
  | Rejected (ThrownValue _) =>
      trigger (SetError (Some fallback)) ;;;
      trigger (SetLoading false) ;;;
      Ret (Fulfilled VUndefined)
  end.

(** Each callback is written as a function of the service call it awaits,
    and then applied to the call of [AssetApi] the source names: the [catch]
    block has a branch for a failure that is not an ApiException, whatever
    the awaited call is. *)
Definition fetchAssetsWith (service : prog AssetApi.apiE (settled value))
  : prog hookE (settled value) :=
  fetching service "Failed to fetch assets".

Definition fetchAssets (filters : option AssetFilters) : prog hookE (settled value) :=
  fetchAssetsWith (AssetApi.getAssets filters).

Definition fetchAssetWith (service : prog AssetApi.apiE (settled value))
  : prog hookE (settled value) :=
  fetching service "Failed to fetch asset".

Definition fetchAsset (id : Z) : prog hookE (settled value) :=
  fetchAssetWith (AssetApi.getAsset id).

Definition fetchCategoriesWith (service : prog AssetApi.apiE (settled value))
  : prog hookE (settled value) :=
  fetching service "Failed to fetch categories".

Definition fetchCategories : prog hookE (settled value) :=
  fetchCategoriesWith AssetApi.getCategories.

Definition fetchStatusesWith (service : prog AssetApi.apiE (settled value))
  : prog hookE (settled value) :=
  fetching service "Failed to fetch statuses".

Definition fetchStatuses : prog hookE (settled value) :=
  fetchStatusesWith AssetApi.getStatuses.

(** [err.details.map((d: any) => d.msg)] *)
Fixpoint mapMsg (details : list value) : completion (list value) :=
  match details with
  | [] => Normal []
  | d :: rest =>
      (m <- get d "msg" ;;
       ms <- mapMsg rest ;;
       ret (m :: ms))%js
  end.

(** The text [useCreateAsset] and [useUpdateAsset] store for a caught
    [ApiException]. *)
Definition mutationErrorText (err : ApiException) : completion string :=
  match ex_details err with
  | VArr details =>
      (messages <- mapMsg details ;;
       ret (ex_message err ++ ": " ++ join ", " messages))%js
  | _ => Normal (ex_message err)
  end.

(** The body shared by [createAsset] and [updateAsset]. *)
Definition mutating (op : prog AssetApi.apiE (settled value)) (fallback : string)
  : prog hookE (settled value) :=
  trigger (SetLoading true) ;;;
  trigger (SetError None) ;;;
  r <~ await op ;;
  match r with
  | Fulfilled response =>
      trigger (SetLoading false) ;;;
      Ret (Fulfilled response)
  | Rejected (ThrownApiException err) =>
      match mutationErrorText err with
      | Normal text =>
          trigger (SetError (Some text)) ;;;
          trigger (SetLoading false) ;;;
          Ret (Fulfilled VNull)
      | Throw t =>
          trigger (SetLoading false) ;;;
          Ret (Rejected (ThrownValue t))
      end
  | Rejected (ThrownValue _) =>
      trigger (SetError (Some fallback)) ;;;
      trigger (SetLoading false) ;;;
      Ret (Fulfilled VNull)
  end.

Definition createAssetWith (service : prog AssetApi.apiE (settled value))
  : prog hookE (settled value) :=
  mutating service "Failed to create asset".

Definition createAsset (asset : AssetRequest) : prog hookE (settled value) :=
  createAssetWith (AssetApi.createAsset asset).

Definition updateAssetWith (service : prog AssetApi.apiE (settled value))
  : prog hookE (settled value) :=
  mutating service "Failed to update asset".

Definition updateAsset (id : Z) (asset : AssetRequest) : prog hookE (settled value) :=
  updateAssetWith (AssetApi.updateAsset id asset).

Definition deleteAssetWith (service : prog AssetApi.apiE (settled value))
  : prog hookE (settled value) :=
  trigger (SetLoading true) ;;;
  trigger (SetError None) ;;;
  r <~ await service ;;
  match r with
  | Fulfilled _ =>
      trigger (SetLoading false) ;;;
      Ret (Fulfilled (VBool true))
  | Rejected (ThrownApiException err) =>
      trigger (SetError (Some (ex_message err))) ;;;
      trigger (SetLoading false) ;;;
      Ret (Fulfilled (VBool false))
  | Rejected (ThrownValue _) =>
      trigger (SetError (Some "Failed to delete asset")) ;;;
      trigger (SetLoading false) ;;;
      Ret (Fulfilled (VBool false))
  end.

Definition deleteAsset (id : Z) : prog hookE (settled value) :=
  deleteAssetWith (AssetApi.deleteAsset id).

(** The [useState] cells of one hook instance.  The mutation hooks have no
    data cell: they never set [data]. *)
Record HookState : Type := mkHookState {
  data : value;
  loading : bool;
  error : option string
}.

(** What an observer of one invocation sees, in order. *)
Inductive step : Type :=
| Loading (b : bool)
| Error (e : option string)
| Data (d : value)
| Request (req : request).

Record world : Type := mkWorld {
  cells : HookState;
  steps : list step
}.

(** The setters write their cell; a service call goes through the [api]
    wrapper to the transport. *)
Definition handle (transport : request -> http_result)
    (X : Type) (e : hookE X) (w : world) : X * world :=
  match e in hookE X return X * world with
  | SetLoading b =>
      (tt, {| cells := {| data := data (cells w); loading := b; error := error (cells w) |};
              steps := (steps w ++ [Loading b])%list |})
  | SetError e =>
      (tt, {| cells := {| data := data (cells w); loading := loading (cells w); error := e |};
              steps := (steps w ++ [Error e])%list |})
  | SetData d =>
      (tt, {| cells := {| data := d; loading := loading (cells w); error := error (cells w) |};
              steps := (steps w ++ [Data d])%list |})
  | Api e' =>
      match e' in AssetApi.apiE X return X * world with
      | AssetApi.Call req =>
          (Http.api transport req,
           {| cells := cells w; steps := (steps w ++ [Request req])%list |})
      end
  end.

(** One invocation of a hook callback from the cells [s]. *)
Definition invoke (transport : request -> http_result)
    (p : prog hookE (settled value)) (s : HookState) : settled value * world :=
  run (handle transport) p {| cells := s; steps := [] |}.

End Hooks.

(* ===================================================================== *)
(** ** contexts/ToastContext.tsx *)
(* ===================================================================== *)

Module Toast.

Inductive ToastType : Type := success | error | info | warning.

(** [ToastProps] without its [onClose] callback, which the provider sets to
    a function that does nothing. *)
Record ToastProps : Type := mkToast {
  id : string;
  message : value;
  type : ToastType;
  duration : Z
}.

(** The updater [addToast] passes to [setToasts]; [id] is what [uuidv4()]
    returned, [duration] defaults to 5000. *)
Definition addToast (id : string) (message : value) (type : ToastType)
    (duration : option Z) (prevToasts : list ToastProps) : list ToastProps :=
  (prevToasts ++
   [{| id := id; message := message; type := type;
       duration := match duration with Some d => d | None => 5000%Z end |}])%list.

(** The updater [removeToast] passes to [setToasts]. *)
Definition removeToast (id' : string) (prevToasts : list ToastProps) : list ToastProps :=
  filter (fun toast => negb (String.eqb (id toast) id')) prevToasts.

Definition clearAllToasts (prevToasts : list ToastProps) : list ToastProps := [].

Definition showSuccess (id : string) (message : string) (duration : option Z) :=
  addToast id (VStr message) success duration.

Definition showInfo (id : string) (message : string) (duration : option Z) :=
  addToast id (VStr message) info duration.

Definition showWarning (id : string) (message : string) (duration : option Z) :=
  addToast id (VStr message) warning duration.

(** [showError(error, duration = 8000)]; a throwing [formatError] would
    leave the registry as it was. *)
Definition showError (id : string) (err : value) (duration : option Z)
    (prevToasts : list ToastProps) : list ToastProps :=
  match ErrorHandler.formatError err with
  | Normal formattedError =>
      addToast id (ErrorHandler.getUserFriendlyErrorMessage formattedError) error
        (Some match duration with Some d => d | None => 8000%Z end) prevToasts
  | Throw _ => prevToasts
  end.

End Toast.

(* ===================================================================== *)
(** ** Vocabulary of the statements *)
(* ===================================================================== *)

Import ErrorHandler.

(** The error was flagged by the transport: [isAxiosError(error)] holds. *)
Definition axiosFlagged (error : value) : bool :=
  truthy error && strict_eq (prop error "isAxiosError") (VBool true).

(** [error.response?.status] and [error.response?.data]. *)
Definition responseStatus (error : value) : value := prop (prop error "response") "status".
Definition responseData (error : value) : value := prop (prop error "response") "data".

(** A non-null object (or array). *)
Definition isObject (v : value) : bool :=
  match v with
  | VArr _ | VObj _ _ => true
  | _ => false
  end.

Definition isString (v : value) : bool :=
  match v with
  | VStr _ => true
  | _ => false
  end.

(** The payload has the shape [{error: {...}}]: an object with an own
    [error] property that is itself an object. *)
Definition structuredPayload (payload : value) : bool :=
  match payload with
  | VObj _ props =>
      match lookup "error" props with
      | Some inner => isObject inner
      | None => false
      end
  | _ => false
  end.

(** The statuses and codes getUserFriendlyErrorMessage has a sentence for. *)
Definition documentedStatuses : list Z := [400; 401; 403; 404; 409; 422; 429; 500; 503]%Z.

Definition documentedCodes : list string := ["NETWORK_ERROR"; "TIMEOUT_ERROR"; "DUPLICATE_SERIAL"].

(** [error.status] selects a sentence: it is one of the documented numbers. *)
Definition statusMapped (e : ApiError) : Prop :=
  exists n, read (status e) = VNum n /\ In n documentedStatuses.

Definition codeMapped (e : ApiError) : Prop :=
  exists c, read (code e) = VStr c /\ In c documentedCodes.

(** A formatted 409 whose envelope carried the DUPLICATE_SERIAL code. *)
Definition duplicateSerial409 : ApiError :=
  {| message := VStr "Serial number SN-1 is already in use";
     code := Some (VStr "DUPLICATE_SERIAL");
     status := Some (VNum 409);
     details := Some VUndefined |}.

(** The same error formatted without a status. *)
Definition duplicateSerialNoStatus : ApiError :=
  {| message := VStr "Serial number SN-1 is already in use";
     code := Some (VStr "DUPLICATE_SERIAL");
     status := None;
     details := None |}.

Definition sampleToast (i : string) : Toast.ToastProps :=
  {| Toast.id := i; Toast.message := VStr "Saved"; Toast.type := Toast.success;
     Toast.duration := 5000%Z |}.

(** A message that is text, or that [||] replaces by text: a string, or
    a falsy value. *)
Definition textual (v : value) : bool := isString v || negb (truthy v).

(** A payload the first two branches of formatError can use: a structured
    envelope, or a non-empty string. *)
Definition nonEmptyString (v : value) : bool :=
  match v with
  | VStr s => negb (String.eqb s "")
  | _ => false
  end.

Definition usablePayload (payload : value) : bool :=
  structuredPayload payload || nonEmptyString payload.

(** The error object of a structured payload. *)
Definition payloadError (error : value) : value := prop (responseData error) "error".

(** What axios rejects with for a 404 whose body is [{detail: "Not found"}]. *)
Definition notFound404 : value :=
  VObj ErrorObject
    [("message", VStr "Request failed with status code 404");
     ("name", VStr "AxiosError");
     ("code", VStr "ERR_BAD_REQUEST");
     ("isAxiosError", VBool true);
     ("request", VObj PlainObject []);
     ("response", VObj PlainObject
        [("status", VNum 404);
         ("data", VObj PlainObject [("detail", VStr "Not found")])])].

(** What axios rejects with for the 409 a duplicate serial number is
    answered with. *)
Definition conflict409 : value :=
  VObj ErrorObject
    [("message", VStr "Request failed with status code 409");
     ("name", VStr "AxiosError");
     ("code", VStr "ERR_BAD_REQUEST");
     ("isAxiosError", VBool true);
     ("request", VObj PlainObject []);
     ("response", VObj PlainObject
        [("status", VNum 409);
         ("data", VObj PlainObject
            [("error", VObj PlainObject
                [("code", VStr "DUPLICATE_SERIAL");
                 ("message", VStr "Serial number SN-1 is already in use")])])])].

(** What axios rejects with when the timeout elapses: no response. *)
Definition timeoutError : value :=
  VObj ErrorObject
    [("message", VStr "timeout of 10000ms exceeded");
     ("name", VStr "AxiosError");
     ("code", VStr "ECONNABORTED");
     ("isAxiosError", VBool true);
     ("request", VObj PlainObject [])].

(** What axios rejects with when the server cannot be reached. *)
Definition networkError : value :=
  VObj ErrorObject
    [("message", VStr "Network Error");
     ("name", VStr "AxiosError");
     ("code", VStr "ERR_NETWORK");
     ("isAxiosError", VBool true);
     ("request", VObj PlainObject [])].

(** A 504 whose envelope carries the code TIMEOUT_ERROR. *)
Definition gatewayTimeout504 : value :=
  VObj ErrorObject
    [("message", VStr "Request failed with status code 504");
     ("name", VStr "AxiosError");
     ("isAxiosError", VBool true);
     ("request", VObj PlainObject []);
     ("response", VObj PlainObject
        [("status", VNum 504);
         ("data", VObj PlainObject
            [("error", VObj PlainObject
                [("code", VStr "TIMEOUT_ERROR");
                 ("message", VStr "Upstream timed out")])])])].

(** A 400 whose envelope carries a number where the message belongs. *)
Definition numericMessage400 : value :=
  VObj ErrorObject
    [("message", VStr "Request failed with status code 400");
     ("name", VStr "AxiosError");
     ("isAxiosError", VBool true);
     ("request", VObj PlainObject []);
     ("response", VObj PlainObject
        [("status", VNum 400);
         ("data", VObj PlainObject
            [("error", VObj PlainObject
                [("code", VStr "BAD_INPUT");
                 ("message", VNum 42)])])])].

(** The seven operations of the resource API. *)
Inductive operation : Type :=
| ListAssets (filters : option AssetFilters)
| GetAsset (id : Z)
| CreateAsset (asset : AssetRequest)
| UpdateAsset (id : Z) (asset : AssetRequest)
| DeleteAsset (id : Z)
| ListCategories
| ListStatuses.

Definition perform (op : operation) : prog AssetApi.apiE (settled value) :=
  match op with
  | ListAssets filters => AssetApi.getAssets filters
  | GetAsset id => AssetApi.getAsset id
  | CreateAsset asset => AssetApi.createAsset asset
  | UpdateAsset id asset => AssetApi.updateAsset id asset
  | DeleteAsset id => AssetApi.deleteAsset id
  | ListCategories => AssetApi.getCategories
  | ListStatuses => AssetApi.getStatuses
  end.

(** A transport on which every request fails with the same error. *)
Definition failingWith (error : value) : request -> http_result := fun _ => Failed error.

(** A string field that is there and keeps a character when trimmed. *)
Definition nonBlank (field : option string) : Prop :=
  exists s, field = Some s /\ Str.trim s <> "".

(** A string field that is there and is not the empty string. *)
Definition nonEmpty (field : option string) : Prop :=
  exists s, field = Some s /\ s <> "".

Definition laptop : AssetRequest :=
  {| name := Some "MacBook Pro";
     description := "16-inch laptop";
     category := Some "Electronics";
     serialNumber := Some "MBP2024001";
     purchaseDate := Some "2024-01-15";
     purchasePrice := 2499.5%float;
     Types.status := Some "active" |}.

Definition withName (n : option string) (a : AssetRequest) : AssetRequest :=
  {| name := n;
     description := description a;
     category := category a;
     serialNumber := serialNumber a;
     purchaseDate := purchaseDate a;
     purchasePrice := purchasePrice a;
     Types.status := Types.status a |}.

Definition withPrice (p : float) (a : AssetRequest) : AssetRequest :=
  {| name := name a;
     description := description a;
     category := category a;
     serialNumber := serialNumber a;
     purchaseDate := purchaseDate a;
     purchasePrice := p;
     Types.status := Types.status a |}.

(** The names of the query parameters, in the order [getAssets] writes
    them. *)
Definition wireNames : list string := ["search"; "category"; "status"; "page"; "page_size"].

(** Whether the query of the filters has a parameter of this name. *)
Definition serializes (filters : option AssetFilters) (k : string) : bool :=
  existsb (String.eqb k) (map fst (AssetApi.queryParams filters)).

Definition noFilters : AssetFilters :=
  {| search := None; filterCategory := None; filterStatus := None;
     page := None; pageSize := None |}.

(** Every field present, the status empty. *)
Definition laptopSearch : AssetFilters :=
  {| search := Some "mac book"; filterCategory := Some "Electronics"; filterStatus := Some "";
     page := Some (Int 1); pageSize := Some (Int 20) |}.

(** The page is present, and is 0. *)
Definition pageZero : AssetFilters :=
  {| search := None; filterCategory := None; filterStatus := None;
     page := Some (Int 0); pageSize := Some (Int 20) |}.

(** The page is present, and is NaN. *)
Definition pageNaN : AssetFilters :=
  {| search := None; filterCategory := None; filterStatus := None;
     page := Some NaN; pageSize := Some (Int 20) |}.

(** The seven data hooks, each with the arguments of one invocation of its
    callback. *)
Inductive hook : Type :=
| UseAssets (filters : option AssetFilters)
| UseAsset (id : Z)
| UseCreateAsset (asset : AssetRequest)
| UseUpdateAsset (id : Z) (asset : AssetRequest)
| UseDeleteAsset (id : Z)
| UseCategories
| UseStatuses.

Definition callback (h : hook) : prog Hooks.hookE (settled value) :=
  match h with
  | UseAssets filters => Hooks.fetchAssets filters
  | UseAsset id => Hooks.fetchAsset id
  | UseCreateAsset asset => Hooks.createAsset asset
  | UseUpdateAsset id asset => Hooks.updateAsset id asset
  | UseDeleteAsset id => Hooks.deleteAsset id
  | UseCategories => Hooks.fetchCategories
  | UseStatuses => Hooks.fetchStatuses
  end.

(** The callback of the hook with the service call it awaits replaced by
    [service]. *)
Definition callbackWith (h : hook) (service : prog AssetApi.apiE (settled value))
  : prog Hooks.hookE (settled value) :=
  match h with
  | UseAssets _ => Hooks.fetchAssetsWith service
  | UseAsset _ => Hooks.fetchAssetWith service
  | UseCreateAsset _ => Hooks.createAssetWith service
  | UseUpdateAsset _ _ => Hooks.updateAssetWith service
  | UseDeleteAsset _ => Hooks.deleteAssetWith service
  | UseCategories => Hooks.fetchCategoriesWith service
  | UseStatuses => Hooks.fetchStatusesWith service
  end.

(** A service call that rejects, without a request, with a value that is
    not an ApiException. *)
Definition rejectingWith (v : value) : prog AssetApi.apiE (settled value) :=
  Ret (Rejected (ThrownValue v)).

(** The operation of the resource API the hook awaits. *)
Definition serviceOf (h : hook) : operation :=
  match h with
  | UseAssets filters => ListAssets filters
  | UseAsset id => GetAsset id
  | UseCreateAsset asset => CreateAsset asset
  | UseUpdateAsset id asset => UpdateAsset id asset
  | UseDeleteAsset id => DeleteAsset id
  | UseCategories => ListCategories
  | UseStatuses => ListStatuses
  end.

(** The text a hook shows for a failure that is not an ApiException. *)
Definition fallbackOf (h : hook) : string :=
  match h with
  | UseAssets _ => "Failed to fetch assets"
  | UseAsset _ => "Failed to fetch asset"
  | UseCreateAsset _ => "Failed to create asset"
  | UseUpdateAsset _ _ => "Failed to update asset"
  | UseDeleteAsset _ => "Failed to delete asset"
  | UseCategories => "Failed to fetch categories"
  | UseStatuses => "Failed to fetch statuses"
  end.

(** The fetching hooks keep the result in a data cell; the mutation hooks
    return it. *)
Definition hasData (h : hook) : bool :=
  match h with
  | UseAssets _ | UseAsset _ | UseCategories | UseStatuses => true
  | UseCreateAsset _ | UseUpdateAsset _ _ | UseDeleteAsset _ => false
  end.

(** The hooks that append the [msg] of each detail to the message. *)
Definition joinsDetails (h : hook) : bool :=
  match h with
  | UseCreateAsset _ | UseUpdateAsset _ _ => true
  | _ => false
  end.

(** What the callback resolves with after a successful call. *)
Definition returnedOnSuccess (h : hook) (result : value) : value :=
  match h with
  | UseCreateAsset _ | UseUpdateAsset _ _ => result
  | UseDeleteAsset _ => VBool true
  | _ => VUndefined
  end.

(** A 422 whose envelope lists two validation details. *)
Definition validation422 : value :=
  VObj ErrorObject
    [("message", VStr "Request failed with status code 422");
     ("name", VStr "AxiosError");
     ("isAxiosError", VBool true);
     ("request", VObj PlainObject []);
     ("response", VObj PlainObject
        [("status", VNum 422);
         ("data", VObj PlainObject
            [("error", VObj PlainObject
                [("code", VStr "VALIDATION_ERROR");
                 ("message", VStr "Validation failed");
                 ("details", VArr [VObj PlainObject [("msg", VStr "name too long")];
                                   VObj PlainObject [("msg", VStr "price too high")]])])])])].

(** The cells of a hook that showed an error after an earlier call. *)
Definition staleState : Hooks.HookState :=
  {| Hooks.data := VArr [VStr "Electronics"];
     Hooks.loading := false;
     Hooks.error := Some "Failed to fetch categories" |}.

(* ===================================================================== *)
(** ** services/assetApi.ts: the derived operations *)
(* ===================================================================== *)

Module AssetApiDerived.

Import AssetApi.

(** [{...filters}]: the fields of the filters, none when they are missing. *)
Definition spread (filters : option AssetFilters) : AssetFilters :=
  match filters with
  | Some f => f
  | None => {| search := None; filterCategory := None; filterStatus := None;
               page := None; pageSize := None |}
  end.

(** [{ ...filters, search: query }] *)
Definition withSearch (query : string) (filters : option AssetFilters) : AssetFilters :=
  {| search := Some query;
     filterCategory := filterCategory (spread filters);
     filterStatus := filterStatus (spread filters);
     page := page (spread filters);
     pageSize := pageSize (spread filters) |}.

(** [{ ...filters, category }] *)
Definition withCategory (category : string) (filters : option AssetFilters) : AssetFilters :=
  {| search := search (spread filters);
     filterCategory := Some category;
     filterStatus := filterStatus (spread filters);
     page := page (spread filters);
     pageSize := pageSize (spread filters) |}.

(** [{ ...filters, status }] *)
Definition withStatus (status : string) (filters : option AssetFilters) : AssetFilters :=
  {| search := search (spread filters);
     filterCategory := filterCategory (spread filters);
     filterStatus := Some status;
     page := page (spread filters);
     pageSize := pageSize (spread filters) |}.

Definition searchAssets (query : string) (filters : option AssetFilters)
  : prog apiE (settled value) :=
  getAssets (Some (withSearch query filters)).

Definition getAssetsByCategory (category : string) (filters : option AssetFilters)
  : prog apiE (settled value) :=
  getAssets (Some (withCategory category filters)).

Definition getAssetsByStatus (status : string) (filters : option AssetFilters)
  : prog apiE (settled value) :=
  getAssets (Some (withStatus status filters)).


End AssetApiDerived.

(* ===================================================================== *)
(** ** components/AssetList.tsx: paging *)
(* ===================================================================== *)

Module AssetList.

(** The number on the [i]-th page button. *)
Definition pageNum (page totalPages i : Z) : Z :=
  if (totalPages <=? 5)%Z then (i + 1)%Z
  else if (page <=? 3)%Z then (i + 1)%Z
  else if (page >=? totalPages - 2)%Z then (totalPages - 4 + i)%Z
  else (page - 2 + i)%Z.

(** The numbers on the page buttons: the pagination block is rendered under
    [totalPages > 1 &&], and its buttons are
    [Array.from({ length: Math.min(5, totalPages) }, (_, i) => pageNum)]. *)
Definition pageNumbers (page totalPages : Z) : list Z :=
  if (1 <? totalPages)%Z then
    map (fun i => pageNum page totalPages (Z.of_nat i))
        (seq 0 (Z.to_nat (Z.min 5 totalPages)))
  else [].

(** [disabled={page <= 1}] and [disabled={page >= totalPages}] *)
Definition previousDisabled (page : Z) : bool := (page <=? 1)%Z.
Definition nextDisabled (page totalPages : Z) : bool := (page >=? totalPages)%Z.

(** "Showing [first] to [last] of [total] assets" *)
Definition showingFirst (page pageSize : Z) : Z := ((page - 1) * pageSize + 1)%Z.
Definition showingLast (page pageSize total : Z) : Z := Z.min (page * pageSize) total.

(** [{ ...filters, page: newPage }], which [handlePageChange] stores and
    refetches with. *)
Definition withPage (newPage : Z) (filters : AssetFilters) : AssetFilters :=
  {| search := search filters;
     filterCategory := filterCategory filters;
     filterStatus := filterStatus filters;
     page := Some (Int newPage);
     pageSize := pageSize filters |}.

(** [refetch(newFilters)] of [handlePageChange]. *)
Definition handlePageChange (filters : AssetFilters) (newPage : Z)
  : prog Hooks.hookE (settled value) :=
  Hooks.fetchAssets (Some (withPage newPage filters)).

(** [refetch(newFilters)] of [handleFiltersChange]. *)
Definition handleFiltersChange (newFilters : AssetFilters)
  : prog Hooks.hookE (settled value) :=
  Hooks.fetchAssets (Some newFilters).

End AssetList.

(* ===================================================================== *)
(** ** components/SearchFilter.tsx: the filter handlers *)
(* ===================================================================== *)

Module SearchFilter.

(** [value || undefined] *)
Definition orUndefined (s : string) : option string :=
  if String.eqb s "" then None else Some s.

(** [filters.search || ""] *)
Definition orEmpty (field : option string) : string :=
  match field with
  | Some s => s
  | None => ""
  end.

(** The filters the search effect hands to [onFiltersChange], when it does:
    [debouncedSearchTerm !== (filters.search || "")]. *)
Definition searchEffect (filters : AssetFilters) (debouncedSearchTerm : string)
  : option AssetFilters :=
  if negb (String.eqb debouncedSearchTerm (orEmpty (search filters)))
  then Some {| search := orUndefined debouncedSearchTerm;
               filterCategory := filterCategory filters;
               filterStatus := filterStatus filters;
               page := Some (Int 1);
               pageSize := pageSize filters |}
  else None.

Definition handleCategoryFilter (filters : AssetFilters) (category : string) : AssetFilters :=
  {| search := search filters;
     filterCategory := orUndefined category;
     filterStatus := filterStatus filters;
     page := Some (Int 1);
     pageSize := pageSize filters |}.

Definition handleStatusFilter (filters : AssetFilters) (status : string) : AssetFilters :=
  {| search := search filters;
     filterCategory := filterCategory filters;
     filterStatus := orUndefined status;
     page := Some (Int 1);
     pageSize := pageSize filters |}.

(** [handleClearFilters]: the text it passes to [setSearchTerm], and the
    object [{ page: 1, pageSize: filters.pageSize || 20 }] it passes to
    [onFiltersChange]. *)
Definition handleClearFilters (filters : AssetFilters) : string * AssetFilters :=
  ("",
   {| search := None;
      filterCategory := None;
      filterStatus := None;
      page := Some (Int 1);
      pageSize := Some (match pageSize filters with
                        | Some (Int n) => if Z.eqb n 0 then Int 20 else Int n
                        | Some NaN => Int 20
                        | None => Int 20
                        end) |}).

(** [!!(filters.search || filters.category || filters.status)] *)
Definition hasActiveFilters (filters : AssetFilters) : bool :=
  negb (String.eqb (orEmpty (search filters)) "")
  || negb (String.eqb (orEmpty (filterCategory filters)) "")
  || negb (String.eqb (orEmpty (filterStatus filters)) "").

End SearchFilter.

(* ===================================================================== *)
(** ** pages/AssetDetailPage.tsx: what is rendered *)
(* ===================================================================== *)

Module AssetDetailPage.

(** [hay.includes(needle)] *)
Fixpoint includes (needle hay : string) : bool :=
  String.prefix needle hay ||
  match hay with
  | EmptyString => false
  | String _ rest => includes needle rest
  end.

Record errorObj : Type := mkErrorObj {
  message : string;
  code : string;
  status : Z
}.

Inductive rendered : Type :=
| InvalidId (error : errorObj)
| LoadingIndicator
| ErrorDisplay (error : errorObj) (title : string) (retry : bool)
| AssetDetail (asset : value).

(** [error?.includes("404") || error?.includes("not found") || !asset] *)
Definition isNotFound (asset : value) (error : option string) : bool :=
  match error with
  | Some e => includes "404" e || includes "not found" e || negb (truthy asset)
  | None => negb (truthy asset)
  end.

(** The component, from the parsed route parameter ([None] when [parseInt]
    gave NaN, 0 when there was no parameter) and the cells of [useAsset]. *)
Definition render (assetId : option Z) (asset : value) (loading : bool)
    (error : option string) : rendered :=
  match assetId with
  | Some n =>
      if (0 <? n)%Z then
        if loading then LoadingIndicator
        else if negb (String.eqb (SearchFilter.orEmpty error) "") || negb (truthy asset) then
          if isNotFound asset error then
            ErrorDisplay
              {| message := "The asset with ID " ++ number_to_string n ++
                   " could not be found. It may have been deleted or the ID may be incorrect.";
                 code := "NOT_FOUND";
                 status := 404 |}
              "Asset Not Found" false
          else
            ErrorDisplay
              {| message := if String.eqb (SearchFilter.orEmpty error) ""
                            then "An unexpected error occurred while loading the asset."
                            else SearchFilter.orEmpty error;
                 code := "FETCH_ERROR";
                 status := 500 |}
              "Error Loading Asset" true
        else AssetDetail asset
      else InvalidId {| message := "The asset ID provided is not valid.";
                        code := "INVALID_ID"; status := 400 |}
  | None => InvalidId {| message := "The asset ID provided is not valid.";
                         code := "INVALID_ID"; status := 400 |}
  end.

(** [useState<Asset | null>(null)], [useState(false)], [useState(null)] *)
Definition initialCells : Hooks.HookState :=
  {| Hooks.data := VNull; Hooks.loading := false; Hooks.error := None |}.

(** The page as rendered from the cells of its [useAsset] hook. *)
Definition renderCells (assetId : Z) (cells : Hooks.HookState) : rendered :=
  render (Some assetId) (Hooks.data cells) (Hooks.loading cells) (Hooks.error cells).

End AssetDetailPage.

(* ===================================================================== *)
(** ** hooks/useFormSubmit.ts *)
(* ===================================================================== *)

Module FormSubmit.

(** [UseFormSubmitOptions]: the two callbacks are either given or not. *)
Record options : Type := mkOptions {
  successMessage : option string;
  onSuccess : bool;
  onError : bool
}.

(** What [await submitFn(data)] gives back. *)
Inductive submitted : Type :=
| SubmitResolved (result : value)
| SubmitRejected (err : value).

Inductive formE : Type -> Type :=
| SetLoading (b : bool) : formE unit
| SetError (e : value) : formE unit
| Submit : formE submitted
| ShowSuccess (message : string) : formE unit
| ShowError (e : value) : formE unit
| OnSuccess (result : value) : formE (completion unit)
| OnError (e : value) : formE (completion unit).

(** The [finally] block, then the way the callback settles. *)
Definition finish (result : settled value) : prog formE (settled value) :=
  trigger (SetLoading false) ;;;
  Ret result.

(** The [catch] block. *)
Definition catchBlock (opts : options) (err : value) : prog formE (settled value) :=
  match ErrorHandler.formatError err with
  | Throw t => finish (Rejected (ThrownValue t))
  | Normal formatted =>
      let formattedError := ApiError_to_value formatted in
      trigger (SetError formattedError) ;;;
      trigger (ShowError formattedError) ;;;
      called <~ (if onError opts then trigger (OnError formattedError) else Ret (Normal tt)) ;;
      match called with
      | Normal _ => finish (Fulfilled VNull)
      | Throw t => finish (Rejected (ThrownValue t))
      end
  end.

Definition handleSubmit (opts : options) : prog formE (settled value) :=
  trigger (SetLoading true) ;;;
  trigger (SetError VNull) ;;;
  r <~ trigger Submit ;;
  match r with
  | SubmitResolved result =>
      (match successMessage opts with
       | Some m => if String.eqb m "" then Ret tt else trigger (ShowSuccess m)
       | None => Ret tt
       end) ;;;
      called <~ (if onSuccess opts then trigger (OnSuccess result) else Ret (Normal tt)) ;;
      match called with
      | Normal _ => finish (Fulfilled result)
      | Throw t => catchBlock opts t
      end
  | SubmitRejected err => catchBlock opts err
  end.

(** What surrounds one call of [handleSubmit]: how [submitFn] settles, what
    the callbacks do, and the identifiers [uuidv4] hands out. *)
Record environment : Type := mkEnvironment {
  submitFn : submitted;
  onSuccessFn : value -> completion unit;
  onErrorFn : value -> completion unit;
  uuid : nat -> string
}.

Inductive step : Type :=
| Loading (b : bool)
| Error (e : value)
| Submitted
| SuccessToast (message : string)
| ErrorToast (e : value)
| CalledOnSuccess (result : value)
| CalledOnError (e : value).

(** The cells of the hook, the toast registry, and what happened so far. *)
Record world : Type := mkWorld {
  loading : bool;
  error : value;
  toasts : list Toast.ToastProps;
  steps : list step
}.

Definition handle (env : environment) (X : Type) (e : formE X) (w : world) : X * world :=
  match e in formE X return X * world with
  | SetLoading b =>
      (tt, {| loading := b; error := error w; toasts := toasts w;
              steps := (steps w ++ [Loading b])%list |})
  | SetError e =>
      (tt, {| loading := loading w; error := e; toasts := toasts w;
              steps := (steps w ++ [Error e])%list |})
  | Submit =>
      (submitFn env,
       {| loading := loading w; error := error w; toasts := toasts w;
          steps := (steps w ++ [Submitted])%list |})
  | ShowSuccess m =>
      (tt, {| loading := loading w; error := error w;
              toasts := Toast.showSuccess (uuid env (length (toasts w))) m None (toasts w);
              steps := (steps w ++ [SuccessToast m])%list |})
  | ShowError e =>
      (tt, {| loading := loading w; error := error w;
              toasts := Toast.showError (uuid env (length (toasts w))) e None (toasts w);
              steps := (steps w ++ [ErrorToast e])%list |})
  | OnSuccess result =>
      (onSuccessFn env result,
       {| loading := loading w; error := error w; toasts := toasts w;
          steps := (steps w ++ [CalledOnSuccess result])%list |})
  | OnError e =>
      (onErrorFn env e,
       {| loading := loading w; error := error w; toasts := toasts w;
          steps := (steps w ++ [CalledOnError e])%list |})
  end.

(** One call of [handleSubmit] from the cells and registry of [w]. *)
Definition submit (env : environment) (opts : options) (w : world) : settled value * world :=
  run (handle env) (handleSubmit opts)
      {| loading := loading w; error := error w; toasts := toasts w; steps := [] |}.

End FormSubmit.

(* ===================================================================== *)
(** ** utils/globalErrorHandler.ts *)
(* ===================================================================== *)

Module GlobalErrorHandler.

(** [new Error(message)] *)
Definition new_Error (message : value) : value :=
  VObj ErrorObject
    (match message with
     | VUndefined => []
     | _ => [("message", VStr (to_string message))]
     end).

(** The module: the stored toast function ([null] at first) acting on some
    registry [W], and the pairs of listeners added to [window] so far. *)
Record state (W : Type) : Type := mkState {
  showErrorToast : option (value -> W -> W);
  listeners : nat
}.
Arguments showErrorToast {W} s.
Arguments listeners {W} s.

Definition initial {W} : state W := {| showErrorToast := None; listeners := 0 |}.

(** [initGlobalErrorHandler]: store the function, then [setupGlobalHandlers]
    adds an "error" and an "unhandledrejection" listener. *)
Definition initGlobalErrorHandler {W} (errorToastFn : value -> W -> W) (s : state W) : state W :=
  {| showErrorToast := Some errorToastFn; listeners := S (listeners s) |}.

(** [handleGlobalError]: what it logs, and the registry afterwards. *)
Definition handleGlobalError {W} (s : state W) (error : value) (w : W) : list logline * W :=
  match ErrorHandler.formatError error with
  | Throw _ => ([], w)
  | Normal formatted =>
      let formattedError := ApiError_to_value formatted in
      ([[VStr "Uncaught error:"; formattedError]],
       match showErrorToast s with
       | Some toast => toast formattedError w
       | None => w
       end)
  end.

(** An "error" event of [window]: [event.error] and [event.message]. *)
Record ErrorEvent : Type := mkErrorEvent {
  eventError : value;
  eventMessage : value
}.

(** One "error" listener: [handleGlobalError(event.error || new Error(event.message))]. *)
Definition onError {W} (s : state W) (event : ErrorEvent) (w : W) : list logline * W :=
  handleGlobalError s (or_else (eventError event) (new_Error (eventMessage event))) w.

(** One "unhandledrejection" listener: [handleGlobalError(event.reason)]. *)
Definition onUnhandledRejection {W} (s : state W) (reason : value) (w : W) : list logline * W :=
  handleGlobalError s reason w.

(** The window calls every listener that was added. *)
Fixpoint dispatch {W} (n : nat) (listener : W -> list logline * W) (w : W) : list logline * W :=
  match n with
  | O => ([], w)
  | S n' =>
      let (log, w') := listener w in
      let (log', w'') := dispatch n' listener w' in
      ((log ++ log')%list, w'')
  end.

Definition dispatchError {W} (s : state W) (event : ErrorEvent) (w : W) : list logline * W :=
  dispatch (listeners s) (onError s event) w.

Definition dispatchUnhandledRejection {W} (s : state W) (reason : value) (w : W)
  : list logline * W :=
  dispatch (listeners s) (onUnhandledRejection s reason) w.

(** [initGlobalErrorHandler(showError)] as App.tsx calls it: the toast
    function is [showError] of the toast registry. *)
Definition appToast (uuid : nat -> string) (error : value) (toasts : list Toast.ToastProps)
  : list Toast.ToastProps :=
  Toast.showError (uuid (length toasts)) error None toasts.

End GlobalErrorHandler.

(* ===================================================================== *)
(** ** pages/CreateAssetPage.tsx and pages/EditAssetPage.tsx: submitting *)
(* ===================================================================== *)

Module Pages.

(** The effects of a page handler: those of the hook it calls, and
    [navigate]. *)
Inductive pageE : Type -> Type :=
| Hook (X : Type) (e : Hooks.hookE X) : pageE X
| Navigate (path : string) : pageE unit.
Arguments Hook {X} e.

Fixpoint callHook {R} (p : prog Hooks.hookE R) : prog pageE R :=
  match p with
  | Ret r => Ret r
  | Vis e k => Vis (Hook e) (fun x => callHook (k x))
  end.

(** CreateAssetPage, [handleSubmit]: [result] is what the hook resolved
    with; a rejection of the hook passes through. *)
Definition createSubmit (data : AssetRequest) : prog pageE (settled value) :=
  r <~ callHook (Hooks.createAsset data) ;;
  match r with
  | Fulfilled result =>
      if truthy result
      then trigger (Navigate ("/assets/" ++ to_string (prop result "id"))) ;;;
           Ret (Fulfilled VUndefined)
      else Ret (Fulfilled VUndefined)
  | Rejected t => Ret (Rejected t)
  end.

(** EditAssetPage, [handleSubmit]. *)
Definition editSubmit (assetId : Z) (data : AssetRequest) : prog pageE (settled value) :=
  r <~ callHook (Hooks.updateAsset assetId data) ;;
  match r with
  | Fulfilled result =>
      if truthy result
      then trigger (Navigate ("/assets/" ++ number_to_string assetId)) ;;;
           Ret (Fulfilled VUndefined)
      else Ret (Fulfilled VUndefined)
  | Rejected t => Ret (Rejected t)
  end.

(** Where the page went, besides what the hook did. *)
Record world : Type := mkWorld {
  hook : Hooks.world;
  navigated : list string
}.

Definition handle (transport : request -> http_result)
    (X : Type) (e : pageE X) (w : world) : X * world :=
  match e in pageE X return X * world with
  | Hook e' =>
      let (x, h) := Hooks.handle transport _ e' (hook w) in
      (x, {| hook := h; navigated := navigated w |})
  | Navigate path =>
      (tt, {| hook := hook w; navigated := (navigated w ++ [path])%list |})
  end.

Definition submit (transport : request -> http_result)
    (p : prog pageE (settled value)) (s : Hooks.HookState) : settled value * world :=
  run (handle transport) p
      {| hook := {| Hooks.cells := s; Hooks.steps := [] |}; navigated := [] |}.

End Pages.

(* ===================================================================== *)
(** ** Vocabulary of the further statements *)
(* ===================================================================== *)

(** How often the byte [c] occurs in [s]. *)
Fixpoint occurrences (c : ascii) (s : string) : nat :=
  match s with
  | EmptyString => 0
  | String c' rest => (if Ascii.eqb c c' then 1 else 0) + occurrences c rest
  end.

(** The bytes a form-encoded name or value is made of: letters, digits,
    [*], [-], [.], [_], and the [+] and [%] of the encoding. *)
Definition formSafe (c : ascii) : bool :=
  let n := nat_of_ascii c in
  ((48 <=? n) && (n <=? 57) || (65 <=? n) && (n <=? 90) || (97 <=? n) && (n <=? 122)
   || (n =? 42) || (n =? 45) || (n =? 46) || (n =? 95) || (n =? 43) || (n =? 37))%nat.

Fixpoint allBytes (p : ascii -> bool) (s : string) : bool :=
  match s with
  | EmptyString => true
  | String c rest => p c && allBytes p rest
  end.

(** The generic message formatError gives to what it cannot classify. *)
Definition unknownError : ErrorHandler.ApiError :=
  {| ErrorHandler.message := VStr "An unexpected error occurred";
     ErrorHandler.code := Some (VStr "UNKNOWN_ERROR");
     ErrorHandler.status := None;
     ErrorHandler.details := None |}.

(** A transport on which every request is answered with the same response. *)
Definition respondingWith (response : value) : request -> http_result :=
  fun _ => Resolved response.

(** A 422 whose details hold a [null]. *)
Definition nullDetail422 : value :=
  VObj ErrorObject
    [("message", VStr "Request failed with status code 422");
     ("isAxiosError", VBool true);
     ("request", VObj PlainObject []);
     ("response", VObj PlainObject
        [("status", VNum 422);
         ("data", VObj PlainObject
            [("error", VObj PlainObject
                [("code", VStr "VALIDATION_ERROR");
                 ("message", VStr "Validation failed");
                 ("details", VArr [VNull])])])])].

Definition noCallbacks : FormSubmit.options :=
  {| FormSubmit.successMessage := None;
     FormSubmit.onSuccess := false;
     FormSubmit.onError := false |}.

Definition quietEnvironment (outcome : FormSubmit.submitted) : FormSubmit.environment :=
  {| FormSubmit.submitFn := outcome;
     FormSubmit.onSuccessFn := fun _ => Normal tt;
     FormSubmit.onErrorFn := fun _ => Normal tt;
     FormSubmit.uuid := fun n => number_to_string (Z.of_nat n) |}.

Definition idleForm : FormSubmit.world :=
  {| FormSubmit.loading := false;
     FormSubmit.error := VNull;
     FormSubmit.toasts := [];
     FormSubmit.steps := [] |}.

(** The toast that [showError] makes of an already formatted error. *)
Definition genericToast (i : string) : Toast.ToastProps :=
  {| Toast.id := i;
     Toast.message := VStr "An unexpected error occurred";
     Toast.type := Toast.error;
     Toast.duration := 8000%Z |}.

(** The toast of the success message of [useFormSubmit], if one is shown. *)
Definition successToasts (env : FormSubmit.environment) (opts : FormSubmit.options)
    (w : FormSubmit.world) : list Toast.ToastProps :=
  match FormSubmit.successMessage opts with
  | Some m =>
      if String.eqb m "" then []
      else [{| Toast.id := FormSubmit.uuid env (length (FormSubmit.toasts w));
               Toast.message := VStr m;
               Toast.type := Toast.success;
               Toast.duration := 5000%Z |}]
  | None => []
  end.

(** The global error handler after [k] calls of
    [initGlobalErrorHandler(showError)]. *)
Definition initialised (uuid : nat -> string) (k : nat)
  : GlobalErrorHandler.state (list Toast.ToastProps) :=
  Nat.iter k (GlobalErrorHandler.initGlobalErrorHandler (GlobalErrorHandler.appToast uuid))
           GlobalErrorHandler.initial.

(** [k] toasts of the generic message, numbered from [start]. *)
Definition genericToasts (uuid : nat -> string) (start k : nat) : list Toast.ToastProps :=
  map (fun j => genericToast (uuid (start + j))) (seq 0 k).

(** What [handleGlobalError] logs for a formatted error. *)
Definition uncaught (formatted : ErrorHandler.ApiError) : logline :=
  [VStr "Uncaught error:"; Http.ApiError_to_value formatted].

(** An "error" event that carries no error object, only a message. *)
Definition messageEvent (m : string) : GlobalErrorHandler.ErrorEvent :=
  {| GlobalErrorHandler.eventError := VNull;
     GlobalErrorHandler.eventMessage := VStr m |}.

(** The "Asset Not Found" view of the detail page: no retry button. *)
Definition notFoundView (assetId : Z) : AssetDetailPage.rendered :=
  AssetDetailPage.ErrorDisplay
    {| AssetDetailPage.message :=
         "The asset with ID " ++ number_to_string assetId ++
         " could not be found. It may have been deleted or the ID may be incorrect.";
       AssetDetailPage.code := "NOT_FOUND";
       AssetDetailPage.status := 404 |}
    "Asset Not Found" false.

(* ===================================================================== *)
(** * Properties *)
(* ===================================================================== *)

(** ** The built-ins *)

Section BuiltIns.

(** ToString of an array is its [join] with a comma. *)
Lemma to_string_array (elems : list value) : to_string (VArr elems) = join "," elems.
Proof.
  induction elems as [| x rest IH]; [reflexivity |].
  change (to_string (VArr (x :: rest)))
    with ((match x with
           | VUndefined | VNull => ""
           | _ => to_string x
           end) ++
          (match rest with
           | [] => ""
           | _ :: _ => "," ++ to_string (VArr rest)
           end)).
  simpl join. rewrite IH.
  destruct x; try reflexivity.
Qed.

Example to_string_status : to_string (VNum 404) = "404".
Proof. reflexivity. Qed.

Example to_string_error :
  to_string (VObj ErrorObject [("message", VStr "boom")]) = "Error: boom".
Proof. reflexivity. Qed.

Example trim_both_ends : Str.trim "  MacBook Pro  " = "MacBook Pro".
Proof. reflexivity. Qed.

(** A no-break space (U+00A0) and an ideographic space (U+3000) are white
    space too. *)
Example trim_unicode_space :
  Str.trim (String (ascii_of_nat 194) (String (ascii_of_nat 160)
             (String (ascii_of_nat 227) (String (ascii_of_nat 128)
               (String (ascii_of_nat 128) ""))))) = "".
Proof. reflexivity. Qed.

Example urlencode_reserved : Str.urlencode "a b&c=d/e_f" = "a+b%26c%3Dd%2Fe_f".
Proof. reflexivity. Qed.

End BuiltIns.

(** ** The toast registry *)

Section ToastRegistry.

Import Toast.

Lemma removeToast_absent (i : string) (toasts : list ToastProps) :
  (forall t, In t toasts -> id t <> i) -> removeToast i toasts = toasts.
Proof.
  unfold removeToast.
  induction toasts as [| t rest IH]; intros Hfresh; simpl.
  - reflexivity.
  - destruct (String.eqb_spec (id t) i) as [Heq | Hne]; simpl.
    + exfalso. apply (Hfresh t); [now left | exact Heq].
    + f_equal. apply IH. intros t' Hin. apply Hfresh. now right.
Qed.

Lemma removeToast_gone (i : string) (toasts : list ToastProps) :
  forall t, In t (removeToast i toasts) -> id t <> i.
Proof.
  intros t Hin. unfold removeToast in Hin.
  apply filter_In in Hin. destruct Hin as [_ Hkeep].
  destruct (String.eqb_spec (id t) i); [discriminate | assumption].
Qed.

(** C9. removeToast is idempotent: removing an identifier twice leaves the
    registry as removing it once does, and removing an identifier that no
    toast carries leaves the registry -- its toasts, their order and so its
    size -- as it was. *)
Theorem removeToast_idempotent (i : string) (toasts : list ToastProps) :
  removeToast i (removeToast i toasts) = removeToast i toasts
  /\ length (removeToast i (removeToast i toasts)) = length (removeToast i toasts)
  /\ ((forall t, In t toasts -> id t <> i) ->
      removeToast i toasts = toasts /\ length (removeToast i toasts) = length toasts).
Proof.
  assert (Htwice : removeToast i (removeToast i toasts) = removeToast i toasts)
    by (apply removeToast_absent, removeToast_gone).
  split; [exact Htwice |].
  split; [now rewrite Htwice |].
  intros Hfresh. rewrite (removeToast_absent i toasts Hfresh). now split.
Qed.

Lemma removeToast_idempotent_witness :
  removeToast "t3" [sampleToast "t1"; sampleToast "t2"] = [sampleToast "t1"; sampleToast "t2"]
  /\ length (removeToast "t3" [sampleToast "t1"; sampleToast "t2"]) = 2%nat.
Proof.
  apply (proj2 (proj2 (removeToast_idempotent "t3" [sampleToast "t1"; sampleToast "t2"]))).
  intros t [<- | [<- | []]]; simpl; discriminate.
Defined.

End ToastRegistry.

(** ** getUserFriendlyErrorMessage *)

Section UserMessage.

Lemma statusSentence_unmapped (v : value) :
  (forall n, v = VNum n -> ~ In n documentedStatuses) -> statusSentence v = None.
Proof.
  intros Hun. destruct v as [| | b | n | s | l | c p]; try reflexivity.
  unfold statusSentence, strict_eq.
  repeat match goal with
         | |- context [Z.eqb ?a ?b] =>
             destruct (Z.eqb_spec a b) as [-> | _];
             [exfalso; apply (Hun _ eq_refl); simpl; tauto |]
         end.
  reflexivity.
Qed.

Lemma codeSentence_unmapped (v : value) :
  (forall c, v = VStr c -> ~ In c documentedCodes) -> codeSentence v = None.
Proof.
  intros Hun. destruct v as [| | b | n | s | l | c p]; try reflexivity.
  unfold codeSentence, strict_eq.
  repeat match goal with
         | |- context [String.eqb ?a ?b] =>
             destruct (String.eqb_spec a b) as [-> | _];
             [exfalso; apply (Hun _ eq_refl); simpl; tauto |]
         end.
  reflexivity.
Qed.

Lemma unmapped_status_skipped (e : ApiError) :
  ~ statusMapped e ->
  (if truthy (read (status e)) then statusSentence (read (status e)) else None) = None.
Proof.
  intros Hun. destruct (truthy (read (status e))); [| reflexivity].
  apply statusSentence_unmapped. intros n Hn Hin. apply Hun. now exists n.
Qed.

(** getUserFriendlyErrorMessage, branch by branch: the status switch runs
    first and returns for each documented status; the code switch is reached
    only when the status selected no sentence; the raw message is returned
    when neither selected one. *)
Lemma getUserFriendlyErrorMessage_table (e : ApiError) :
  (read (status e) = VNum 400 -> getUserFriendlyErrorMessage e =
     VStr "The request contains invalid data. Please check your input and try again.")
  /\ (read (status e) = VNum 401 -> getUserFriendlyErrorMessage e =
     VStr "You need to be logged in to perform this action.")
  /\ (read (status e) = VNum 403 -> getUserFriendlyErrorMessage e =
     VStr "You don't have permission to perform this action.")
  /\ (read (status e) = VNum 404 -> getUserFriendlyErrorMessage e =
     VStr "The requested resource was not found.")
  /\ (read (status e) = VNum 409 -> getUserFriendlyErrorMessage e =
     VStr "This operation couldn't be completed due to a conflict with existing data.")
  /\ (read (status e) = VNum 422 -> getUserFriendlyErrorMessage e =
     VStr "The submitted data is invalid. Please check your input and try again.")
  /\ (read (status e) = VNum 429 -> getUserFriendlyErrorMessage e =
     VStr "Too many requests. Please try again later.")
  /\ (read (status e) = VNum 500 -> getUserFriendlyErrorMessage e =
     VStr "An internal server error occurred. Please try again later.")
  /\ (read (status e) = VNum 503 -> getUserFriendlyErrorMessage e =
     VStr "The service is temporarily unavailable. Please try again later.")
  /\ (~ statusMapped e ->
      (read (code e) = VStr "NETWORK_ERROR" -> getUserFriendlyErrorMessage e =
         VStr "Unable to connect to the server. Please check your internet connection.")
      /\ (read (code e) = VStr "TIMEOUT_ERROR" -> getUserFriendlyErrorMessage e =
         VStr "The request timed out. Please try again later.")
      /\ (read (code e) = VStr "DUPLICATE_SERIAL" -> getUserFriendlyErrorMessage e =
         VStr "An asset with this serial number already exists.")
      /\ (~ codeMapped e -> getUserFriendlyErrorMessage e = message e)).
Proof.
  repeat match goal with
         | |- (read (status e) = _ -> _) /\ _ =>
             split; [intros Hst; unfold getUserFriendlyErrorMessage; rewrite Hst; reflexivity |]
         end.
  intros Hun. unfold getUserFriendlyErrorMessage.
  rewrite (unmapped_status_skipped e Hun).
  repeat match goal with
         | |- (read (code e) = _ -> _) /\ _ =>
             split; [intros Hc; rewrite Hc; reflexivity |]
         end.
  intros Hcode.
  assert (Hskip : (if truthy (read (code e)) then codeSentence (read (code e)) else None) = None).
  { destruct (truthy (read (code e))); [| reflexivity].
    apply codeSentence_unmapped. intros c Hc Hin. apply Hcode. now exists c. }
  now rewrite Hskip.
Qed.

(** C4. The claim fails on the code at the error of a duplicate serial
    number.  The 409 response with the envelope code DUPLICATE_SERIAL is
    formatted with that code and the status 409; the function holds the
    sentence "An asset with this serial number already exists." for that
    code, and returns it when the status is missing; but with the status 409
    the status switch returns first, and the sentence shown is the one of the
    conflict. *)
Theorem duplicate_serial_shadowed :
  formatError conflict409 = Normal duplicateSerial409
  /\ read (code duplicateSerial409) = VStr "DUPLICATE_SERIAL"
  /\ read (status duplicateSerial409) = VNum 409
  /\ codeSentence (VStr "DUPLICATE_SERIAL")
     = Some "An asset with this serial number already exists."
  /\ getUserFriendlyErrorMessage duplicateSerialNoStatus
     = VStr "An asset with this serial number already exists."
  /\ getUserFriendlyErrorMessage duplicateSerial409
     = VStr "This operation couldn't be completed due to a conflict with existing data.".
Proof.
  repeat split.
Qed.

End UserMessage.

(** ** formatError *)

Section FormatError.

Lemma truthy_not_nullish (v : value) : truthy v = true -> nullish v = false.
Proof. destruct v; simpl; congruence. Qed.

Lemma get_defined (v : value) (k : string) : nullish v = false -> get v k = Normal (prop v k).
Proof. intros H. unfold get. now rewrite H. Qed.

Lemma isObject_not_nullish (v : value) : isObject v = true -> nullish v = false.
Proof. destruct v; simpl; congruence. Qed.

Lemma axiosFlagged_truthy (error : value) : axiosFlagged error = true -> truthy error = true.
Proof. unfold axiosFlagged. intros H. now apply andb_true_iff in H. Qed.

Lemma isAxiosError_spec (error : value) :
  exists v, isAxiosError error = Normal v /\ truthy v = axiosFlagged error.
Proof.
  unfold isAxiosError, axiosFlagged.
  destruct (truthy error) eqn:Ht.
  - rewrite (get_defined _ _ (truthy_not_nullish _ Ht)). simpl.
    eexists. split; [reflexivity |]. reflexivity.
  - exists error. split; [reflexivity | exact Ht].
Qed.

Lemma isStructured_spec (payload : value) :
  isStructured payload = Normal (structuredPayload payload).
Proof.
  unfold isStructured, structuredPayload.
  destruct payload as [| | b | n | s | l | cls props]; simpl; try reflexivity.
  - now destruct b.
  - now destruct (negb (n =? 0)%Z).
  - now destruct (negb (s =? "")).
  - destruct (lookup "error" props) as [inner |] eqn:Hl; simpl.
    + unfold get. destruct inner; simpl; rewrite ?Hl; try reflexivity.
      * now destruct b.
      * now destruct (negb (n =? 0)%Z).
      * now destruct (negb (s =? "")).
    + now destruct cls.
Qed.

Lemma structuredPayload_error_object (payload : value) :
  structuredPayload payload = true ->
  nullish payload = false /\ isObject (prop payload "error") = true.
Proof.
  unfold structuredPayload. destruct payload as [| | b | n | s | l | cls props]; try discriminate.
  simpl. destruct (lookup "error" props); [| discriminate]. now split.
Qed.

Lemma stringBranch_spec (payload : value) :
  truthy payload && (typeof payload =? "string") = nonEmptyString payload.
Proof.
  destruct payload as [| | b | n | s | l | cls props]; simpl; try reflexivity.
  - now rewrite andb_false_r.
  - now rewrite andb_false_r.
  - now rewrite andb_true_r.
Qed.

(** formatError, branch by branch, as a pure choice among seven records. *)
Lemma formatError_unfold (error : value) :
  formatError error = Normal
    (if axiosFlagged error then
       if structuredPayload (responseData error) then
         {| message := or_else (prop (payloadError error) "message") (VStr "An error occurred");
            code := Some (or_else (prop (payloadError error) "code")
                                  (VStr ("HTTP_" ++ to_string (responseStatus error))));
            status := Some (responseStatus error);
            details := Some (prop (payloadError error) "details") |}
       else if nonEmptyString (responseData error) then
         {| message := responseData error;
            code := Some (VStr ("HTTP_" ++ to_string (responseStatus error)));
            status := Some (responseStatus error);
            details := None |}
       else if strict_eq (prop error "message") (VStr "Network Error") then
         {| message := VStr "Unable to connect to the server. Please check your internet connection.";
            code := Some (VStr "NETWORK_ERROR");
            status := None;
            details := None |}
       else
         {| message := or_else (prop error "message") (VStr "An unexpected error occurred");
            code := Some (VStr ("HTTP_" ++
                     to_string (or_else (responseStatus error) (VStr "ERROR"))));
            status := Some (responseStatus error);
            details := None |}
     else if instanceof_Error error then
       {| message := or_else (prop error "message") (VStr "An unexpected error occurred");
          code := Some (VStr "APP_ERROR");
          status := None;
          details := None |}
     else if isString error then
       {| message := error;
          code := Some (VStr "APP_ERROR");
          status := None;
          details := None |}
     else
       {| message := VStr "An unexpected error occurred";
          code := Some (VStr "UNKNOWN_ERROR");
          status := None;
          details := None |}).
Proof.
  unfold formatError.
  destruct (isAxiosError_spec error) as [flag [Hflag Htruthy]].
  rewrite Hflag. simpl bind. rewrite Htruthy.
  destruct (axiosFlagged error) eqn:Hax.
  - pose proof (truthy_not_nullish _ (axiosFlagged_truthy _ Hax)) as Hnn.
    rewrite (get_defined error "response" Hnn). simpl bind.
    fold (responseStatus error). fold (responseData error).
    rewrite isStructured_spec. simpl bind.
    destruct (structuredPayload (responseData error)) eqn:Hst.
    + destruct (structuredPayload_error_object _ Hst) as [Hd Hobj].
      rewrite (get_defined _ "error" Hd). simpl bind. fold (payloadError error).
      fold (payloadError error) in Hobj.
      rewrite !(get_defined (payloadError error) _ (isObject_not_nullish _ Hobj)).
      reflexivity.
    + rewrite stringBranch_spec.
      destruct (nonEmptyString (responseData error)); [reflexivity |].
      rewrite (get_defined error "message" Hnn). simpl bind.
      now destruct (strict_eq (prop error "message") (VStr "Network Error")).
  - destruct (instanceof_Error error) eqn:Herr.
    + assert (Hnn : nullish error = false) by (destruct error; simpl in *; congruence).
      rewrite (get_defined error "message" Hnn). reflexivity.
    + destruct error; simpl; reflexivity.
Qed.

(** C3 (as amended). formatError is this case analysis, in this order.
    For an error the transport flagged: a payload shaped [{error: {...}}]
    yields the envelope's message (the generic one when it is falsy), its
    code (HTTP_<status> when it is falsy), the status and the details; a
    non-empty string payload yields that string with the code HTTP_<status>;
    otherwise the message "Network Error" yields the unable-to-connect
    message with the code NETWORK_ERROR; otherwise (the default transport
    case) the error's own message, the code HTTP_<status> -- HTTP_ERROR when
    there is no status -- and the status.  For any other error: an Error
    object yields its message (a generic one when it is falsy) with the code
    APP_ERROR; a string is wrapped with the code APP_ERROR; anything else
    yields the unexpected-error fallback with the code UNKNOWN_ERROR. *)
Theorem formatError_cases (error : value) :
  (axiosFlagged error = true -> structuredPayload (responseData error) = true ->
   formatError error = Normal
     {| message := or_else (prop (payloadError error) "message") (VStr "An error occurred");
        code := Some (or_else (prop (payloadError error) "code")
                              (VStr ("HTTP_" ++ to_string (responseStatus error))));
        status := Some (responseStatus error);
        details := Some (prop (payloadError error) "details") |})
  /\ (axiosFlagged error = true ->
      forall s, responseData error = VStr s -> s <> "" ->
      formatError error = Normal
        {| message := VStr s;
           code := Some (VStr ("HTTP_" ++ to_string (responseStatus error)));
           status := Some (responseStatus error);
           details := None |})
  /\ (axiosFlagged error = true -> usablePayload (responseData error) = false ->
      prop error "message" = VStr "Network Error" ->
      formatError error = Normal
        {| message := VStr "Unable to connect to the server. Please check your internet connection.";
           code := Some (VStr "NETWORK_ERROR");
           status := None;
           details := None |})
  /\ (axiosFlagged error = true -> usablePayload (responseData error) = false ->
      prop error "message" <> VStr "Network Error" ->
      formatError error = Normal
        {| message := or_else (prop error "message") (VStr "An unexpected error occurred");
           code := Some (VStr ("HTTP_" ++
                    to_string (or_else (responseStatus error) (VStr "ERROR"))));
           status := Some (responseStatus error);
           details := None |})
  /\ (axiosFlagged error = false -> instanceof_Error error = true ->
      formatError error = Normal
        {| message := or_else (prop error "message") (VStr "An unexpected error occurred");
           code := Some (VStr "APP_ERROR");
           status := None;
           details := None |})
  /\ (forall s, error = VStr s ->
      formatError error = Normal
        {| message := VStr s;
           code := Some (VStr "APP_ERROR");
           status := None;
           details := None |})
  /\ (axiosFlagged error = false -> instanceof_Error error = false ->
      isString error = false ->
      formatError error = Normal
        {| message := VStr "An unexpected error occurred";
           code := Some (VStr "UNKNOWN_ERROR");
           status := None;
           details := None |}).
Proof.
  rewrite formatError_unfold.
  repeat split.
  - intros Hax Hst. now rewrite Hax, Hst.
  - intros Hax s Hs Hne. rewrite Hax, Hs. simpl.
    destruct (String.eqb_spec s ""); [contradiction | reflexivity].
  - intros Hax Hun Hmsg. unfold usablePayload in Hun.
    apply orb_false_iff in Hun. destruct Hun as [Hst Hstr].
    rewrite Hax, Hst, Hstr, Hmsg. reflexivity.
  - intros Hax Hun Hmsg. unfold usablePayload in Hun.
    apply orb_false_iff in Hun. destruct Hun as [Hst Hstr].
    rewrite Hax, Hst, Hstr.
    destruct (strict_eq (prop error "message") (VStr "Network Error")) eqn:Heq; [| reflexivity].
    exfalso. apply Hmsg. destruct (prop error "message"); simpl in Heq; try discriminate.
    f_equal. now apply String.eqb_eq.
  - intros Hax Herr. now rewrite Hax, Herr.
  - intros s ->. unfold axiosFlagged. simpl. rewrite andb_false_r. reflexivity.
  - intros Hax Herr Hstr. now rewrite Hax, Herr, Hstr.
Qed.

Lemma formatError_cases_witness :
  formatError notFound404 = Normal
    {| message := VStr "Request failed with status code 404";
       code := Some (VStr "HTTP_404");
       status := Some (VNum 404);
       details := None |}.
Proof.
  destruct (formatError_cases notFound404) as (_ & _ & _ & Hdefault & _).
  apply Hdefault.
  - reflexivity.
  - reflexivity.
  - simpl. discriminate.
Defined.

(** C3 (as stated) fails: its six cases leave out the default transport
    case.  A flagged error that carries a response whose payload is neither a
    structured envelope nor a string is none of the first three cases, yet it
    is formatted with the code HTTP_404 and its own message: neither the
    APP_ERROR wrapping of a generic Error nor the UNKNOWN_ERROR fallback of
    "any other input". *)
Lemma formatError_default_case_counterexample :
  axiosFlagged notFound404 = true
  /\ structuredPayload (responseData notFound404) = false
  /\ isString (responseData notFound404) = false
  /\ nullish (prop notFound404 "response") = false
  /\ exists r, formatError notFound404 = Normal r
       /\ code r = Some (VStr "HTTP_404")
       /\ code r <> Some (VStr "APP_ERROR")
       /\ code r <> Some (VStr "UNKNOWN_ERROR")
       /\ code r <> Some (VStr "NETWORK_ERROR").
Proof.
  repeat (split; [reflexivity |]).
  eexists. split; [reflexivity |]. simpl.
  repeat split; discriminate.
Qed.

(** C5 (as amended). formatError is total: on every value it returns a
    record [{message, code?, status?, details?}] and never throws.  The
    message of that record is a string whenever the messages formatError may
    copy from its input -- the [message] of the envelope's error object and
    the [message] of the error itself -- are strings or falsy. *)
Theorem formatError_total (error : value) :
  exists r, formatError error = Normal r
    /\ (textual (prop (payloadError error) "message") = true ->
        textual (prop error "message") = true ->
        isString (message r) = true).
Proof.
  rewrite formatError_unfold. eexists. split; [reflexivity |].
  assert (Hor : forall m fallback,
             textual m = true -> isString (or_else m (VStr fallback)) = true).
  { intros m fallback. unfold textual, or_else.
    destruct (truthy m); [| reflexivity].
    rewrite orb_false_r. tauto. }
  intros Hpayload Hown.
  destruct (axiosFlagged error).
  - destruct (structuredPayload (responseData error)); [now apply Hor |].
    destruct (nonEmptyString (responseData error)) eqn:Hne.
    + simpl. destruct (responseData error); simpl in *; congruence.
    + destruct (strict_eq (prop error "message") (VStr "Network Error"));
        [reflexivity | now apply Hor].
  - destruct (instanceof_Error error); [now apply Hor |].
    destruct (isString error) eqn:Hstr; [exact Hstr | reflexivity].
Qed.

Lemma formatError_total_witness :
  exists r, formatError notFound404 = Normal r /\ isString (message r) = true.
Proof.
  destruct (formatError_total notFound404) as (r & Hr & Hstring).
  exists r. split; [exact Hr |].
  apply Hstring; reflexivity.
Defined.

(** C5 (as stated) fails: the message need not be a string.  For a 400
    whose envelope is [{error: {code: "BAD_INPUT", message: 42}}] the
    formatted message is the number 42. *)
Lemma formatError_message_counterexample :
  exists r, formatError numericMessage400 = Normal r
    /\ message r = VNum 42
    /\ isString (message r) = false.
Proof.
  eexists. split; [reflexivity |]. now split.
Qed.

(** C10 (as amended). A flagged error with no response whose message is
    not "Network Error" (a timeout, say) is formatted with the code
    HTTP_ERROR and an undefined status.  formatError writes the code
    TIMEOUT_ERROR nowhere itself: its output carries that code only when the
    structured envelope of the response supplied it. *)
Theorem formatError_timeout (error : value) :
  (axiosFlagged error = true -> nullish (prop error "response") = true ->
   prop error "message" <> VStr "Network Error" ->
   exists r, formatError error = Normal r
     /\ code r = Some (VStr "HTTP_ERROR")
     /\ read (status r) = VUndefined
     /\ message r = or_else (prop error "message") (VStr "An unexpected error occurred"))
  /\ (forall r, formatError error = Normal r ->
      code r = Some (VStr "TIMEOUT_ERROR") ->
      axiosFlagged error = true
      /\ structuredPayload (responseData error) = true
      /\ prop (payloadError error) "code" = VStr "TIMEOUT_ERROR").
Proof.
  rewrite formatError_unfold. split.
  - intros Hax Hnone Hmsg. rewrite Hax.
    assert (Hst : responseStatus error = VUndefined).
    { unfold responseStatus. now destruct (prop error "response"). }
    assert (Hdata : responseData error = VUndefined).
    { unfold responseData. now destruct (prop error "response"). }
    rewrite Hdata, Hst. simpl.
    destruct (strict_eq (prop error "message") (VStr "Network Error")) eqn:Heq.
    + exfalso. apply Hmsg. destruct (prop error "message"); simpl in Heq; try discriminate.
      f_equal. now apply String.eqb_eq.
    + eexists. split; [reflexivity |]. simpl. now repeat split.
  - intros r Hr Hcode. injection Hr as <-.
    destruct (axiosFlagged error).
    + destruct (structuredPayload (responseData error)).
      * simpl in Hcode. split; [reflexivity |]. split; [reflexivity |].
        injection Hcode as Hcode. unfold or_else in Hcode.
        destruct (truthy (prop (payloadError error) "code")); [exact Hcode |].
        exfalso. injection Hcode as Hcode.
        revert Hcode. generalize (to_string (responseStatus error)). intros t Ht.
        simpl in Ht. discriminate Ht.
      * exfalso. destruct (nonEmptyString (responseData error)).
        -- simpl in Hcode. injection Hcode as Hcode. simpl in Hcode. discriminate Hcode.
        -- destruct (strict_eq (prop error "message") (VStr "Network Error"));
             simpl in Hcode; [discriminate Hcode |].
           injection Hcode as Hcode. simpl in Hcode. discriminate Hcode.
    + exfalso. destruct (instanceof_Error error); [discriminate Hcode |].
      destruct (isString error); discriminate Hcode.
Qed.

Lemma formatError_timeout_witness :
  exists r, formatError timeoutError = Normal r
    /\ code r = Some (VStr "HTTP_ERROR")
    /\ read (status r) = VUndefined
    /\ message r = or_else (prop timeoutError "message") (VStr "An unexpected error occurred").
Proof.
  apply (proj1 (formatError_timeout timeoutError)).
  - reflexivity.
  - reflexivity.
  - simpl. discriminate.
Defined.

(** C10 (as stated) fails: formatError does produce the code
    TIMEOUT_ERROR, copied from the envelope of a 504, and
    getUserFriendlyErrorMessage then returns the timeout sentence. *)
Lemma formatError_timeout_code_counterexample :
  exists r, formatError gatewayTimeout504 = Normal r
    /\ code r = Some (VStr "TIMEOUT_ERROR")
    /\ getUserFriendlyErrorMessage r = VStr "The request timed out. Please try again later.".
Proof.
  eexists. split; [reflexivity |]. now split.
Qed.

End FormatError.

(** ** The HTTP wrappers and the resource API *)

Section ResourceApi.

Import AssetApi.

Lemma api_onRejected_passes (error : value) :
  nullish error = false -> snd (api_onRejected error) = error.
Proof.
  intros Hnn. unfold api_onRejected. rewrite (get_defined _ _ Hnn).
  destruct (truthy (prop error "response")); [reflexivity |].
  now destruct (truthy (prop error "request")).
Qed.

Lemma api_failed (transport : request -> http_result) (req : request) (error : value) :
  transport req = Failed error -> nullish error = false ->
  Http.api transport req = Failed error.
Proof.
  intros Ht Hnn. unfold Http.api. rewrite Ht. now rewrite api_onRejected_passes.
Qed.

(** Every operation is one awaited call whose failure goes to [rethrow]. *)
Lemma perform_failed (op : operation) (transport : request -> http_result)
    (req : request) (error : value) :
  requestOf (perform op) = Some req ->
  Http.api transport req = Failed error ->
  outcome transport (perform op) = rethrow error.
Proof.
  intros Hreq Hfail.
  destruct op; simpl in Hreq; injection Hreq as <-;
    unfold outcome; simpl; rewrite Hfail; reflexivity.
Qed.

(** A message with a string fallback is never [undefined], so the
    constructor stores its text. *)
Lemma new_ApiException_message (st c a d : value) (fallback : string) :
  new_ApiException st c (or_else a (VStr fallback)) d =
  {| ex_status := st;
     ex_code := c;
     ex_message := to_string (or_else a (VStr fallback));
     ex_details := d |}.
Proof.
  unfold new_ApiException, or_else. destruct (truthy a) eqn:Ha; [| reflexivity].
  destruct a; simpl in Ha; try discriminate; reflexivity.
Qed.

(** handleApiError on anything but [null] and [undefined]. *)
Lemma handleApiError_unfold (error : value) :
  nullish error = false ->
  handleApiError error = Normal
    (if truthy (prop error "response") then
       {| ex_status := responseStatus error;
          ex_code := or_else (prop (payloadError error) "code")
                             (VStr ("HTTP_" ++ to_string (responseStatus error)));
          ex_message := to_string
                          (or_else (or_else (prop (payloadError error) "message")
                                            (prop (responseData error) "detail"))
                                   (VStr "An error occurred"));
          ex_details := or_else (prop (payloadError error) "details") (responseData error) |}
     else if truthy (prop error "request") then
       {| ex_status := VNum 0;
          ex_code := VStr "NETWORK_ERROR";
          ex_message := "Network error - unable to reach server";
          ex_details := VUndefined |}
     else
       {| ex_status := VNum 0;
          ex_code := VStr "REQUEST_ERROR";
          ex_message := to_string (or_else (prop error "message") (VStr "Request setup error"));
          ex_details := VUndefined |}).
Proof.
  intros Hnn. unfold handleApiError.
  rewrite (get_defined _ "response" Hnn). simpl bind.
  destruct (truthy (prop error "response")).
  - cbv zeta. rewrite new_ApiException_message. reflexivity.
  - rewrite (get_defined _ "request" Hnn). simpl bind.
    destruct (truthy (prop error "request")); [reflexivity |].
    rewrite (get_defined _ "message" Hnn). simpl bind.
    rewrite new_ApiException_message. reflexivity.
Qed.

(** C2. Every operation of the resource API (list, get, create, update,
    delete, listCategories, listStatuses) dispatches one request, and when
    that request fails with an error object the operation rejects with an
    ApiException built from that error.  With a response envelope: its
    status; its error code, or HTTP_<status>; its error message, or its
    detail, or the generic message; its error details, or the payload.
    Without a response but with the request sent: status 0 and code
    NETWORK_ERROR.  Otherwise: status 0 and code REQUEST_ERROR. *)
Theorem operations_reject_with_ApiException (op : operation)
    (transport : request -> http_result) (error : value) :
  nullish error = false ->
  exists req,
    requestOf (perform op) = Some req
    /\ dispatched transport (perform op) = [req]
    /\ (transport req = Failed error ->
        exists ex,
          outcome transport (perform op) = Rejected (ThrownApiException ex)
          /\ (truthy (prop error "response") = true ->
              ex_status ex = responseStatus error
              /\ ex_code ex = or_else (prop (payloadError error) "code")
                                      (VStr ("HTTP_" ++ to_string (responseStatus error)))
              /\ ex_message ex = to_string
                                   (or_else (or_else (prop (payloadError error) "message")
                                                     (prop (responseData error) "detail"))
                                            (VStr "An error occurred"))
              /\ ex_details ex = or_else (prop (payloadError error) "details")
                                         (responseData error))
          /\ (truthy (prop error "response") = false ->
              truthy (prop error "request") = true ->
              ex_status ex = VNum 0
              /\ ex_code ex = VStr "NETWORK_ERROR"
              /\ ex_message ex = "Network error - unable to reach server")
          /\ (truthy (prop error "response") = false ->
              truthy (prop error "request") = false ->
              ex_status ex = VNum 0
              /\ ex_code ex = VStr "REQUEST_ERROR"
              /\ ex_message ex = to_string (or_else (prop error "message")
                                                    (VStr "Request setup error")))).
Proof.
  intros Hnn.
  assert (Hreq : exists req, requestOf (perform op) = Some req
                             /\ dispatched transport (perform op) = [req]).
  { destruct op; eexists; split; reflexivity. }
  destruct Hreq as (req & Hreq & Hone).
  exists req. split; [exact Hreq |]. split; [exact Hone |].
  intros Hfail.
  rewrite (perform_failed op transport req error Hreq (api_failed _ _ _ Hfail Hnn)).
  unfold rethrow. rewrite (handleApiError_unfold error Hnn).
  eexists. split; [reflexivity |].
  split; [| split].
  - intros ->. now repeat split.
  - intros -> ->. now repeat split.
  - intros -> ->. now repeat split.
Qed.

Lemma operations_reject_with_ApiException_witness :
  exists ex,
    dispatched (failingWith networkError) (perform (DeleteAsset 7)) = [DELETE "/api/assets/7"]
    /\ outcome (failingWith networkError) (perform (DeleteAsset 7))
       = Rejected (ThrownApiException ex)
    /\ ex_status ex = VNum 0
    /\ ex_code ex = VStr "NETWORK_ERROR"
    /\ ex_message ex = "Network error - unable to reach server".
Proof.
  destruct (operations_reject_with_ApiException (DeleteAsset 7) (failingWith networkError)
              networkError eq_refl)
    as (req & Hreq & Hone & Hfails).
  destruct (Hfails eq_refl) as (ex & Hout & _ & Hnetwork & _).
  exists ex. split; [reflexivity |]. split; [exact Hout |].
  apply Hnetwork; reflexivity.
Defined.

(** C6 (as amended). The two wrappers differ.  The [api] instance of
    services/api.ts, which is the one AssetApi calls, logs a failure and
    rejects with the transport's error object unchanged, and it is that
    object AssetApi hands to handleApiError.  Only the [axiosInstance] of
    utils/apiClient.ts rejects with the normalized shape that formatError
    produced from the error. *)
Theorem wrappers_rejection (transport : request -> http_result) (req : request)
    (error : value) :
  transport req = Failed error ->
  (nullish error = false ->
   Http.api transport req = Failed error
   /\ forall op, requestOf (perform op) = Some req ->
        outcome transport (perform op) = rethrow error)
  /\ (forall production, exists formatted,
        formatError error = Normal formatted
        /\ Http.axiosInstance production transport req = Failed (ApiError_to_value formatted)).
Proof.
  intros Hfail. split.
  - intros Hnn. pose proof (api_failed _ _ _ Hfail Hnn) as Hapi.
    split; [exact Hapi |].
    intros op Hreq. now apply perform_failed with (req := req).
  - intros production. eexists. split; [apply formatError_unfold |].
    unfold Http.axiosInstance, apiClient_onRejected.
    rewrite Hfail, formatError_unfold. reflexivity.
Qed.

Lemma wrappers_rejection_witness :
  Http.api (failingWith notFound404) (GET "/api/assets/7") = Failed notFound404
  /\ forall op, requestOf (perform op) = Some (GET "/api/assets/7") ->
       outcome (failingWith notFound404) (perform op) = rethrow notFound404.
Proof.
  apply (proj1 (wrappers_rejection (failingWith notFound404) (GET "/api/assets/7")
                  notFound404 eq_refl)).
  reflexivity.
Defined.

(** C6 (as stated) fails for the wrapper the asset layer uses: a request
    through [api] that fails with the 404 error of axios rejects with that
    very axios-flagged object, which is not the record formatError makes of
    it. *)
Lemma api_rejects_with_transport_error_counterexample :
  Http.api (failingWith notFound404) (GET "/api/assets/7") = Failed notFound404
  /\ prop notFound404 "isAxiosError" = VBool true
  /\ exists formatted,
       formatError notFound404 = Normal formatted
       /\ notFound404 <> ApiError_to_value formatted.
Proof.
  split; [reflexivity |]. split; [reflexivity |].
  eexists. split; [reflexivity |]. discriminate.
Qed.

End ResourceApi.

(** ** validateAssetData *)

Section Validation.

Import AssetApi.

Lemma blank_spec (field : option string) : blank field = false <-> nonBlank field.
Proof.
  unfold blank, nonBlank. destruct field as [s |].
  - destruct (String.eqb_spec (Str.trim s) "") as [Heq | Hne]; split.
    + discriminate.
    + intros [s' [Hs Ht]]. injection Hs as <-. contradiction.
    + intros _. now exists s.
    + reflexivity.
  - split; [discriminate | intros [s [Hs _]]; discriminate].
Qed.

Lemma falsy_spec (field : option string) : falsy field = false <-> nonEmpty field.
Proof.
  unfold falsy, nonEmpty. destruct field as [s |].
  - destruct (String.eqb_spec s "") as [Heq | Hne]; split.
    + discriminate.
    + intros [s' [Hs Ht]]. injection Hs as <-. contradiction.
    + intros _. now exists s.
    + reflexivity.
  - split; [discriminate | intros [s [Hs _]]; discriminate].
Qed.

(** The list validateAssetData builds: one optional message per check, in
    the order of the checks. *)
Lemma validateAssetData_unfold (asset : AssetRequest) :
  validateAssetData asset =
    ((if blank (name asset) then ["Asset name is required"] else [])
     ++ (if blank (category asset) then ["Category is required"] else [])
     ++ (if blank (serialNumber asset) then ["Serial number is required"] else [])
     ++ (if falsy (purchaseDate asset) then ["Purchase date is required"] else [])
     ++ (if PrimFloat.leb (purchasePrice asset) 0 then ["Purchase price must be greater than 0"] else [])
     ++ (if falsy (Types.status asset) then ["Status is required"] else []))%list.
Proof.
  unfold validateAssetData.
  destruct (blank (name asset)), (blank (category asset)), (blank (serialNumber asset)),
    (falsy (purchaseDate asset)), (PrimFloat.leb (purchasePrice asset) 0),
    (falsy (Types.status asset)); reflexivity.
Qed.

(** For a price that is a number, [price <= 0] is false exactly when
    [0 < price]. *)
Lemma positive_iff_not_le (p : float) :
  PrimFloat.is_nan p = false ->
  (PrimFloat.leb p 0 = false <-> PrimFloat.ltb 0 p = true).
Proof.
  unfold PrimFloat.is_nan.
  rewrite FloatAxioms.eqb_spec, FloatAxioms.leb_spec, FloatAxioms.ltb_spec.
  replace (Prim2SF 0) with (S754_zero false) by reflexivity.
  unfold SFeqb, SFleb, SFltb.
  destruct (Prim2SF p) as [sgn | sgn | | sgn m e]; simpl.
  - intros _. split; discriminate.
  - intros _. destruct sgn; split; intros; try reflexivity; discriminate.
  - discriminate.
  - intros _. destruct sgn; split; intros; try reflexivity; discriminate.
Qed.

(** C7 (as amended). validateAssetData is a function of the payload alone
    (it performs no call of the service layer).  For a payload whose
    purchasePrice is a number (not NaN) it returns the empty list exactly
    when name, category and serialNumber are present and not blank (something
    is left after trimming white space), purchaseDate and status are present
    and not empty, and the price is above zero.  For every payload, when one
    of the fields is missing, blank or empty, or when [purchasePrice <= 0],
    the list contains the message that names that field. *)
Theorem validateAssetData_spec (asset : AssetRequest) :
  (PrimFloat.is_nan (purchasePrice asset) = false ->
   (validateAssetData asset = [] <->
      nonBlank (name asset) /\ nonBlank (category asset) /\ nonBlank (serialNumber asset)
      /\ nonEmpty (purchaseDate asset) /\ nonEmpty (Types.status asset)
      /\ PrimFloat.ltb 0 (purchasePrice asset) = true))
  /\ (~ nonBlank (name asset) -> In "Asset name is required" (validateAssetData asset))
  /\ (~ nonBlank (category asset) -> In "Category is required" (validateAssetData asset))
  /\ (~ nonBlank (serialNumber asset) ->
      In "Serial number is required" (validateAssetData asset))
  /\ (~ nonEmpty (purchaseDate asset) ->
      In "Purchase date is required" (validateAssetData asset))
  /\ (PrimFloat.leb (purchasePrice asset) 0 = true ->
      In "Purchase price must be greater than 0" (validateAssetData asset))
  /\ (~ nonEmpty (Types.status asset) -> In "Status is required" (validateAssetData asset)).
Proof.
  rewrite validateAssetData_unfold.
  rewrite <- !blank_spec, <- !falsy_spec.
  split.
  - intros Hnum. rewrite <- (positive_iff_not_le _ Hnum).
    destruct (blank (name asset)), (blank (category asset)), (blank (serialNumber asset)),
      (falsy (purchaseDate asset)), (PrimFloat.leb (purchasePrice asset) 0),
      (falsy (Types.status asset)); simpl;
      split; intros; try discriminate; try tauto;
      repeat match goal with
             | H : _ /\ _ |- _ => destruct H
             end;
      try discriminate; try congruence.
  - destruct (blank (name asset)), (blank (category asset)), (blank (serialNumber asset)),
      (falsy (purchaseDate asset)), (PrimFloat.leb (purchasePrice asset) 0),
      (falsy (Types.status asset)); simpl;
      repeat split; intros; try discriminate; try tauto; try congruence.
Qed.

Lemma validateAssetData_spec_witness : validateAssetData laptop = [].
Proof.
  apply (proj1 (validateAssetData_spec laptop)).
  - reflexivity.
  - repeat split; try (eexists; split; [reflexivity | vm_compute; discriminate]).
Defined.

(** C7 (as stated) fails: a name that is not empty but blank is refused.
    With the name [" "] every stated condition holds -- name, category and
    serialNumber are not empty, purchaseDate and status are present, the
    price is above zero -- and the list is not empty. *)
Lemma validateAssetData_blank_name_counterexample :
  name (withName (Some " ") laptop) = Some " "
  /\ " " <> ""
  /\ nonEmpty (category (withName (Some " ") laptop))
  /\ nonEmpty (serialNumber (withName (Some " ") laptop))
  /\ nonEmpty (purchaseDate (withName (Some " ") laptop))
  /\ nonEmpty (Types.status (withName (Some " ") laptop))
  /\ PrimFloat.ltb 0 (purchasePrice (withName (Some " ") laptop)) = true
  /\ validateAssetData (withName (Some " ") laptop) = ["Asset name is required"].
Proof.
  split; [reflexivity |]. split; [discriminate |].
  repeat (split; [eexists; split; [reflexivity | discriminate] |]).
  split; reflexivity.
Qed.

(** The scenario of the specification: an empty name is refused with
    exactly one message. *)
Example validateAssetData_empty_name :
  validateAssetData (withName (Some "") laptop) = ["Asset name is required"].
Proof. reflexivity. Qed.

(** A price that is not a number passes this check, though it is not above
    zero: [NaN <= 0] is false.  (The form's own [validateField] refuses it
    with [isNaN].) *)
Example validateAssetData_nan_price :
  validateAssetData (withPrice nan laptop) = []
  /\ PrimFloat.ltb 0 (purchasePrice (withPrice nan laptop)) = false.
Proof. split; reflexivity. Qed.

End Validation.

(** ** The query of getAssets *)

Section Query.

Import AssetApi.

Lemma In_appendText (k : string) (field : option string) (params : list (string * string))
    (k' v : string) :
  In (k', v) (appendText k field params) <->
  In (k', v) params \/ (k' = k /\ field = Some v /\ v <> "").
Proof.
  unfold appendText. destruct field as [s |].
  - destruct (String.eqb_spec s "") as [-> | Hne].
    + split; [now left |]. intros [H | (_ & Hs & Hv)]; [exact H |].
      injection Hs as <-. contradiction.
    + rewrite in_app_iff. simpl. split.
      * intros [H | [H | []]]; [now left |]. injection H as <- <-. right. now repeat split.
      * intros [H | (-> & Hs & _)]; [now left |]. injection Hs as ->. right. now left.
  - split; [now left |]. intros [H | (_ & Hs & _)]; [exact H | discriminate].
Qed.

Lemma In_appendNumber (k : string) (field : option number)
    (params : list (string * string)) (k' v : string) :
  In (k', v) (appendNumber k field params) <->
  In (k', v) params
  \/ (k' = k /\ exists n, field = Some (Int n) /\ n <> 0%Z /\ v = number_to_string n).
Proof.
  unfold appendNumber. destruct field as [[n |] |].
  - destruct (Z.eqb_spec n 0) as [-> | Hne].
    + split; [now left |]. intros [H | (_ & n & Hn & Hz & _)]; [exact H |].
      injection Hn as <-. contradiction.
    + rewrite in_app_iff. simpl. split.
      * intros [H | [H | []]]; [now left |]. injection H as <- <-.
        right. split; [reflexivity |]. now exists n.
      * intros [H | (-> & n' & Hn & _ & ->)]; [now left |]. injection Hn as ->.
        right. now left.
  - split; [now left |]. intros [H | (_ & n & Hn & _)]; [exact H | discriminate].
  - split; [now left |]. intros [H | (_ & n & Hn & _)]; [exact H | discriminate].
Qed.

Lemma urlencoded_pair_not_empty (k v rest : string) : (k ++ "=" ++ v ++ rest)%string <> "".
Proof. destruct k; simpl; discriminate. Qed.

Lemma URLSearchParams_toString_empty (params : list (string * string)) :
  Str.URLSearchParams_toString params = "" <-> params = [].
Proof.
  destruct params as [| [k v] rest]; simpl.
  - tauto.
  - split; [| discriminate]. intros H. exfalso.
    exact (urlencoded_pair_not_empty _ _ _ H).
Qed.

(** C8 (as amended). getAssets dispatches one GET whose query holds exactly
    the filter fields that are truthy: a string field that is present and not
    empty, a number field that is present and neither 0 nor NaN.  Each goes
    under its own name, pageSize under [page_size], once, and in the order
    search, category, status, page, page_size; a field that is absent, empty,
    0 or NaN is left out.  When no field is serialized the URL is the base
    path, without a query string. *)
Theorem getAssets_query (filters : option AssetFilters) :
  requestOf (getAssets filters) = Some (GET (assetsUrl filters))
  /\ (forall k v, In (k, v) (queryParams filters) <->
        exists f, filters = Some f
          /\ ((k = "search" /\ search f = Some v /\ v <> "")
              \/ (k = "category" /\ filterCategory f = Some v /\ v <> "")
              \/ (k = "status" /\ filterStatus f = Some v /\ v <> "")
              \/ (k = "page"
                  /\ exists n, page f = Some (Int n) /\ n <> 0%Z /\ v = number_to_string n)
              \/ (k = "page_size"
                  /\ exists n, pageSize f = Some (Int n) /\ n <> 0%Z
                               /\ v = number_to_string n)))
  /\ map fst (queryParams filters) = filter (serializes filters) wireNames
  /\ NoDup (map fst (queryParams filters))
  /\ (queryParams filters = [] -> assetsUrl filters = BASE_PATH)
  /\ (queryParams filters <> [] ->
      assetsUrl filters = BASE_PATH ++ "?" ++ Str.URLSearchParams_toString (queryParams filters)).
Proof.
  split; [reflexivity |].
  split; [| split; [| split; [| split]]].
  - intros k v. unfold queryParams.
    rewrite !In_appendNumber, !In_appendText. simpl.
    destruct filters as [f |].
    + split.
      * intros H. exists f. split; [reflexivity |]. tauto.
      * intros [f' [Hf H]]. injection Hf as <-. tauto.
    + split.
      * intros [[[[[[] | (_ & H & _)] | (_ & H & _)] | (_ & H & _)]
                  | (_ & n & H & _)] | (_ & n & H & _)]; discriminate.
      * intros [f [Hf _]]. discriminate.
  - unfold serializes, queryParams, appendText, appendNumber.
    destruct filters as [[[s |] [c |] [st |] [[p |] |] [[ps |] |]] |]; simpl;
      repeat match goal with
             | |- context [String.eqb ?a ""] => destruct (String.eqb a "")
             | |- context [Z.eqb ?a 0] => destruct (Z.eqb a 0)
             end; reflexivity.
  - unfold queryParams, appendText, appendNumber.
    destruct filters as [[[s |] [c |] [st |] [[p |] |] [[ps |] |]] |]; simpl;
      repeat match goal with
             | |- context [String.eqb ?a ""] => destruct (String.eqb a "")
             | |- context [Z.eqb ?a 0] => destruct (Z.eqb a 0)
             end; simpl;
      repeat (constructor; [simpl; intuition discriminate |]); constructor.
  - intros Hnil. unfold assetsUrl. rewrite Hnil. reflexivity.
  - intros Hne. unfold assetsUrl.
    destruct (String.eqb_spec (Str.URLSearchParams_toString (queryParams filters)) "")
      as [Heq | _]; [| reflexivity].
    apply URLSearchParams_toString_empty in Heq. contradiction.
Qed.

Lemma getAssets_query_witness :
  map fst (queryParams (Some laptopSearch)) = ["search"; "category"; "page"; "page_size"]
  /\ assetsUrl (Some laptopSearch)
     = "/api/assets?search=mac+book&category=Electronics&page=1&page_size=20".
Proof.
  destruct (getAssets_query (Some laptopSearch)) as (_ & _ & Horder & _ & _ & Hurl).
  split.
  - rewrite Horder. reflexivity.
  - rewrite Hurl; [reflexivity | discriminate].
Defined.

(** C8 (as stated) fails: a field that is present is not always
    serialized.  With [{page: 0, pageSize: 20}] the page is present, and the
    query holds the page size alone. *)
Lemma getAssets_page_zero_counterexample :
  page pageZero = Some (Int 0)
  /\ queryParams (Some pageZero) = [("page_size", "20")]
  /\ requestOf (getAssets (Some pageZero)) = Some (GET "/api/assets?page_size=20").
Proof. repeat split. Qed.

(** A page that is NaN is left out like a page that is 0. *)
Example getAssets_page_NaN :
  requestOf (getAssets (Some pageNaN)) = Some (GET "/api/assets?page_size=20").
Proof. reflexivity. Qed.

(** The filters of the usage guide: text is form-encoded, the empty status
    is left out. *)
Example getAssets_laptopSearch :
  requestOf (getAssets (Some laptopSearch)) =
    Some (GET "/api/assets?search=mac+book&category=Electronics&page=1&page_size=20").
Proof. reflexivity. Qed.

Example getAssets_without_filters :
  requestOf (getAssets None) = Some (GET "/api/assets").
Proof. reflexivity. Qed.

End Query.

(** ** The data hooks *)

Section DataHooks.

Import Hooks AssetApi.

Lemma mapMsg_defined (l : list value) :
  Forall (fun d => nullish d = false) l ->
  mapMsg l = Normal (map (fun d => prop d "msg") l).
Proof.
  induction 1 as [| d rest Hd _ IH]; simpl.
  - reflexivity.
  - rewrite (get_defined _ _ Hd), IH. reflexivity.
Qed.

(** One invocation of a fetching callback whose service call is a single
    awaited request. *)
Lemma invoke_fetching (transport : request -> http_result)
    (op : prog apiE (settled value)) (req : request)
    (k : http_result -> settled value) (fallback : string) (s : HookState) :
  op = Vis (Call req) (fun r => Ret (k r)) ->
  invoke transport (fetching op fallback) s =
  match outcome transport op with
  | Fulfilled d =>
      (Fulfilled VUndefined,
       {| cells := {| data := d; loading := false; error := None |};
          steps := [Loading true; Error None; Request req; Data d; Loading false] |})
  | Rejected (ThrownApiException ex) =>
      (Fulfilled VUndefined,
       {| cells := {| data := data s; loading := false; error := Some (ex_message ex) |};
          steps := [Loading true; Error None; Request req;
                    Error (Some (ex_message ex)); Loading false] |})
  | Rejected (ThrownValue _) =>
      (Fulfilled VUndefined,
       {| cells := {| data := data s; loading := false; error := Some fallback |};
          steps := [Loading true; Error None; Request req;
                    Error (Some fallback); Loading false] |})
  end.
Proof.
  intros ->. unfold invoke, fetching, outcome. cbn -[Http.api].
  destruct (k (Http.api transport req)) as [d | [ex | v]]; reflexivity.
Qed.

Lemma invoke_mutating (transport : request -> http_result)
    (op : prog apiE (settled value)) (req : request)
    (k : http_result -> settled value) (fallback : string) (s : HookState) :
  op = Vis (Call req) (fun r => Ret (k r)) ->
  invoke transport (mutating op fallback) s =
  match outcome transport op with
  | Fulfilled d =>
      (Fulfilled d,
       {| cells := {| data := data s; loading := false; error := None |};
          steps := [Loading true; Error None; Request req; Loading false] |})
  | Rejected (ThrownApiException ex) =>
      match mutationErrorText ex with
      | Normal text =>
          (Fulfilled VNull,
           {| cells := {| data := data s; loading := false; error := Some text |};
              steps := [Loading true; Error None; Request req;
                        Error (Some text); Loading false] |})
      | Throw t =>
          (Rejected (ThrownValue t),
           {| cells := {| data := data s; loading := false; error := None |};
              steps := [Loading true; Error None; Request req; Loading false] |})
      end
  | Rejected (ThrownValue _) =>
      (Fulfilled VNull,
       {| cells := {| data := data s; loading := false; error := Some fallback |};
          steps := [Loading true; Error None; Request req;
                    Error (Some fallback); Loading false] |})
  end.
Proof.
  intros ->. unfold invoke, mutating, outcome. cbn -[Http.api mutationErrorText].
  destruct (k (Http.api transport req)) as [d | [ex | v]]; try reflexivity.
  destruct (mutationErrorText ex); reflexivity.
Qed.

Lemma invoke_deleteAsset (transport : request -> http_result) (id : Z) (s : HookState) :
  invoke transport (Hooks.deleteAsset id) s =
  match outcome transport (AssetApi.deleteAsset id) with
  | Fulfilled _ =>
      (Fulfilled (VBool true),
       {| cells := {| data := data s; loading := false; error := None |};
          steps := [Loading true; Error None;
                    Request (DELETE (BASE_PATH ++ "/" ++ number_to_string id));
                    Loading false] |})
  | Rejected (ThrownApiException ex) =>
      (Fulfilled (VBool false),
       {| cells := {| data := data s; loading := false; error := Some (ex_message ex) |};
          steps := [Loading true; Error None;
                    Request (DELETE (BASE_PATH ++ "/" ++ number_to_string id));
                    Error (Some (ex_message ex)); Loading false] |})
  | Rejected (ThrownValue _) =>
      (Fulfilled (VBool false),
       {| cells := {| data := data s; loading := false;
                      error := Some "Failed to delete asset" |};
          steps := [Loading true; Error None;
                    Request (DELETE (BASE_PATH ++ "/" ++ number_to_string id));
                    Error (Some "Failed to delete asset"); Loading false] |})
  end.
Proof.
  unfold invoke, Hooks.deleteAsset, Hooks.deleteAssetWith, outcome, AssetApi.deleteAsset.
  cbn -[Http.api BASE_PATH number_to_string String.append].
  destruct (Http.api transport _) as [response | err]; [reflexivity |].
  destruct (rethrow err) as [d | [ex | v]]; reflexivity.
Qed.

Lemma mutationErrorText_spec (ex : ApiException) :
  ((forall l, ex_details ex <> VArr l) -> mutationErrorText ex = Normal (ex_message ex))
  /\ (forall l, ex_details ex = VArr l -> Forall (fun d => nullish d = false) l ->
      mutationErrorText ex =
        Normal (ex_message ex ++ ": " ++ join ", " (map (fun d => prop d "msg") l))).
Proof.
  unfold mutationErrorText. split.
  - intros Hnot. destruct (ex_details ex); try reflexivity. now destruct (Hnot elems).
  - intros l -> Hall. now rewrite (mapMsg_defined l Hall).
Qed.

(** An awaited service call, whatever it is: the requests it dispatches
    are observed in order, and the awaiting code goes on with what the call
    settles with. *)
Lemma run_await {R S : Type} (transport : request -> http_result)
    (op : prog apiE R) (k : R -> prog hookE S) :
  forall w : world,
    run (handle transport) (pbind (await op) k) w =
    run (handle transport) (k (outcome transport op))
        {| cells := cells w;
           steps := (steps w ++ map Request (dispatched transport op))%list |}.
Proof.
  induction op as [r | X e k' IH]; intros w.
  - destruct w as [c st]. simpl. now rewrite app_nil_r.
  - destruct e as [req]. cbn [await pbind run handle]. rewrite IH.
    cbn [cells steps dispatched map].
    change (outcome transport (Vis (Call req) k'))
      with (outcome transport (k' (Http.api transport req))).
    rewrite <- app_assoc. reflexivity.
Qed.

Lemma invoke_fetching_any (transport : request -> http_result)
    (op : prog apiE (settled value)) (fallback : string) (s : HookState) :
  invoke transport (fetching op fallback) s =
  match outcome transport op with
  | Fulfilled d =>
      (Fulfilled VUndefined,
       {| cells := {| data := d; loading := false; error := None |};
          steps := (Loading true :: Error None :: map Request (dispatched transport op)
                    ++ [Data d; Loading false])%list |})
  | Rejected (ThrownApiException ex) =>
      (Fulfilled VUndefined,
       {| cells := {| data := data s; loading := false; error := Some (ex_message ex) |};
          steps := (Loading true :: Error None :: map Request (dispatched transport op)
                    ++ [Error (Some (ex_message ex)); Loading false])%list |})
  | Rejected (ThrownValue _) =>
      (Fulfilled VUndefined,
       {| cells := {| data := data s; loading := false; error := Some fallback |};
          steps := (Loading true :: Error None :: map Request (dispatched transport op)
                    ++ [Error (Some fallback); Loading false])%list |})
  end.
Proof.
  unfold invoke, fetching. cbn [pbind trigger run handle cells steps app].
  rewrite run_await.
  destruct (outcome transport op) as [d | [ex | v]]; cbn; rewrite <- ?app_assoc; reflexivity.
Qed.

Lemma invoke_mutating_any (transport : request -> http_result)
    (op : prog apiE (settled value)) (fallback : string) (s : HookState) :
  invoke transport (mutating op fallback) s =
  match outcome transport op with
  | Fulfilled d =>
      (Fulfilled d,
       {| cells := {| data := data s; loading := false; error := None |};
          steps := (Loading true :: Error None :: map Request (dispatched transport op)
                    ++ [Loading false])%list |})
  | Rejected (ThrownApiException ex) =>
      match mutationErrorText ex with
      | Normal text =>
          (Fulfilled VNull,
           {| cells := {| data := data s; loading := false; error := Some text |};
              steps := (Loading true :: Error None :: map Request (dispatched transport op)
                        ++ [Error (Some text); Loading false])%list |})
      | Throw t =>
          (Rejected (ThrownValue t),
           {| cells := {| data := data s; loading := false; error := None |};
              steps := (Loading true :: Error None :: map Request (dispatched transport op)
                        ++ [Loading false])%list |})
      end
  | Rejected (ThrownValue _) =>
      (Fulfilled VNull,
       {| cells := {| data := data s; loading := false; error := Some fallback |};
          steps := (Loading true :: Error None :: map Request (dispatched transport op)
                    ++ [Error (Some fallback); Loading false])%list |})
  end.
Proof.
  unfold invoke, mutating. cbn [pbind trigger run handle cells steps app].
  rewrite run_await.
  destruct (outcome transport op) as [d | [ex | v]];
    [| destruct (mutationErrorText ex) |]; cbn; rewrite <- ?app_assoc; reflexivity.
Qed.

Lemma invoke_deleting_any (transport : request -> http_result)
    (op : prog apiE (settled value)) (s : HookState) :
  invoke transport (deleteAssetWith op) s =
  match outcome transport op with
  | Fulfilled _ =>
      (Fulfilled (VBool true),
       {| cells := {| data := data s; loading := false; error := None |};
          steps := (Loading true :: Error None :: map Request (dispatched transport op)
                    ++ [Loading false])%list |})
  | Rejected (ThrownApiException ex) =>
      (Fulfilled (VBool false),
       {| cells := {| data := data s; loading := false; error := Some (ex_message ex) |};
          steps := (Loading true :: Error None :: map Request (dispatched transport op)
                    ++ [Error (Some (ex_message ex)); Loading false])%list |})
  | Rejected (ThrownValue _) =>
      (Fulfilled (VBool false),
       {| cells := {| data := data s; loading := false;
                      error := Some "Failed to delete asset" |};
          steps := (Loading true :: Error None :: map Request (dispatched transport op)
                    ++ [Error (Some "Failed to delete asset"); Loading false])%list |})
  end.
Proof.
  unfold invoke, deleteAssetWith. cbn [pbind trigger run handle cells steps app].
  rewrite run_await.
  destruct (outcome transport op) as [d | [ex | v]]; cbn; rewrite <- ?app_assoc; reflexivity.
Qed.

(** C1 (as amended). For each of the seven data hooks, whatever the service
    call it awaits does, and from any cells: the callback sets loading to
    true and the error to null, in that order, before any request of the call
    is dispatched, and ends with loading false.  On success the error stays
    null; the fetching hooks (list, get-one, categories, statuses) store the
    result as their data, the mutation hooks (create, update, delete), which
    have no data cell, return it (delete returns true).  On failure the data is
    left as it was; the error is the message of the ApiException -- followed,
    in the create and update hooks, by ": " and the [msg] of each detail
    joined by ", " when the details are an array of objects -- or the
    fallback text of the hook when the failure is not an ApiException.  The
    hooks of the source await the operations of AssetApi, each of which
    dispatches one request. *)
Theorem hook_invocation (h : hook) (service : prog apiE (settled value))
    (transport : request -> http_result) (s : HookState) :
  callback h = callbackWith h (perform (serviceOf h))
  /\ (exists req, requestOf (perform (serviceOf h)) = Some req
                  /\ dispatched transport (perform (serviceOf h)) = [req])
  /\ exists rest,
       steps (snd (invoke transport (callbackWith h service) s))
         = (Loading true :: Error None :: map Request (dispatched transport service)
            ++ rest)%list
       /\ loading (cells (snd (invoke transport (callbackWith h service) s))) = false
       /\ match outcome transport service with
          | Fulfilled result =>
              error (cells (snd (invoke transport (callbackWith h service) s))) = None
              /\ data (cells (snd (invoke transport (callbackWith h service) s)))
                   = (if hasData h then result else data s)
              /\ rest = ((if hasData h then [Data result] else []) ++ [Loading false])%list
              /\ fst (invoke transport (callbackWith h service) s)
                   = Fulfilled (returnedOnSuccess h result)
          | Rejected (ThrownApiException ex) =>
              data (cells (snd (invoke transport (callbackWith h service) s))) = data s
              /\ (joinsDetails h = false ->
                  error (cells (snd (invoke transport (callbackWith h service) s)))
                    = Some (ex_message ex))
              /\ (joinsDetails h = true -> (forall l, ex_details ex <> VArr l) ->
                  error (cells (snd (invoke transport (callbackWith h service) s)))
                    = Some (ex_message ex))
              /\ (joinsDetails h = true ->
                  forall l, ex_details ex = VArr l ->
                            Forall (fun d => nullish d = false) l ->
                  error (cells (snd (invoke transport (callbackWith h service) s)))
                    = Some (ex_message ex ++ ": "
                            ++ join ", " (map (fun d => prop d "msg") l)))
          | Rejected (ThrownValue _) =>
              data (cells (snd (invoke transport (callbackWith h service) s))) = data s
              /\ error (cells (snd (invoke transport (callbackWith h service) s)))
                   = Some (fallbackOf h)
              /\ rest = [Error (Some (fallbackOf h)); Loading false]
          end.
Proof.
  split; [destruct h; reflexivity |].
  split; [destruct h; eexists; split; reflexivity |].
  destruct h as [filters | id | asset | id asset | id | |];
    simpl callbackWith;
    unfold fetchAssetsWith, fetchAssetWith, fetchCategoriesWith, fetchStatusesWith,
      createAssetWith, updateAssetWith;
    rewrite ?invoke_fetching_any, ?invoke_mutating_any, ?invoke_deleting_any;
    destruct (outcome transport service) as [d | [ex | v]];
    try (destruct (mutationErrorText_spec ex) as [Hplain Hjoined];
         destruct (mutationErrorText ex) as [text | t]);
    eexists; (split; [reflexivity |]); simpl;
    repeat split; intros; try reflexivity; try discriminate;
    try match goal with
        | Hnot : forall l, _ <> VArr l |- _ =>
            specialize (Hplain Hnot); first [discriminate Hplain | injection Hplain as ->]
        | Hd : ex_details _ = VArr ?l, Hall : Forall _ ?l |- _ =>
            specialize (Hjoined l Hd Hall);
            first [discriminate Hjoined | injection Hjoined as ->]
        end;
    try reflexivity.
Qed.

Lemma hook_invocation_witness :
  steps (snd (invoke (failingWith networkError)
                (callbackWith UseCategories (rejectingWith (VStr "offline"))) staleState))
    = [Loading true; Error None; Error (Some "Failed to fetch categories"); Loading false]
  /\ error (cells (snd (invoke (failingWith networkError)
                          (callbackWith UseCategories (rejectingWith (VStr "offline")))
                          staleState)))
     = Some "Failed to fetch categories"
  /\ data (cells (snd (invoke (failingWith networkError)
                         (callbackWith UseCategories (rejectingWith (VStr "offline")))
                         staleState)))
     = VArr [VStr "Electronics"].
Proof.
  destruct (hook_invocation UseCategories (rejectingWith (VStr "offline"))
              (failingWith networkError) staleState)
    as (_ & _ & rest & Hsteps & _ & Hdata & Herror & Hrest).
  split; [| split].
  - rewrite Hsteps, Hrest. reflexivity.
  - exact Herror.
  - exact Hdata.
Defined.

(** C1 (as stated) fails in the create hook: when the request fails with a
    422 whose envelope lists details, the error shown is the message of the
    ApiException extended with the details, not that message. *)
Lemma createAsset_error_text_counterexample :
  exists ex,
    outcome (failingWith validation422) (perform (CreateAsset laptop))
      = Rejected (ThrownApiException ex)
    /\ ex_message ex = "Validation failed"
    /\ error (cells (snd (invoke (failingWith validation422)
                                 (callback (UseCreateAsset laptop)) staleState)))
         = Some "Validation failed: name too long, price too high".
Proof.
  eexists. split; [reflexivity |]. split; reflexivity.
Qed.

(** A failed fetch keeps the stale data and shows the message of the
    ApiException. *)
Example fetchCategories_network_error :
  invoke (failingWith networkError) fetchCategories staleState =
    (Fulfilled VUndefined,
     {| cells := {| data := VArr [VStr "Electronics"];
                    loading := false;
                    error := Some "Network error - unable to reach server" |};
        steps := [Loading true; Error None; Request (GET "/api/assets/categories");
                  Error (Some "Network error - unable to reach server"); Loading false] |}).
Proof. reflexivity. Qed.

(** A successful create stores nothing: it returns the created asset. *)
Example createAsset_success :
  invoke (fun _ => Resolved (VObj PlainObject [("data", VObj PlainObject [("id", VNum 7)])]))
         (Hooks.createAsset laptop) staleState =
    (Fulfilled (VObj PlainObject [("id", VNum 7)]),
     {| cells := {| data := VArr [VStr "Electronics"]; loading := false; error := None |};
        steps := [Loading true; Error None; Request (POST "/api/assets" laptop);
                  Loading false] |}).
Proof. reflexivity. Qed.

End DataHooks.

(** ** Further properties of the resource API *)

Section ResourceApiMore.

Import AssetApi AssetApiDerived.

Lemma api_failure_is_object (transport : request -> http_result) (req : request)
    (error : value) :
  Http.api transport req = Failed error -> nullish error = false.
Proof.
  unfold Http.api. destruct (transport req) as [response | e]; [discriminate |].
  intros H. injection H as <-.
  unfold api_onRejected, get. destruct (nullish e) eqn:Hn; [reflexivity |].
  destruct (truthy (prop e "response")); [exact Hn |].
  destruct (truthy (prop e "request")); exact Hn.
Qed.

Lemma rethrow_object {A} (error : value) :
  nullish error = false ->
  exists ex, @rethrow A error = Rejected (ThrownApiException ex).
Proof.
  intros Hnn. unfold rethrow. rewrite (handleApiError_unfold error Hnn).
  eexists. reflexivity.
Qed.

Lemma returnData_settles (transport : request -> http_result) (req : request) :
  (exists data, returnData (Http.api transport req) = Fulfilled data)
  \/ (exists ex, returnData (Http.api transport req) = Rejected (ThrownApiException ex)).
Proof.
  unfold returnData.
  destruct (Http.api transport req) as [response | error] eqn:Hapi.
  - unfold get. destruct (nullish response).
    + right. apply rethrow_object. reflexivity.
    + left. eexists. reflexivity.
  - right. apply rethrow_object. exact (api_failure_is_object _ _ _ Hapi).
Qed.

(** What every operation settles with, by the request it dispatches. *)
Lemma perform_settles (op : operation) (transport : request -> http_result) :
  (exists data, outcome transport (perform op) = Fulfilled data)
  \/ (exists ex, outcome transport (perform op) = Rejected (ThrownApiException ex)).
Proof.
  destruct op; unfold outcome; cbn -[Http.api returnData];
    try apply returnData_settles.
  destruct (Http.api transport _) as [response | error] eqn:Hapi.
  - left. eexists. reflexivity.
  - right. apply rethrow_object. exact (api_failure_is_object _ _ _ Hapi).
Qed.

(** X1. Whatever the transport does -- a response, a response that is not
    an object, a failure, even a failure whose value is [null] or
    [undefined] -- each of the seven operations either fulfils or rejects
    with an ApiException: the interceptor of [api] turns a [null] failure
    into a TypeError, and handleApiError classifies that as a REQUEST_ERROR
    with status 0. *)
Theorem operations_settle_typed (op : operation) (transport : request -> http_result) :
  ((exists data, outcome transport (perform op) = Fulfilled data)
   \/ (exists ex, outcome transport (perform op) = Rejected (ThrownApiException ex)))
  /\ (forall req error,
        requestOf (perform op) = Some req -> transport req = Failed error ->
        nullish error = true ->
        exists ex, outcome transport (perform op) = Rejected (ThrownApiException ex)
          /\ ex_status ex = VNum 0 /\ ex_code ex = VStr "REQUEST_ERROR").
Proof.
  split; [apply perform_settles |].
  intros req error Hreq Hfail Hnull.
  assert (Hapi : Http.api transport req =
                 Failed (TypeError "Cannot read properties of null or undefined")).
  { unfold Http.api, api_onRejected, get. rewrite Hfail, Hnull. reflexivity. }
  rewrite (perform_failed op transport req _ Hreq Hapi).
  eexists. split; [reflexivity |]. now split.
Qed.

Lemma operations_settle_typed_witness :
  exists ex,
    outcome (failingWith VNull) (perform (DeleteAsset 7)) = Rejected (ThrownApiException ex)
    /\ ex_status ex = VNum 0 /\ ex_code ex = VStr "REQUEST_ERROR".
Proof.
  apply (proj2 (operations_settle_typed (DeleteAsset 7) (failingWith VNull))
           (DELETE "/api/assets/7") VNull); reflexivity.
Defined.





End ResourceApiMore.

(** ** Further properties of the list query *)

Section QueryMore.

Import AssetApi AssetApiDerived.

(** Membership in the query, field by field (for present filters). *)
Lemma In_queryParams (f : AssetFilters) (k v : string) :
  In (k, v) (queryParams (Some f)) <->
  (k = "search" /\ search f = Some v /\ v <> "")
  \/ (k = "category" /\ filterCategory f = Some v /\ v <> "")
  \/ (k = "status" /\ filterStatus f = Some v /\ v <> "")
  \/ (k = "page" /\ exists n, page f = Some (Int n) /\ n <> 0%Z /\ v = number_to_string n)
  \/ (k = "page_size"
      /\ exists n, pageSize f = Some (Int n) /\ n <> 0%Z /\ v = number_to_string n).
Proof.
  unfold queryParams. rewrite !In_appendNumber, !In_appendText. simpl. tauto.
Qed.

Lemma In_queryParams_none (k v : string) : ~ In (k, v) (queryParams None).
Proof. simpl. tauto. Qed.

Lemma In_queryParams_spread (filters : option AssetFilters) (k v : string) :
  In (k, v) (queryParams filters) <-> In (k, v) (queryParams (Some (spread filters))).
Proof.
  destruct filters as [f |]; [reflexivity |].
  rewrite In_queryParams. simpl.
  split; [tauto |].
  intros [(_ & H & _) | [(_ & H & _) | [(_ & H & _) | [(_ & n & H & _) | (_ & n & H & _)]]]];
    discriminate.
Qed.

(** X3. searchAssets, getAssetsByCategory and getAssetsByStatus each
    dispatch the listing request of getAssets in which the one parameter they
    are named after is replaced by their argument, whatever the filters held
    for it, and every other parameter is as getAssets would send it for the
    filters.  When the argument is the empty text the parameter is not sent
    at all: a search for "" is a plain listing. *)
Theorem derived_listings_query (text : string) (filters : option AssetFilters) (k v : string) :
  (requestOf (searchAssets text filters)
     = Some (GET (assetsUrl (Some (withSearch text filters))))
   /\ (In (k, v) (queryParams (Some (withSearch text filters))) <->
       (k = "search" /\ v = text /\ text <> "")
       \/ (k <> "search" /\ In (k, v) (queryParams filters))))
  /\ (requestOf (getAssetsByCategory text filters)
       = Some (GET (assetsUrl (Some (withCategory text filters))))
      /\ (In (k, v) (queryParams (Some (withCategory text filters))) <->
          (k = "category" /\ v = text /\ text <> "")
          \/ (k <> "category" /\ In (k, v) (queryParams filters))))
  /\ (requestOf (getAssetsByStatus text filters)
       = Some (GET (assetsUrl (Some (withStatus text filters))))
      /\ (In (k, v) (queryParams (Some (withStatus text filters))) <->
          (k = "status" /\ v = text /\ text <> "")
          \/ (k <> "status" /\ In (k, v) (queryParams filters)))).
Proof.
  repeat split; try reflexivity;
    rewrite ?(In_queryParams_spread filters), !In_queryParams; simpl;
    intros H;
    repeat match goal with
           | H : _ \/ _ |- _ => destruct H
           | H : _ /\ _ |- _ => destruct H
           | H : exists _, _ |- _ => destruct H
           | H : Some _ = Some _ |- _ => injection H as H
           end; subst;
    try congruence;
    first
      [ left; repeat split; congruence
      | right; split; [discriminate |]; eauto 10
      | eauto 10
      | right; right; eauto 10 ].
Qed.

Lemma allBytes_app (p : ascii -> bool) (a b : string) :
  allBytes p (a ++ b) = allBytes p a && allBytes p b.
Proof.
  induction a as [| c a IH]; simpl; [reflexivity |].
  now rewrite IH, andb_assoc.
Qed.

Lemma occurrences_app (c : ascii) (a b : string) :
  occurrences c (a ++ b) = (occurrences c a + occurrences c b)%nat.
Proof.
  induction a as [| c' a IH]; simpl; [reflexivity |].
  rewrite IH. lia.
Qed.

Lemma urlencodeByte_safe (c : ascii) : allBytes formSafe (Str.urlencodeByte c) = true.
Proof.
  destruct c as [[|] [|] [|] [|] [|] [|] [|] [|]]; vm_compute; reflexivity.
Qed.

Lemma urlencode_safe (s : string) : allBytes formSafe (Str.urlencode s) = true.
Proof.
  induction s as [| c s IH]; simpl; [reflexivity |].
  now rewrite allBytes_app, urlencodeByte_safe, IH.
Qed.

Lemma safe_occurrences (c : ascii) (s : string) :
  formSafe c = false -> allBytes formSafe s = true -> occurrences c s = 0%nat.
Proof.
  intros Hc. induction s as [| c' s IH]; simpl; [reflexivity |].
  intros H. apply andb_true_iff in H. destruct H as [Hc' Hs].
  destruct (Ascii.eqb_spec c c') as [-> | _]; [congruence |].
  now rewrite IH.
Qed.

(** X4. The text of the filters cannot break out of its parameter.  A
    form-encoded name or value consists of letters, digits and [*-._+%]
    only, so it holds no [&], [=], [?] or [#]; and the query string of
    [n >= 1] parameters therefore has exactly [n] equals signs and [n - 1]
    ampersands, whatever the filter text is. *)
Theorem query_string_separators (params : list (string * string)) (s : string) :
  allBytes formSafe (Str.urlencode s) = true
  /\ occurrences "=" (Str.URLSearchParams_toString params) = length params
  /\ occurrences "&" (Str.URLSearchParams_toString params) = Nat.pred (length params)
  /\ occurrences "?" (Str.URLSearchParams_toString params) = 0%nat
  /\ occurrences "#" (Str.URLSearchParams_toString params) = 0%nat.
Proof.
  split; [apply urlencode_safe |].
  assert (Hzero : forall c t, formSafe c = false -> occurrences c (Str.urlencode t) = 0%nat).
  { intros c t Hc. apply safe_occurrences; [exact Hc | apply urlencode_safe]. }
  induction params as [| [k v] rest IH]; [now repeat split |].
  destruct IH as (Heq & Hamp & Hq & Hh).
  cbn [Str.URLSearchParams_toString length Nat.pred].
  rewrite !occurrences_app, !Hzero by reflexivity.
  destruct rest as [| p rest'].
  - now repeat split.
  - rewrite !occurrences_app, Heq, Hamp, Hq, Hh.
    cbn [length Nat.pred]. simpl occurrences. repeat split; lia.
Qed.

Lemma number_to_string_injective (a b : Z) :
  number_to_string a = number_to_string b -> a = b.
Proof.
  unfold number_to_string. intros H.
  assert (Hparse : forall z, NilZero.int_of_string (NilZero.string_of_int (Z.to_int z))
                             = Some (Z.to_int z)).
  { intros z. apply NilZero.isi; destruct z as [| p | p]; simpl; try discriminate;
      intros Heq; injection Heq as Heq;
      exact (DecimalPos.Unsigned.to_uint_nonnil p Heq). }
  pose proof (Hparse a) as Ha. rewrite H, Hparse in Ha. injection Ha as Ha.
  rewrite <- (DecimalZ.of_to a), <- (DecimalZ.of_to b). now rewrite Ha.
Qed.

(** X5. Distinct assets are addressed by distinct requests: getAsset,
    updateAsset and deleteAsset put the decimal digits of the identifier
    after the base path, and two identifiers with the same digits are the
    same. *)
Theorem asset_requests_injective (a b : Z) (asset : AssetRequest) :
  (requestOf (getAsset a) = requestOf (getAsset b) -> a = b)
  /\ (requestOf (updateAsset a asset) = requestOf (updateAsset b asset) -> a = b)
  /\ (requestOf (deleteAsset a) = requestOf (deleteAsset b) -> a = b).
Proof.
  repeat split; intros H; simpl in H; injection H as H;
    apply number_to_string_injective;
    repeat match type of H with
           | String ?c _ = String ?c _ => injection H as H
           end; exact H.
Qed.

Lemma asset_requests_injective_witness : (7 = 7)%Z.
Proof.
  apply (proj1 (asset_requests_injective 7 7 laptop)). reflexivity.
Defined.

End QueryMore.

(** ** Further properties of the data hooks *)

Section DataHooksMore.

Import Hooks AssetApi.

(** The cells and the result of one invocation, hook by hook, from what the
    service call settles with. *)
Lemma invoke_callback (h : hook) (transport : request -> http_result) (s : HookState) :
  exists req,
    invoke transport (callback h) s =
    match outcome transport (perform (serviceOf h)) with
    | Fulfilled result =>
        (Fulfilled (returnedOnSuccess h result),
         {| cells := {| data := if hasData h then result else data s;
                        loading := false; error := None |};
            steps := ([Loading true; Error None; Request req]
                      ++ (if hasData h then [Data result] else [])
                      ++ [Loading false])%list |})
    | Rejected (ThrownApiException ex) =>
        match (if joinsDetails h then mutationErrorText ex else Normal (ex_message ex)) with
        | Normal text =>
            (Fulfilled (match h with
                        | UseCreateAsset _ | UseUpdateAsset _ _ => VNull
                        | UseDeleteAsset _ => VBool false
                        | _ => VUndefined
                        end),
             {| cells := {| data := data s; loading := false; error := Some text |};
                steps := [Loading true; Error None; Request req;
                          Error (Some text); Loading false] |})
        | Throw t =>
            (Rejected (ThrownValue t),
             {| cells := {| data := data s; loading := false; error := None |};
                steps := [Loading true; Error None; Request req; Loading false] |})
        end
    | Rejected (ThrownValue _) =>
        (Fulfilled (match h with
                    | UseCreateAsset _ | UseUpdateAsset _ _ => VNull
                    | UseDeleteAsset _ => VBool false
                    | _ => VUndefined
                    end),
         {| cells := {| data := data s; loading := false; error := Some (fallbackOf h) |};
            steps := [Loading true; Error None; Request req;
                      Error (Some (fallbackOf h)); Loading false] |})
    end.
Proof.
  destruct h as [filters | id | asset | id asset | id | |];
    simpl callback; simpl serviceOf; simpl perform;
    unfold fetchAssets, fetchAsset, fetchCategories, fetchStatuses,
      Hooks.createAsset, Hooks.updateAsset,
      fetchAssetsWith, fetchAssetWith, fetchCategoriesWith, fetchStatusesWith,
      createAssetWith, updateAssetWith;
    match goal with
    | |- context [invoke ?t (fetching ?op ?fb) ?s0] =>
        pose proof (invoke_fetching t op _ returnData fb s0 eq_refl) as Hinv
    | |- context [invoke ?t (mutating ?op ?fb) ?s0] =>
        pose proof (invoke_mutating t op _ returnData fb s0 eq_refl) as Hinv
    | |- context [invoke ?t (Hooks.deleteAsset ?i) ?s0] =>
        pose proof (invoke_deleteAsset t i s0) as Hinv
    end;
    eexists; rewrite Hinv;
    match goal with
    | |- context [outcome ?t ?op] => destruct (outcome t op) as [d | [ex | v]]
    end; simpl; try reflexivity;
    destruct (mutationErrorText ex); reflexivity.
Qed.

(** X6. The callbacks of the fetching hooks and of the delete hook never
    reject.  After an invocation their error is null exactly when the service
    call succeeded, and otherwise it is the message of the ApiException the
    call rejected with: these hooks never get to show their fallback text.
    The delete callback resolves to [true] exactly when the call succeeded. *)
Theorem hooks_never_reject (h : hook) (transport : request -> http_result) (s : HookState) :
  joinsDetails h = false ->
  (exists v, fst (invoke transport (callback h) s) = Fulfilled v)
  /\ (error (cells (snd (invoke transport (callback h) s))) = None <->
      exists result, outcome transport (perform (serviceOf h)) = Fulfilled result)
  /\ (error (cells (snd (invoke transport (callback h) s))) = None
      \/ exists ex, outcome transport (perform (serviceOf h)) = Rejected (ThrownApiException ex)
           /\ error (cells (snd (invoke transport (callback h) s))) = Some (ex_message ex))
  /\ (forall id, h = UseDeleteAsset id ->
      (fst (invoke transport (callback h) s) = Fulfilled (VBool true) <->
       exists result, outcome transport (perform (serviceOf h)) = Fulfilled result)
      /\ (fst (invoke transport (callback h) s) = Fulfilled (VBool true)
          \/ fst (invoke transport (callback h) s) = Fulfilled (VBool false))).
Proof.
  intros Hplain.
  destruct (invoke_callback h transport s) as [req Hinv]. rewrite Hinv. clear Hinv.
  destruct (perform_settles (serviceOf h) transport) as [[result Hout] | [ex Hout]];
    rewrite Hout, ?Hplain; simpl.
  - split; [eexists; reflexivity |].
    split; [split; [eauto | reflexivity] |].
    split; [now left |].
    intros id ->. simpl. split; [split; [eauto | reflexivity] | now left].
  - split; [eexists; reflexivity |].
    split; [split; [discriminate | intros [r Hr]; discriminate] |].
    split; [right; eauto |].
    intros id ->. simpl.
    split; [split; [discriminate | intros [r Hr]; discriminate] | now right].
Qed.

Lemma hooks_never_reject_witness :
  exists v, fst (invoke (failingWith VNull) (callback (UseDeleteAsset 7)) staleState)
            = Fulfilled v.
Proof.
  apply (proj1 (hooks_never_reject (UseDeleteAsset 7) (failingWith VNull) staleState eq_refl)).
Defined.

Lemma mapMsg_throws (l : list value) :
  existsb nullish l = true -> exists t, mapMsg l = Throw t.
Proof.
  induction l as [| d rest IH]; simpl; [discriminate |].
  unfold get. destruct (nullish d); simpl.
  - intros _. eexists. reflexivity.
  - intros H. destruct (IH H) as [t Ht]. rewrite Ht. eexists. reflexivity.
Qed.

Lemma mapMsg_returns (l : list value) :
  existsb nullish l = false -> mapMsg l = Normal (map (fun d => prop d "msg") l).
Proof.
  intros H. apply mapMsg_defined. apply Forall_forall. intros d Hin.
  destruct (nullish d) eqn:Hd; [| reflexivity].
  assert (existsb nullish l = true) by (apply existsb_exists; eauto). congruence.
Qed.

(** X7. The callbacks of the create and update hooks resolve to the
    result of a successful call and to [null] after a failed one, with one
    exception: when the ApiException carries an array of details that holds a
    [null] or [undefined], reading its [msg] throws inside the catch block,
    and the callback rejects, leaving the error null and loading false. *)
Theorem mutation_callback_settles (h : hook) (transport : request -> http_result)
    (s : HookState) :
  joinsDetails h = true ->
  match outcome transport (perform (serviceOf h)) with
  | Fulfilled result => fst (invoke transport (callback h) s) = Fulfilled result
  | Rejected (ThrownApiException ex) =>
      match ex_details ex with
      | VArr details =>
          if existsb nullish details
          then (exists t, fst (invoke transport (callback h) s) = Rejected (ThrownValue t))
               /\ error (cells (snd (invoke transport (callback h) s))) = None
               /\ loading (cells (snd (invoke transport (callback h) s))) = false
          else fst (invoke transport (callback h) s) = Fulfilled VNull
      | _ => fst (invoke transport (callback h) s) = Fulfilled VNull
      end
  | Rejected (ThrownValue _) => fst (invoke transport (callback h) s) = Fulfilled VNull
  end.
Proof.
  intros Hjoin.
  destruct (invoke_callback h transport s) as [req Hinv]. rewrite Hinv. clear Hinv.
  destruct (outcome transport (perform (serviceOf h))) as [result | [ex | v]];
    rewrite ?Hjoin.
  - destruct h; try discriminate; reflexivity.
  - unfold mutationErrorText.
    destruct (ex_details ex) as [| | b | n | str | details | c p];
      try (destruct h; try discriminate; reflexivity).
    destruct (existsb nullish details) eqn:Hnull.
    + destruct (mapMsg_throws details Hnull) as [t Ht]. rewrite Ht. simpl.
      split; [eexists; reflexivity | now split].
    + rewrite (mapMsg_returns details Hnull). simpl.
      destruct h; try discriminate; reflexivity.
  - destruct h; try discriminate; reflexivity.
Qed.

Lemma mutation_callback_settles_witness :
  (exists t, fst (invoke (failingWith nullDetail422) (callback (UseCreateAsset laptop)) staleState)
             = Rejected (ThrownValue t))
  /\ error (cells (snd (invoke (failingWith nullDetail422)
                               (callback (UseCreateAsset laptop)) staleState))) = None
  /\ loading (cells (snd (invoke (failingWith nullDetail422)
                                 (callback (UseCreateAsset laptop)) staleState))) = false.
Proof.
  exact (mutation_callback_settles (UseCreateAsset laptop) (failingWith nullDetail422)
           staleState eq_refl).
Defined.

End DataHooksMore.

(** ** Formatting twice, and the toasts of showError *)

Section ToastsMore.

Import Toast.

(** An already formatted error is a plain object with no transport flag. *)
Lemma formatError_formatted (e : ApiError) :
  formatError (ApiError_to_value e) = Normal unknownError.
Proof.
  rewrite formatError_unfold.
  destruct e as [m [c |] [st |] [d |]]; reflexivity.
Qed.

(** X8. formatError is not idempotent.  Whatever was formatted, formatting
    the result again -- as useFormSubmit and the global error handler do when
    they hand a formatted error to showError -- yields the unexpected-error
    fallback with the code UNKNOWN_ERROR: the message, code and status of the
    first formatting are lost, and the user message is the generic one. *)
Theorem formatError_twice (error : value) :
  exists formatted,
    formatError error = Normal formatted
    /\ formatError (ApiError_to_value formatted) = Normal unknownError
    /\ getUserFriendlyErrorMessage unknownError = VStr "An unexpected error occurred".
Proof.
  eexists. split; [apply formatError_unfold |].
  split; [apply formatError_formatted | reflexivity].
Qed.

(** showError, as one appended toast. *)
Lemma showError_appends (i : string) (err : value) (d : option Z) (toasts : list ToastProps) :
  exists formatted,
    formatError err = Normal formatted
    /\ showError i err d toasts =
       (toasts ++ [{| id := i;
                      message := getUserFriendlyErrorMessage formatted;
                      type := error;
                      duration := match d with Some n => n | None => 8000%Z end |}])%list.
Proof.
  unfold showError. rewrite formatError_unfold.
  eexists. split; [reflexivity | reflexivity].
Qed.

(** X9. showError always adds exactly one toast, of type error, at the end
    of the registry, lasting 8000 ms unless a duration is given.  A string is
    shown as it is (so the error text of a hook is shown verbatim), and an
    already formatted error object is shown as "An unexpected error
    occurred". *)
Theorem showError_toast (i : string) (err : value) (d : option Z) (toasts : list ToastProps) :
  exists text,
    showError i err d toasts =
      (toasts ++ [{| id := i; message := text; type := error;
                     duration := match d with Some n => n | None => 8000%Z end |}])%list
    /\ length (showError i err d toasts) = S (length toasts)
    /\ (forall s, err = VStr s -> text = VStr s)
    /\ (forall e, err = ApiError_to_value e -> text = VStr "An unexpected error occurred").
Proof.
  destruct (showError_appends i err d toasts) as (formatted & Hf & Hshow).
  exists (getUserFriendlyErrorMessage formatted).
  split; [exact Hshow |].
  split; [rewrite Hshow, length_app; simpl; lia |].
  split.
  - intros s ->. rewrite formatError_unfold in Hf. injection Hf as <-.
    unfold axiosFlagged. simpl. rewrite andb_false_r. reflexivity.
  - intros e ->. rewrite formatError_formatted in Hf. injection Hf as <-. reflexivity.
Qed.

Lemma showError_toast_witness :
  exists text,
    showError "t1" (VStr "Failed to delete asset") None [] =
      [{| id := "t1"; message := text; type := error; duration := 8000%Z |}]
    /\ text = VStr "Failed to delete asset".
Proof.
  destruct (showError_toast "t1" (VStr "Failed to delete asset") None [])
    as (text & Hshow & _ & Hstring & _).
  exists text. split; [exact Hshow |]. apply Hstring. reflexivity.
Defined.

Lemma statusSentence_documented (n : Z) :
  In n documentedStatuses -> exists sentence, statusSentence (VNum n) = Some sentence.
Proof.
  intros Hin. simpl in Hin.
  repeat (destruct Hin as [<- | Hin]; [eexists; reflexivity |]).
  destruct Hin.
Qed.

(** X10. For an error the transport flagged whose response has one of the
    documented statuses, showError shows the curated sentence of that status
    -- never the message the server sent -- unless formatError took the
    "Network Error" branch (no usable payload and that message), which drops
    the status. *)
Theorem showError_status_sentence (i : string) (err : value) (d : option Z)
    (toasts : list ToastProps) (n : Z) :
  axiosFlagged err = true ->
  responseStatus err = VNum n ->
  In n documentedStatuses ->
  usablePayload (responseData err) = true \/ prop err "message" <> VStr "Network Error" ->
  exists sentence,
    statusSentence (VNum n) = Some sentence
    /\ showError i err d toasts =
       (toasts ++ [{| id := i; message := VStr sentence; type := error;
                      duration := match d with Some m => m | None => 8000%Z end |}])%list.
Proof.
  intros Hax Hst Hdoc Hbranch.
  destruct (statusSentence_documented n Hdoc) as [sentence Hs].
  exists sentence. split; [exact Hs |].
  destruct (showError_appends i err d toasts) as (formatted & Hf & Hshow).
  rewrite Hshow. do 4 f_equal.
  assert (Hstatus : status formatted = Some (VNum n)).
  { rewrite formatError_unfold, Hax in Hf. injection Hf as <-.
    unfold usablePayload in Hbranch.
    destruct (structuredPayload (responseData err)); [now rewrite <- Hst |].
    destruct (nonEmptyString (responseData err)); [now rewrite <- Hst |].
    destruct Hbranch as [Hb | Hb]; [discriminate |].
    destruct (strict_eq (prop err "message") (VStr "Network Error")) eqn:Heq;
      [| now rewrite <- Hst].
    exfalso. apply Hb. destruct (prop err "message"); simpl in Heq; try discriminate.
    f_equal. now apply String.eqb_eq. }
  unfold getUserFriendlyErrorMessage. rewrite Hstatus. simpl read. rewrite Hs.
  assert (Htruthy : truthy (VNum n) = true).
  { simpl in Hdoc. simpl.
    repeat (destruct Hdoc as [<- | Hdoc]; [reflexivity |]). destruct Hdoc. }
  now rewrite Htruthy.
Qed.

Lemma showError_status_sentence_witness :
  exists sentence,
    statusSentence (VNum 404) = Some sentence
    /\ showError "t1" notFound404 None [] =
       [{| id := "t1"; message := VStr sentence; type := error; duration := 8000%Z |}].
Proof.
  apply (showError_status_sentence "t1" notFound404 None [] 404).
  - reflexivity.
  - reflexivity.
  - simpl. tauto.
  - right. simpl. discriminate.
Defined.

Lemma removeToast_app (i : string) (a b : list ToastProps) :
  removeToast i (a ++ b) = (removeToast i a ++ removeToast i b)%list.
Proof. unfold removeToast. apply filter_app. Qed.

(** X11. Adding and removing compose as a registry should.  Removing the
    identifier a toast was just added under removes that toast again, so with
    a fresh identifier the registry is back as it was; and removing another
    identifier commutes with the addition, leaving the new toast last. *)
Theorem addToast_removeToast (i j : string) (text : value) (ty : ToastType)
    (d : option Z) (toasts : list ToastProps) :
  removeToast i (addToast i text ty d toasts) = removeToast i toasts
  /\ ((forall t, In t toasts -> id t <> i) ->
      removeToast i (addToast i text ty d toasts) = toasts)
  /\ (i <> j ->
      removeToast j (addToast i text ty d toasts) = addToast i text ty d (removeToast j toasts))
  /\ length (addToast i text ty d toasts) = S (length toasts)
  /\ clearAllToasts (addToast i text ty d toasts) = [].
Proof.
  assert (Hsame : removeToast i (addToast i text ty d toasts) = removeToast i toasts).
  { unfold addToast. rewrite removeToast_app. unfold removeToast at 2. simpl.
    rewrite String.eqb_refl. simpl. apply app_nil_r. }
  split; [exact Hsame |].
  split; [intros Hfresh; rewrite Hsame; now apply removeToast_absent |].
  split.
  - intros Hne. unfold addToast. rewrite removeToast_app. f_equal.
    unfold removeToast. simpl.
    destruct (String.eqb_spec i j); [contradiction | reflexivity].
  - split; [unfold addToast; rewrite length_app; simpl; lia | reflexivity].
Qed.

Lemma addToast_removeToast_witness :
  removeToast "t3" (addToast "t3" (VStr "Saved") success None [sampleToast "t1"])
    = [sampleToast "t1"].
Proof.
  apply (proj1 (proj2 (addToast_removeToast "t3" "t1" (VStr "Saved") success None
                         [sampleToast "t1"]))).
  intros t [<- | []]. simpl. discriminate.
Defined.

End ToastsMore.

(** ** useFormSubmit *)

Section FormSubmitProperties.

Import FormSubmit.

Lemma formatError_returns (err : value) : exists formatted, formatError err = Normal formatted.
Proof. eexists. apply formatError_unfold. Qed.

Lemma showError_formatted (i : string) (e : ApiError) (d : option Z)
    (registry : list Toast.ToastProps) :
  Toast.showError i (ApiError_to_value e) d registry =
  (registry ++ [{| Toast.id := i;
                   Toast.message := VStr "An unexpected error occurred";
                   Toast.type := Toast.error;
                   Toast.duration := match d with Some n => n | None => 8000%Z end |}])%list.
Proof.
  unfold Toast.showError. rewrite formatError_formatted. reflexivity.
Qed.

Lemma run_catchBlock (env : environment) (opts : options) (err : value) (w : world)
    (formatted : ApiError) :
  formatError err = Normal formatted ->
  run (handle env) (catchBlock opts err) w =
  (match (if onError opts then onErrorFn env (ApiError_to_value formatted) else Normal tt) with
   | Normal _ => Fulfilled VNull
   | Throw t => Rejected (ThrownValue t)
   end,
   {| loading := false;
      error := ApiError_to_value formatted;
      toasts := (toasts w ++ [genericToast (uuid env (length (toasts w)))])%list;
      steps := (steps w ++ [Error (ApiError_to_value formatted);
                            ErrorToast (ApiError_to_value formatted)]
                ++ (if onError opts then [CalledOnError (ApiError_to_value formatted)] else [])
                ++ [Loading false])%list |}).
Proof.
  intros Hf. unfold catchBlock. rewrite Hf.
  cbn -[Toast.showError ApiError_to_value]. rewrite showError_formatted.
  destruct (onError opts); cbn -[ApiError_to_value].
  - destruct (onErrorFn env (ApiError_to_value formatted));
      cbn -[ApiError_to_value]; rewrite <- !app_assoc; reflexivity.
  - rewrite <- !app_assoc. reflexivity.
Qed.

(** X12. When the submission fails, useFormSubmit stores the formatted
    error in its error cell, calls showError with that formatted error -- so
    the toast always reads "An unexpected error occurred", whatever failed --
    calls onError with it when given, ends with loading false and resolves to
    [null]; it rejects only when onError itself throws. *)
Theorem handleSubmit_failure (env : environment) (opts : options) (w : world) (err : value) :
  submitFn env = SubmitRejected err ->
  exists formatted,
    formatError err = Normal formatted
    /\ error (snd (submit env opts w)) = ApiError_to_value formatted
    /\ toasts (snd (submit env opts w))
       = (toasts w ++ [genericToast (uuid env (length (toasts w)))])%list
    /\ loading (snd (submit env opts w)) = false
    /\ steps (snd (submit env opts w))
       = ([Loading true; Error VNull; Submitted;
           Error (ApiError_to_value formatted); ErrorToast (ApiError_to_value formatted)]
          ++ (if onError opts then [CalledOnError (ApiError_to_value formatted)] else [])
          ++ [Loading false])%list
    /\ fst (submit env opts w)
       = match (if onError opts then onErrorFn env (ApiError_to_value formatted)
                else Normal tt) with
         | Normal _ => Fulfilled VNull
         | Throw t => Rejected (ThrownValue t)
         end.
Proof.
  intros Hsubmit. destruct (formatError_returns err) as [formatted Hf].
  exists formatted. split; [exact Hf |].
  unfold submit, handleSubmit.
  cbn -[catchBlock]. rewrite Hsubmit.
  rewrite (run_catchBlock env opts err _ formatted Hf). cbn -[ApiError_to_value].
  repeat split.
Qed.

Lemma handleSubmit_failure_witness :
  exists formatted,
    formatError notFound404 = Normal formatted
    /\ toasts (snd (submit (quietEnvironment (SubmitRejected notFound404)) noCallbacks idleForm))
       = [genericToast "0"]
    /\ fst (submit (quietEnvironment (SubmitRejected notFound404)) noCallbacks idleForm)
       = Fulfilled VNull.
Proof.
  destruct (handleSubmit_failure (quietEnvironment (SubmitRejected notFound404))
              noCallbacks idleForm notFound404 eq_refl)
    as (formatted & Hf & _ & Htoasts & _ & _ & Hresult).
  exists formatted. split; [exact Hf |]. split; [exact Htoasts | exact Hresult].
Defined.

(** X13. When the submission succeeds, useFormSubmit shows the success
    message if one is given and is not empty, calls onSuccess with the result
    if given, leaves the error null, ends with loading false and resolves to
    the result.  If onSuccess throws, the submission is reported as a failure
    after all: the thrown value is formatted into the error cell, an error
    toast follows the success toast, and the callback resolves to [null]
    (unless onError throws in turn). *)
Theorem handleSubmit_success (env : environment) (opts : options) (w : world) (result : value) :
  submitFn env = SubmitResolved result ->
  (onSuccess opts = false \/ (exists u, onSuccessFn env result = Normal u) ->
   fst (submit env opts w) = Fulfilled result
   /\ error (snd (submit env opts w)) = VNull
   /\ loading (snd (submit env opts w)) = false
   /\ toasts (snd (submit env opts w)) = (toasts w ++ successToasts env opts w)%list)
  /\ (forall t, onSuccess opts = true -> onSuccessFn env result = Throw t ->
      exists formatted,
        formatError t = Normal formatted
        /\ error (snd (submit env opts w)) = ApiError_to_value formatted
        /\ loading (snd (submit env opts w)) = false
        /\ toasts (snd (submit env opts w))
           = ((toasts w ++ successToasts env opts w)
              ++ [genericToast (uuid env (length (toasts w ++ successToasts env opts w)))])%list
        /\ fst (submit env opts w)
           = match (if onError opts then onErrorFn env (ApiError_to_value formatted)
                    else Normal tt) with
             | Normal _ => Fulfilled VNull
             | Throw t' => Rejected (ThrownValue t')
             end).
Proof.
  intros Hsubmit.
  unfold submit, handleSubmit, successToasts.
  cbn -[catchBlock]. rewrite Hsubmit.
  split.
  - intros Hok.
    destruct (successMessage opts) as [m |]; [destruct (String.eqb m "") |];
      cbn -[catchBlock];
      (destruct (onSuccess opts);
       [ destruct Hok as [Hok | [u Hok]]; [discriminate |];
         cbn -[catchBlock]; rewrite Hok
       | ]);
      cbn; rewrite ?app_nil_r; repeat split.
  - intros t Hgiven Hthrows. rewrite Hgiven.
    destruct (formatError_returns t) as [formatted Hf].
    exists formatted. split; [exact Hf |].
    destruct (successMessage opts) as [m |]; [destruct (String.eqb m "") |];
      cbn -[catchBlock]; rewrite Hthrows;
      rewrite (run_catchBlock env opts t _ formatted Hf);
      cbn -[ApiError_to_value]; rewrite ?app_nil_r; repeat split.
Qed.

Lemma handleSubmit_success_witness :
  fst (submit (quietEnvironment (SubmitResolved (VNum 7))) noCallbacks idleForm)
  = Fulfilled (VNum 7)
  /\ error (snd (submit (quietEnvironment (SubmitResolved (VNum 7))) noCallbacks idleForm))
     = VNull.
Proof.
  destruct (handleSubmit_success (quietEnvironment (SubmitResolved (VNum 7)))
              noCallbacks idleForm (VNum 7) eq_refl) as [Hok _].
  destruct (Hok (or_introl eq_refl)) as (Hresult & Herror & _).
  split; [exact Hresult | exact Herror].
Defined.

End FormSubmitProperties.

(** ** The global error handler *)

Section GlobalErrorHandlerProperties.

Import GlobalErrorHandler.

Lemma initialised_listeners (uuid : nat -> string) (k : nat) :
  listeners (initialised uuid k) = k.
Proof.
  induction k as [| k IH]; [reflexivity |].
  unfold initialised in *. simpl. now rewrite IH.
Qed.

Lemma initialised_toast (uuid : nat -> string) (k : nat) :
  showErrorToast (initialised uuid (S k)) = Some (appToast uuid).
Proof. reflexivity. Qed.

Lemma handleGlobalError_toast (uuid : nat -> string) (s : state (list Toast.ToastProps))
    (error : value) (formatted : ApiError) (toasts : list Toast.ToastProps) :
  showErrorToast s = Some (appToast uuid) ->
  formatError error = Normal formatted ->
  handleGlobalError s error toasts =
  ([uncaught formatted], (toasts ++ [genericToast (uuid (length toasts))])%list).
Proof.
  intros Hs Hf. unfold handleGlobalError. rewrite Hf, Hs.
  unfold appToast. rewrite showError_formatted. reflexivity.
Qed.

Lemma dispatch_handleGlobalError (uuid : nat -> string) (s : state (list Toast.ToastProps))
    (error : value) (formatted : ApiError) (n : nat) :
  showErrorToast s = Some (appToast uuid) ->
  formatError error = Normal formatted ->
  forall toasts,
    dispatch n (handleGlobalError s error) toasts =
    (repeat (uncaught formatted) n, (toasts ++ genericToasts uuid (length toasts) n)%list).
Proof.
  intros Hs Hf. induction n as [| n IH]; intros toasts.
  - simpl. unfold genericToasts. simpl. now rewrite app_nil_r.
  - cbn [dispatch]. rewrite (handleGlobalError_toast uuid s error formatted toasts Hs Hf).
    rewrite IH. cbn [repeat app]. f_equal.
    rewrite <- app_assoc. f_equal. unfold genericToasts.
    cbn [seq map app]. rewrite Nat.add_0_r. f_equal.
    rewrite <- seq_shift, map_map. apply map_ext. intros j.
    rewrite length_app. simpl. do 2 f_equal. lia.
Qed.

Lemma dispatch_initialised (uuid : nat -> string) (k : nat) (error : value)
    (formatted : ApiError) (toasts : list Toast.ToastProps) :
  formatError error = Normal formatted ->
  dispatch (listeners (initialised uuid k)) (handleGlobalError (initialised uuid k) error) toasts =
  (repeat (uncaught formatted) k, (toasts ++ genericToasts uuid (length toasts) k)%list).
Proof.
  intros Hf. rewrite initialised_listeners. destruct k as [| k].
  - simpl. unfold genericToasts. simpl. now rewrite app_nil_r.
  - apply (dispatch_handleGlobalError uuid); [apply initialised_toast | exact Hf].
Qed.

(** X14. After the global error handler was initialised [k] times with
    showError (each call adds a fresh pair of listeners; none before the first
    call), one unhandled promise rejection logs the formatted reason [k] times
    and appends [k] error toasts to the registry.  Because the handler passes
    the already formatted error to showError, every one of these toasts reads
    "An unexpected error occurred", whatever was rejected.  An "error" event
    that carries no error object is handled as [new Error(event.message)]:
    what is logged carries that message and the code APP_ERROR, and the
    toasts are the same generic ones. *)
Theorem global_handler_toasts (uuid : nat -> string) (k : nat)
    (toasts : list Toast.ToastProps) :
  (forall reason, exists formatted,
      formatError reason = Normal formatted
      /\ dispatchUnhandledRejection (initialised uuid k) reason toasts =
         (repeat (uncaught formatted) k,
          (toasts ++ genericToasts uuid (length toasts) k)%list))
  /\ (forall m, m <> ""%string ->
      dispatchError (initialised uuid k) (messageEvent m) toasts =
      (repeat (uncaught {| message := VStr m; code := Some (VStr "APP_ERROR");
                           status := None; details := None |}) k,
       (toasts ++ genericToasts uuid (length toasts) k)%list))
  /\ (forall event, truthy (eventError event) = true ->
      dispatchError (initialised uuid k) event toasts =
      dispatchUnhandledRejection (initialised uuid k) (eventError event) toasts)
  /\ length (snd (dispatchUnhandledRejection (initialised uuid k) VNull toasts))
     = length toasts + k.
Proof.
  assert (Hrejection : forall reason, exists formatted,
      formatError reason = Normal formatted
      /\ dispatchUnhandledRejection (initialised uuid k) reason toasts =
         (repeat (uncaught formatted) k,
          (toasts ++ genericToasts uuid (length toasts) k)%list)).
  { intros reason. destruct (formatError_returns reason) as [formatted Hf].
    exists formatted. split; [exact Hf |].
    unfold dispatchUnhandledRejection, onUnhandledRejection.
    now apply dispatch_initialised. }
  split; [exact Hrejection | split; [| split]].
  - intros m Hm. unfold dispatchError, onError, messageEvent. cbn [eventError eventMessage].
    apply dispatch_initialised. rewrite formatError_unfold.
    destruct m as [| c m]; [contradiction |]. reflexivity.
  - intros event Hev. unfold dispatchError, dispatchUnhandledRejection, onError,
      onUnhandledRejection, or_else. now rewrite Hev.
  - destruct (Hrejection VNull) as (formatted & _ & ->).
    cbn [snd]. unfold genericToasts. now rewrite length_app, length_map, length_seq.
Qed.

End GlobalErrorHandlerProperties.

(** ** The pagination controls of the asset list *)

Section Pagination.

Import AssetApi AssetList.


Lemma pageNum_offset (page totalPages i : Z) :
  pageNum page totalPages i = (pageNum page totalPages 0 + i)%Z.
Proof.
  unfold pageNum.
  destruct (totalPages <=? 5)%Z, (page <=? 3)%Z, (page >=? totalPages - 2)%Z; lia.
Qed.

Lemma pageNumbers_hidden (page totalPages : Z) :
  (totalPages <= 1)%Z -> pageNumbers page totalPages = [].
Proof.
  intros H. unfold pageNumbers. destruct (Z.ltb_spec 1 totalPages); [lia | reflexivity].
Qed.

Lemma pageNumbers_consecutive (page totalPages : Z) :
  (1 < totalPages)%Z ->
  pageNumbers page totalPages =
  map (fun i => (pageNum page totalPages 0 + Z.of_nat i)%Z)
      (seq 0 (Z.to_nat (Z.min 5 totalPages))).
Proof.
  intros H. unfold pageNumbers. destruct (Z.ltb_spec 1 totalPages); [| lia].
  apply map_ext. intros i. apply pageNum_offset.
Qed.

Lemma In_pageNumbers (page totalPages n : Z) :
  In n (pageNumbers page totalPages) <->
  (1 < totalPages)%Z
  /\ exists i, (0 <= i < Z.min 5 totalPages)%Z /\ n = (pageNum page totalPages 0 + i)%Z.
Proof.
  destruct (Z.ltb_spec 1 totalPages) as [Hshown | Hhidden].
  - rewrite (pageNumbers_consecutive _ _ Hshown), in_map_iff. split.
    + intros (i & <- & Hi). apply in_seq in Hi. split; [exact Hshown |].
      exists (Z.of_nat i). split; lia.
    + intros (_ & i & Hi & ->). exists (Z.to_nat i). split; [lia |]. apply in_seq. lia.
  - rewrite (pageNumbers_hidden _ _ Hhidden). simpl. split; [tauto | lia].
Qed.

Lemma pageNumbers_range (page totalPages n : Z) :
  In n (pageNumbers page totalPages) -> (1 <= n <= totalPages)%Z.
Proof.
  intros Hn. apply In_pageNumbers in Hn. destruct Hn as (_ & i & Hi & ->).
  unfold pageNum.
  destruct (totalPages <=? 5)%Z eqn:H5; [| destruct (page <=? 3)%Z eqn:H3;
    [| destruct (page >=? totalPages - 2)%Z eqn:Hlast]]; lia.
Qed.



(** X16. Every enabled pagination control asks for a page the service will
    not drop: the numbered buttons, Previous (enabled when page > 1) and Next
    (enabled when page < totalPages) all call handlePageChange with a page of
    at least 1, the listing request that follows is the one of the current
    filters with only the page parameter replaced by that page, and the page
    parameter is always sent. *)
Theorem page_buttons_request (transport : request -> http_result) (filters : AssetFilters)
    (current totalPages n : Z) (s : Hooks.HookState) :
  In n (pageNumbers current totalPages)
  \/ (previousDisabled current = false /\ n = (current - 1)%Z)
  \/ (nextDisabled current totalPages = false /\ (1 <= current)%Z /\ n = (current + 1)%Z) ->
  (1 <= n)%Z
  /\ In (Hooks.Request (GET (assetsUrl (Some (withPage n filters)))))
        (Hooks.steps (snd (Hooks.invoke transport (handlePageChange filters n) s)))
  /\ (forall k v,
        In (k, v) (queryParams (Some (withPage n filters))) <->
        (k = "page" /\ v = number_to_string n)
        \/ (k <> "page" /\ In (k, v) (queryParams (Some filters)))).
Proof.
  intros Hbutton.
  assert (Hn : (1 <= n)%Z).
  { destruct Hbutton as [Hin | [[Hprev ->] | (Hnext & Hcur & ->)]].
    - now apply (pageNumbers_range current totalPages).
    - unfold previousDisabled in Hprev. lia.
    - lia. }
  split; [exact Hn |]. split.
  - unfold handlePageChange, Hooks.fetchAssets, Hooks.fetchAssetsWith.
    rewrite (invoke_fetching transport _ (GET (assetsUrl (Some (withPage n filters))))
               returnData _ s eq_refl).
    destruct (outcome transport _) as [d | [ex | v]]; simpl; tauto.
  - clear Hbutton. intros k v. rewrite !In_queryParams. simpl.
    split; intros H;
      repeat match goal with
             | H : _ \/ _ |- _ => destruct H
             | H : _ /\ _ |- _ => destruct H
             | H : exists _, _ |- _ => destruct H
             | H : Some _ = Some _ |- _ => injection H as H
             end; subst;
      try congruence;
      first
        [ left; repeat split; congruence
        | right; split; [discriminate |]; eauto 10
        | do 3 right; left; split; [reflexivity |]; exists n; repeat split; lia
        | eauto 10
        | right; right; eauto 10 ].
Qed.

Lemma page_buttons_request_witness :
  (1 <= 8)%Z
  /\ In (Hooks.Request
           (GET "/api/assets?search=mac+book&category=Electronics&page=8&page_size=20"))
        (Hooks.steps (snd (Hooks.invoke (respondingWith VNull)
                             (handlePageChange laptopSearch 8) staleState))).
Proof.
  destruct (page_buttons_request (respondingWith VNull) laptopSearch 7 10 8 staleState)
    as (Hn & Hreq & _).
  - right. right. split; [reflexivity |]. lia.
  - split; [exact Hn | exact Hreq].
Defined.

End Pagination.

(** ** The search and filter controls *)

Section SearchFilterProperties.

Import AssetApi SearchFilter.

Lemma orEmpty_orUndefined (s : string) : orEmpty (orUndefined s) = s.
Proof.
  unfold orUndefined. destruct (String.eqb_spec s ""); [now subst | reflexivity].
Qed.

(** X17. The debounced search effect cannot loop.  It calls
    onFiltersChange exactly when the debounced term differs from the search
    text of the filters (a missing one counting as empty); the filters it
    hands over keep category, status and page size, go back to page 1, and
    carry the term as their search text (none when the term is empty); and
    once the parent has stored them the effect, run again with the same
    term, does nothing. *)
Theorem search_effect_settles (filters : AssetFilters) (term : string) :
  (searchEffect filters term = None <-> term = orEmpty (search filters))
  /\ (forall newFilters, searchEffect filters term = Some newFilters ->
      searchEffect newFilters term = None
      /\ orEmpty (search newFilters) = term
      /\ filterCategory newFilters = filterCategory filters
      /\ filterStatus newFilters = filterStatus filters
      /\ page newFilters = Some (Int 1)
      /\ pageSize newFilters = pageSize filters
      /\ (forall v, In ("search", v) (queryParams (Some newFilters)) <->
                    v = term /\ term <> "")).
Proof.
  unfold searchEffect. split.
  - destruct (String.eqb_spec term (orEmpty (search filters))); simpl;
      split; try congruence; tauto.
  - intros newFilters H.
    destruct (String.eqb_spec term (orEmpty (search filters))) as [| Hne]; simpl in H;
      [discriminate |].
    injection H as <-. cbn [search filterCategory filterStatus page pageSize].
    rewrite orEmpty_orUndefined, String.eqb_refl. simpl.
    do 6 (split; [reflexivity |]).
    intros v. rewrite In_queryParams. simpl. unfold orUndefined.
    destruct (String.eqb_spec term "") as [Hterm | Hterm]; split.
    + intros [(_ & H & _) | [(H & _) | [(H & _) | [(H & _) | (H & _)]]]]; discriminate.
    + intros [_ H]. contradiction.
    + intros [(_ & H & _) | [(H & _) | [(H & _) | [(H & _) | (H & _)]]]];
        try discriminate.
      injection H as <-. tauto.
    + intros [-> _]. left. tauto.
Qed.

Lemma search_effect_settles_witness :
  exists newFilters,
    searchEffect noFilters "laptop" = Some newFilters
    /\ searchEffect newFilters "laptop" = None
    /\ page newFilters = Some (Int 1).
Proof.
  eexists. split; [reflexivity |].
  destruct (proj2 (search_effect_settles noFilters "laptop") _ eq_refl)
    as (Hsettled & _ & _ & _ & Hpage & _).
  split; [exact Hsettled | exact Hpage].
Defined.

Lemma hasActiveFilters_query (filters : AssetFilters) :
  hasActiveFilters filters = true <->
  exists k v, In (k, v) (queryParams (Some filters))
              /\ (k = "search" \/ k = "category" \/ k = "status").
Proof.
  unfold hasActiveFilters, orEmpty. split.
  - intros H. apply orb_true_iff in H. destruct H as [H | H];
      [apply orb_true_iff in H; destruct H as [H | H] |].
    + destruct (search filters) as [s |] eqn:Hs; [| discriminate].
      exists "search", s. split; [| tauto]. apply In_queryParams. left.
      destruct (String.eqb_spec s ""); [discriminate | tauto].
    + destruct (filterCategory filters) as [s |] eqn:Hs; [| discriminate].
      exists "category", s. split; [| tauto]. apply In_queryParams. right. left.
      destruct (String.eqb_spec s ""); [discriminate | tauto].
    + destruct (filterStatus filters) as [s |] eqn:Hs; [| discriminate].
      exists "status", s. split; [| tauto]. apply In_queryParams. right. right. left.
      destruct (String.eqb_spec s ""); [discriminate | tauto].
  - intros (k & v & Hin & Hk). apply In_queryParams in Hin.
    destruct Hin as [(_ & -> & Hv) | [(_ & -> & Hv) | [(_ & -> & Hv)
                    | [(-> & _) | (-> & _)]]]];
      try (destruct Hk as [Hk | [Hk | Hk]]; discriminate);
      apply String.eqb_neq in Hv; rewrite Hv; simpl;
      rewrite ?orb_true_r; reflexivity.
Qed.

Lemma cleared_query (filters : AssetFilters) :
  exists n,
    queryParams (Some (snd (handleClearFilters filters)))
      = [("page", "1"); ("page_size", number_to_string n)]
    /\ n <> 0%Z
    /\ (forall m, pageSize filters = Some (Int m) -> m <> 0%Z -> n = m)
    /\ (pageSize filters = None \/ pageSize filters = Some (Int 0)
        \/ pageSize filters = Some NaN -> n = 20%Z).
Proof.
  unfold handleClearFilters. cbn [snd].
  destruct (pageSize filters) as [[m |] |] eqn:Hm;
    [destruct (Z.eqb_spec m 0) as [-> | Hne] | |].
  - exists 20%Z. repeat split; try lia. intros m H. injection H as <-. lia.
  - exists m. unfold queryParams. cbn -[number_to_string].
    unfold appendNumber. cbn -[number_to_string].
    destruct (Z.eqb_spec m 0); [contradiction |].
    repeat split; try assumption; try congruence.
    intros [H | [H | H]]; congruence.
  - exists 20%Z. repeat split; try lia. intros m H. discriminate.
  - exists 20%Z. repeat split; try lia. intros m H. discriminate.
Qed.

(** X18. The "Clear Filters" button is shown exactly when the listing
    request of the filters carries a search, category or status parameter.
    A click empties the search box and hands over filters that show no
    button and whose listing request carries only page=1 and the page size
    that was in use (20 when there was none, or it was 0 or NaN).  What the
    search effect does next depends on the debounced term, which lags behind
    the search box: while it is still a non-empty search the effect hands
    over the cleared filters with that search applied again, so the button is
    back; once the debounced term is the empty text of the search box, the
    effect hands over the cleared filters once more and is idle after that.
    With no search pending the effect is idle right after the click. *)
Theorem clear_filters (filters : AssetFilters) (debounced : string) :
  (hasActiveFilters filters = true <->
   exists k v, In (k, v) (queryParams (Some filters))
               /\ (k = "search" \/ k = "category" \/ k = "status"))
  /\ fst (handleClearFilters filters) = ""
  /\ hasActiveFilters (snd (handleClearFilters filters)) = false
  /\ (exists n,
        queryParams (Some (snd (handleClearFilters filters)))
          = [("page", "1"); ("page_size", number_to_string n)]
        /\ n <> 0%Z
        /\ (forall m, pageSize filters = Some (Int m) -> m <> 0%Z -> n = m)
        /\ (pageSize filters = None \/ pageSize filters = Some (Int 0)
            \/ pageSize filters = Some NaN -> n = 20%Z))
  /\ (debounced = "" -> searchEffect (snd (handleClearFilters filters)) debounced = None)
  /\ (debounced <> "" ->
      exists reapplied,
        searchEffect (snd (handleClearFilters filters)) debounced = Some reapplied
        /\ search reapplied = Some debounced
        /\ hasActiveFilters reapplied = true
        /\ exists again,
             searchEffect reapplied (fst (handleClearFilters filters)) = Some again
             /\ hasActiveFilters again = false
             /\ queryParams (Some again)
                = queryParams (Some (snd (handleClearFilters filters)))
             /\ searchEffect again (fst (handleClearFilters filters)) = None).
Proof.
  split; [apply hasActiveFilters_query |].
  split; [reflexivity |]. split; [reflexivity |].
  split; [apply cleared_query |].
  split.
  - intros ->. reflexivity.
  - intros Hpending. unfold handleClearFilters, searchEffect, orUndefined.
    cbn [fst snd search filterCategory filterStatus page pageSize orEmpty].
    destruct (String.eqb_spec debounced "") as [Hd | _]; [contradiction |].
    cbn [negb]. eexists. split; [reflexivity |].
    cbn [search orEmpty]. split; [reflexivity |].
    split.
    + unfold hasActiveFilters. cbn [search orEmpty].
      destruct (String.eqb_spec debounced ""); [contradiction | reflexivity].
    + destruct (String.eqb_spec "" debounced) as [Hd | _]; [now symmetry in Hd |].
      cbn [negb]. eexists. split; [reflexivity |].
      repeat split.
Qed.

Lemma clear_filters_witness :
  exists reapplied,
    searchEffect (snd (handleClearFilters laptopSearch)) "mac book" = Some reapplied
    /\ search reapplied = Some "mac book"
    /\ hasActiveFilters reapplied = true.
Proof.
  destruct (clear_filters laptopSearch "mac book")
    as (_ & _ & _ & _ & _ & Hpending).
  destruct Hpending as (reapplied & Heffect & Hsearch & Hshown & _); [discriminate |].
  exists reapplied. split; [exact Heffect |]. split; [exact Hsearch | exact Hshown].
Defined.

(** X19. Choosing a category or a status goes back to page 1 and touches
    nothing else: in the listing request of the new filters the chosen
    parameter carries the choice -- or is absent when the empty choice ("All")
    was made -- the page parameter is 1, and every other parameter is as the
    old filters had it. *)
Theorem filter_choice_query (filters : AssetFilters) (choice k v : string) :
  (In (k, v) (queryParams (Some (handleCategoryFilter filters choice))) <->
     (k = "category" /\ v = choice /\ choice <> "")
     \/ (k = "page" /\ v = "1")
     \/ (k <> "category" /\ k <> "page" /\ In (k, v) (queryParams (Some filters))))
  /\ (In (k, v) (queryParams (Some (handleStatusFilter filters choice))) <->
     (k = "status" /\ v = choice /\ choice <> "")
     \/ (k = "page" /\ v = "1")
     \/ (k <> "status" /\ k <> "page" /\ In (k, v) (queryParams (Some filters)))).
Proof.
  split; rewrite !In_queryParams; simpl; unfold orUndefined;
    destruct (String.eqb_spec choice "") as [Hc | Hc];
    (split; intros H;
      repeat match goal with
             | H : _ \/ _ |- _ => destruct H
             | H : _ /\ _ |- _ => destruct H
             | H : exists _, _ |- _ => destruct H
             | H : Some _ = Some _ |- _ => injection H as H
             end; subst;
      try congruence;
      first
        [ left; repeat split; congruence
        | right; left; split; reflexivity
        | right; right; split; [discriminate |]; split; [discriminate |]; eauto 10
        | do 3 right; left; split; [reflexivity |]; exists 1%Z; repeat split; lia
        | eauto 10
        | right; right; eauto 10
        | right; eauto 10 ]).
Qed.

End SearchFilterProperties.

(** ** The asset detail page *)

Section DetailPage.

Import AssetApi AssetDetailPage.

Lemma render_without_asset (n : Z) (asset : value) (error : option string) :
  (0 < n)%Z -> truthy asset = false -> render (Some n) asset false error = notFoundView n.
Proof.
  intros Hn Hasset. unfold render, notFoundView, isNotFound.
  apply Z.ltb_lt in Hn. rewrite Hn, Hasset. simpl. rewrite orb_true_r.
  destruct error as [e |]; simpl; rewrite ?orb_true_r; reflexivity.
Qed.

(** X20. What the detail page shows for a valid id once loading is over.
    Without an asset it shows "Asset Not Found" (404) and no retry button,
    whatever the error text is; the asset is shown exactly when there is one
    and no error; and the "Error Loading Asset" view, the only one with a
    retry button, appears only when an asset is still held and the error
    text is non-empty and mentions neither "404" nor "not found" -- it then
    shows that text, so the "unexpected error" default of that view is never
    displayed. *)
Theorem detail_page_views (n : Z) (asset : value) (error : option string) :
  (0 < n)%Z ->
  (truthy asset = false -> render (Some n) asset false error = notFoundView n)
  /\ (forall shown, render (Some n) asset false error = AssetDetail shown <->
        shown = asset /\ truthy asset = true /\ SearchFilter.orEmpty error = "")
  /\ (forall e title retry,
        render (Some n) asset false error = ErrorDisplay e title retry ->
        retry = true \/ code e = "FETCH_ERROR" \/ title = "Error Loading Asset" ->
        retry = true /\ code e = "FETCH_ERROR" /\ status e = 500%Z
        /\ title = "Error Loading Asset"
        /\ truthy asset = true
        /\ error = Some (message e) /\ message e <> ""
        /\ includes "404" (message e) = false
        /\ includes "not found" (message e) = false).
Proof.
  intros Hn. split; [now apply render_without_asset |].
  unfold render, isNotFound.
  apply Z.ltb_lt in Hn. rewrite Hn. clear Hn.
  split.
  - intros shown.
    destruct error as [e |]; simpl;
      [destruct (String.eqb_spec e "") as [-> | He] |];
      destruct (truthy asset); simpl;
      try (destruct (includes "404" e || includes "not found" e));
      split; try discriminate;
      try (intros H; injection H as <-; tauto);
      try (intros (-> & _ & _); reflexivity);
      intros (_ & H1 & H2); congruence.
  - intros e title retry Hview Hwhich.
    destruct error as [msg |]; simpl in Hview.
    + destruct (String.eqb_spec msg "") as [-> | Hmsg]; simpl in Hview.
      * destruct (truthy asset); simpl in Hview; [discriminate |].
        injection Hview as <- <- <-.
        destruct Hwhich as [H | [H | H]]; discriminate.
      * destruct (includes "404" msg) eqn:H404; simpl in Hview.
        { injection Hview as <- <- <-. destruct Hwhich as [H | [H | H]]; discriminate. }
        destruct (includes "not found" msg) eqn:Hnf; simpl in Hview.
        { injection Hview as <- <- <-. destruct Hwhich as [H | [H | H]]; discriminate. }
        destruct (truthy asset); simpl in Hview.
        { injection Hview as <- <- <-. simpl. rewrite H404, Hnf. repeat split. exact Hmsg. }
        injection Hview as <- <- <-. destruct Hwhich as [H | [H | H]]; discriminate.
    + destruct (truthy asset); simpl in Hview; [discriminate |].
      injection Hview as <- <- <-. destruct Hwhich as [H | [H | H]]; discriminate.
Qed.

Lemma detail_page_views_witness :
  render (Some 7%Z) VNull false (Some "Network error") = notFoundView 7.
Proof.
  apply (proj1 (detail_page_views 7 VNull (Some "Network error") eq_refl)). reflexivity.
Defined.

(** X21. The detail page after the first fetch of a valid id.  Before the
    fetch starts the page already shows "Asset Not Found"; if the request
    fails -- with any error: not found, server error, no connection -- no
    asset was ever stored, so the page shows "Asset Not Found" without a
    retry button; if it succeeds the returned asset is shown (a body that is
    null or empty again counts as not found). *)
Theorem detail_page_first_fetch (transport : request -> http_result) (n : Z) :
  (0 < n)%Z ->
  renderCells n initialCells = notFoundView n
  /\ renderCells n (Hooks.cells (snd (Hooks.invoke transport (Hooks.fetchAsset n) initialCells)))
     = match outcome transport (getAsset n) with
       | Fulfilled d => if truthy d then AssetDetail d else notFoundView n
       | Rejected _ => notFoundView n
       end.
Proof.
  intros Hn.
  pose proof (fun error => render_without_asset n VNull error Hn eq_refl) as Hnull.
  split; [apply Hnull |].
  unfold Hooks.fetchAsset, Hooks.fetchAssetWith.
  rewrite (invoke_fetching transport (getAsset n)
             (GET (BASE_PATH ++ "/" ++ number_to_string n))
             returnData _ initialCells eq_refl).
  destruct (outcome transport (getAsset n)) as [d | [ex | v]]; unfold renderCells;
    cbn [snd Hooks.cells Hooks.data Hooks.loading Hooks.error initialCells];
    try apply Hnull.
  destruct (truthy d) eqn:Hd.
  - unfold render. apply Z.ltb_lt in Hn. rewrite Hn, Hd. reflexivity.
  - now apply render_without_asset.
Qed.

Lemma detail_page_first_fetch_witness :
  renderCells 7 (Hooks.cells (snd (Hooks.invoke (fun _ => Failed networkError)
                                     (Hooks.fetchAsset 7) initialCells)))
  = notFoundView 7.
Proof.
  exact (proj2 (detail_page_first_fetch (fun _ => Failed networkError) 7 eq_refl)).
Defined.

End DetailPage.

(** ** The create and edit pages *)

Section PageSubmit.

Import AssetApi Pages.

Lemma run_callHook {R S : Type} (transport : request -> http_result)
    (p : prog Hooks.hookE R) (k : R -> prog pageE S) :
  forall (h : Hooks.world) (nav : list string),
    run (handle transport) (pbind (callHook p) k) {| hook := h; navigated := nav |} =
    run (handle transport) (k (fst (run (Hooks.handle transport) p h)))
        {| hook := snd (run (Hooks.handle transport) p h); navigated := nav |}.
Proof.
  induction p as [r | X e k' IH]; intros h nav; [reflexivity |].
  cbn [callHook pbind run handle]. cbn [hook navigated].
  destruct (Hooks.handle transport X e h) as [x h']. apply IH.
Qed.

(** X22. Submitting the create or the edit page navigates at most once,
    and only after the service call succeeded with a truthy body: to
    /assets/<id of the created asset>, respectively /assets/<the edited id>.
    After a failed call, and after a successful one whose body is null or
    empty, the page stays where it is; what the hook did to its cells is
    unchanged by the page. *)
Theorem page_submit_navigation (transport : request -> http_result) (s : Hooks.HookState) :
  (forall data,
      navigated (snd (submit transport (createSubmit data) s)) =
        match outcome transport (createAsset data) with
        | Fulfilled result =>
            if truthy result then ["/assets/" ++ to_string (prop result "id")] else []
        | Rejected _ => []
        end
      /\ hook (snd (submit transport (createSubmit data) s))
         = snd (Hooks.invoke transport (Hooks.createAsset data) s))
  /\ (forall assetId data,
      navigated (snd (submit transport (editSubmit assetId data) s)) =
        match outcome transport (updateAsset assetId data) with
        | Fulfilled result =>
            if truthy result then ["/assets/" ++ number_to_string assetId] else []
        | Rejected _ => []
        end
      /\ hook (snd (submit transport (editSubmit assetId data) s))
         = snd (Hooks.invoke transport (Hooks.updateAsset assetId data) s)).
Proof.
  split.
  - intros data. unfold submit, createSubmit. rewrite run_callHook.
    change (run (Hooks.handle transport) (Hooks.createAsset data)
              {| Hooks.cells := s; Hooks.steps := [] |})
      with (Hooks.invoke transport (Hooks.createAsset data) s).
    unfold Hooks.createAsset, Hooks.createAssetWith.
    rewrite (invoke_mutating transport (createAsset data) (POST BASE_PATH data)
               returnData _ s eq_refl).
    destruct (outcome transport (createAsset data)) as [d | [ex | v]];
      cbn [fst snd];
      [destruct (truthy d) | destruct (Hooks.mutationErrorText ex) |];
      split; reflexivity.
  - intros assetId data. unfold submit, editSubmit. rewrite run_callHook.
    change (run (Hooks.handle transport) (Hooks.updateAsset assetId data)
              {| Hooks.cells := s; Hooks.steps := [] |})
      with (Hooks.invoke transport (Hooks.updateAsset assetId data) s).
    unfold Hooks.updateAsset, Hooks.updateAssetWith.
    rewrite (invoke_mutating transport (updateAsset assetId data)
               (PUT (BASE_PATH ++ "/" ++ number_to_string assetId) data) returnData _ s eq_refl).
    destruct (outcome transport (updateAsset assetId data)) as [d | [ex | v]];
      cbn [fst snd];
      [destruct (truthy d) | destruct (Hooks.mutationErrorText ex) |];
      split; reflexivity.
Qed.

End PageSubmit.

(** ** The response interceptor and the typed exception *)

Section InterceptorAgreement.

Import AssetApi.

(** X23. What the response interceptor of [api] logs agrees with the typed
    exception the asset service then makes of the same failure.  For every
    error object the interceptor logs exactly two lines, the first being the
    error itself, and hands the error on unchanged.  The second line is
    "Network error - no response received" exactly when the error has no
    response but a request, the case in which handleApiError reports
    NETWORK_ERROR with status 0; it is "Request setup error:" with the
    error's message exactly when the error has neither, the case in which
    handleApiError reports REQUEST_ERROR with status 0; otherwise it is a
    line about the response, and the exception carries the status of the
    response. *)
Theorem interceptor_agrees (error : value) :
  nullish error = false ->
  exists line ex,
    Http.api_onRejected error = ([[VStr "Response error:"; error]; line], error)
    /\ handleApiError error = Normal ex
    /\ (line = [VStr "Network error - no response received"] <->
        truthy (prop error "response") = false /\ truthy (prop error "request") = true)
    /\ (line = [VStr "Request setup error:"; prop error "message"] <->
        truthy (prop error "response") = false /\ truthy (prop error "request") = false)
    /\ (truthy (prop error "response") = false -> truthy (prop error "request") = true ->
        ex_status ex = VNum 0 /\ ex_code ex = VStr "NETWORK_ERROR")
    /\ (truthy (prop error "response") = false -> truthy (prop error "request") = false ->
        ex_status ex = VNum 0 /\ ex_code ex = VStr "REQUEST_ERROR")
    /\ (truthy (prop error "response") = true -> ex_status ex = responseStatus error).
Proof.
  intros Hnn. rewrite (handleApiError_unfold error Hnn).
  unfold Http.api_onRejected. rewrite (get_defined _ "response" Hnn).
  destruct (truthy (prop error "response")) eqn:Hresponse.
  - eexists. eexists. split; [reflexivity |]. split; [reflexivity |].
    assert (Hline : forall other : logline,
               (forall d, other <> [VStr "Bad Request:"; d]) ->
               other <> [VStr "Unauthorized access"] ->
               other <> [VStr "Forbidden access"] ->
               other <> [VStr "Resource not found"] ->
               other <> [VStr "Internal server error"] ->
               (forall st d, other <> [VStr ("HTTP Error " ++ st ++ ":"); d]) ->
               (if strict_eq (prop (prop error "response") "status") (VNum 400)
                then [VStr "Bad Request:"; prop (prop error "response") "data"]
                else if strict_eq (prop (prop error "response") "status") (VNum 401)
                then [VStr "Unauthorized access"]
                else if strict_eq (prop (prop error "response") "status") (VNum 403)
                then [VStr "Forbidden access"]
                else if strict_eq (prop (prop error "response") "status") (VNum 404)
                then [VStr "Resource not found"]
                else if strict_eq (prop (prop error "response") "status") (VNum 500)
                then [VStr "Internal server error"]
                else [VStr ("HTTP Error "
                            ++ to_string (prop (prop error "response") "status") ++ ":");
                      prop (prop error "response") "data"]) <> other).
    { intros other H400 H401 H403 H404 H500 Hother.
      destruct (strict_eq (prop (prop error "response") "status") (VNum 400));
        [intros H; exact (H400 _ (eq_sym H)) |].
      destruct (strict_eq (prop (prop error "response") "status") (VNum 401));
        [intros H; exact (H401 (eq_sym H)) |].
      destruct (strict_eq (prop (prop error "response") "status") (VNum 403));
        [intros H; exact (H403 (eq_sym H)) |].
      destruct (strict_eq (prop (prop error "response") "status") (VNum 404));
        [intros H; exact (H404 (eq_sym H)) |].
      destruct (strict_eq (prop (prop error "response") "status") (VNum 500));
        [intros H; exact (H500 (eq_sym H)) |].
      intros H; exact (Hother _ _ (eq_sym H)). }
    split; [split; [intros H; exfalso; revert H; apply Hline; try discriminate;
                    intros; discriminate
                   | intros [H _]; discriminate H] |].
    split; [split; [intros H; exfalso; revert H; apply Hline; try discriminate;
                    intros; discriminate
                   | intros [H _]; discriminate H] |].
    split; [intros H; discriminate H |].
    split; [intros H; discriminate H |].
    intros _. reflexivity.
  - destruct (truthy (prop error "request")) eqn:Hrequest.
    + eexists. eexists. split; [reflexivity |]. split; [reflexivity |].
      split; [split; [intros _; split; reflexivity | reflexivity] |].
      split; [split; [intros H; discriminate H | intros [_ H]; discriminate H] |].
      split; [intros _ _; split; reflexivity |].
      split; [intros _ H; discriminate H |].
      intros H; discriminate H.
    + eexists. eexists. split; [reflexivity |]. split; [reflexivity |].
      split; [split; [intros H; discriminate H | intros [_ H]; discriminate H] |].
      split; [split; [intros _; split; reflexivity | reflexivity] |].
      split; [intros _ H; discriminate H |].
      split; [intros _ _; split; reflexivity |].
      intros H; discriminate H.
Qed.

Lemma interceptor_agrees_witness :
  exists line ex,
    Http.api_onRejected networkError = ([[VStr "Response error:"; networkError]; line], networkError)
    /\ handleApiError networkError = Normal ex.
Proof.
  destruct (interceptor_agrees networkError eq_refl) as (line & ex & Hlog & Hex & _).
  exists line, ex. split; [exact Hlog | exact Hex].
Defined.

End InterceptorAgreement.
